(** * HRMS backend: identity, access control and audit trail

    A shallow embedding of the Express route handlers of the HR
    administration backend (authRoutes.js, userRoutes, payrollRecordRoutes.js,
    auditLogRoutes.js, departmentRoutes.js, settingRoutes)
    together with the properties their specification states about them.

    Conventions of the embedding:
    - the Prisma tables are fields of one [Store]; a handler is a function
      from the store to a new store and either a thrown error or a value
      (the monad [M]).  Nothing is rolled back when a handler throws, as in
      the JavaScript, where no transaction is opened;
    - values the handlers obtain from the environment (the clock, fresh
      primary keys, minted tokens, salts) are arguments of the handler;
    - a handler in [M] is one request served to its end; requests whose
      calls fall between each other's [await]s are the threads of
      [Overlap];
    - strings are their UTF-8 bytes; JavaScript numbers that the handlers
      parse from text are [option Z], [None] standing for NaN. *)

From stdpp Require Import base option list strings gmap sorting.
From Stdlib Require Import ZArith Ascii.

Local Open Scope string_scope.
Local Open Scope list_scope.
Local Open Scope Z_scope.

(** ** JavaScript helpers *)

Module Js.

(** A JavaScript number holding an integer, or NaN. *)
Definition num : Type := option Z.

(** Strings are held as their UTF-8 bytes.  The white space and line
    terminators of one byte: TAB, LF, VT, FF, CR and the space. *)
Definition is_space (c : ascii) : bool :=
  let n := nat_of_ascii c in
  bool_decide (n = 32 ∨ (9 ≤ n ∧ n ≤ 13))%nat.

(** U+00A0, the no-break space, is the bytes C2 A0. *)
Definition is_space2 (c1 c2 : ascii) : bool :=
  bool_decide (nat_of_ascii c1 = 194 ∧ nat_of_ascii c2 = 160)%nat.

(** The white space and line terminators of three bytes: U+1680,
    U+2000 to U+200A, U+2028, U+2029, U+202F, U+205F, U+3000 and U+FEFF. *)
Definition is_space3 (c1 c2 c3 : ascii) : bool :=
  let a := nat_of_ascii c1 in
  let b := nat_of_ascii c2 in
  let c := nat_of_ascii c3 in
  bool_decide
    ((a = 225 ∧ b = 154 ∧ c = 128)
     ∨ (a = 226 ∧ b = 128
        ∧ ((128 ≤ c ∧ c ≤ 138) ∨ c = 168 ∨ c = 169 ∨ c = 175))
     ∨ (a = 226 ∧ b = 129 ∧ c = 159)
     ∨ (a = 227 ∧ b = 128 ∧ c = 128)
     ∨ (a = 239 ∧ b = 187 ∧ c = 191))%nat.

(** The string without the white space and line terminators it starts
    with, as [parseInt] skips them. *)
Fixpoint trim_start (s : string) : string :=
  match s with
  | String c1 r1 =>
      if is_space c1 then trim_start r1
      else
        match r1 with
        | String c2 r2 =>
            if is_space2 c1 c2 then trim_start r2
            else
              match r2 with
              | String c3 r3 =>
                  if is_space3 c1 c2 c3 then trim_start r3 else s
              | EmptyString => s
              end
        | EmptyString => s
        end
  | EmptyString => s
  end.

Definition digit_value (c : ascii) : option Z :=
  let n := Z.of_nat (nat_of_ascii c) in
  if bool_decide (48 ≤ n ∧ n ≤ 57) then Some (n - 48)
  else if bool_decide (97 ≤ n ∧ n ≤ 122) then Some (n - 87)
  else if bool_decide (65 ≤ n ∧ n ≤ 90) then Some (n - 55)
  else None.

(** The longest prefix of digits of radix [R], accumulated from the
    left; [None] when no digit was read. *)
Fixpoint digits (R : Z) (acc : option Z) (s : string) : option Z :=
  match s with
  | String c r =>
      match digit_value c with
      | Some d =>
          if bool_decide (d < R) then digits R (Some (default 0 acc * R + d)) r
          else acc
      | None => acc
      end
  | EmptyString => acc
  end.

(** [parseInt(s)] with no radix argument: leading white space is skipped,
    a sign is read, a [0x] prefix selects radix 16, and the longest digit
    prefix is the value.  No digit gives NaN. *)
Definition parseInt (s : string) : num :=
  let s := trim_start s in
  let '(sign, s) :=
    match s with
    | String "-"%char r => (-1, r)
    | String "+"%char r => (1, r)
    | _ => (1, s)
    end in
  let '(R, s) :=
    match s with
    | String "0"%char (String "x"%char r) => (16, r)
    | String "0"%char (String "X"%char r) => (16, r)
    | _ => (10, s)
    end in
  (λ n, sign * n) <$> digits R None s.

(** [Math.max] and [Math.min] on two arguments: NaN is contagious. *)
Definition max (a b : num) : num := x ← a; y ← b; Some (Z.max x y).
Definition min (a b : num) : num := x ← a; y ← b; Some (Z.min x y).

(** [Math.ceil(a / b)] for integers [a >= 0], [b >= 0].  Division by
    zero gives Infinity or NaN, which [res.json] prints as [null]:
    [None]. *)
Definition ceil_div (a b : Z) : num :=
  if bool_decide (b = 0) then None else Some ((a + b - 1) `div` b).

(** Truthiness of an optional string: [undefined] and [""] are falsy. *)
Definition truthy (v : option string) : bool :=
  match v with
  | Some (String _ _) => true
  | _ => false
  end.

End Js.

(** ** Data model *)

Inductive Role := ADMIN | HR | MANAGER | EMPLOYEE.

#[global] Instance Role_eq_dec : EqDecision Role.
Proof. solve_decision. Defined.

(** The employee profile, as far as the handlers read it. *)
Module Employee.
Record t := mk {
  id : string;
  employeeId : string;
  firstName : string;
  lastName : string;
  email : string;
  employmentStatus : string;
  departmentId : option string;
}.
End Employee.

Module User.
Record t := mk {
  id : string;
  email : string;
  password : string;
  role : Role;
  isActive : bool;
  createdAt : Z;
  lastLoginAt : option Z;
  employeeId : option string;
}.

Definition with_lastLoginAt (d : Z) (u : t) : t :=
  mk (id u) (email u) (password u) (role u) (isActive u) (createdAt u)
     (Some d) (employeeId u).
End User.

Module RefreshToken.
Record t := mk {
  userId : string;
  expiresAt : Z;
}.
End RefreshToken.

(** The identity [authenticate] attaches to the request as [req.user]. *)
Module Caller.
Record t := mk {
  id : string;
  role : Role;
  employee : option Employee.t;
}.
End Caller.

Inductive ActionKind := CREATE | UPDATE | DELETE | READ.

#[global] Instance ActionKind_eq_dec : EqDecision ActionKind.
Proof. solve_decision. Defined.


Module PasswordResetToken.
Record t := mk {
  userId : string;
  expiresAt : Z;
  used : bool;
}.
End PasswordResetToken.

Inductive PayrollStatus := DRAFT | PROCESSED | PAID | CANCELLED.

#[global] Instance PayrollStatus_eq_dec : EqDecision PayrollStatus.
Proof. solve_decision. Defined.

(** A payroll row.  Dates are milliseconds since the epoch; the amounts are
    carried in the smallest currency unit and are only copied by the read
    handlers modelled here. *)
Module PayrollRecord.
Record t := mk {
  id : string;
  employeeId : string;
  payPeriodStart : Z;
  payPeriodEnd : Z;
  baseSalary : Z;
  netPay : Z;
  status : PayrollStatus;
  notes : option string;
}.
End PayrollRecord.

Module Department.
Record t := mk {
  id : string;
  name : string;
  managerId : option string;
  parentId : option string;
  description : option string;
  isActive : bool;
}.
End Department.

Module Setting.
Record t := mk {
  id : string;
  key : string;
  value : string;
  category : option string;
  isPublic : option bool;
}.
End Setting.

(** What [res.json] shows of a user after [select] or [delete user.password]. *)
Module PublicUser.
Record t := mk {
  id : string;
  email : string;
  role : Role;
  isActive : bool;
  createdAt : Z;
}.
End PublicUser.

(** The department together with the relations [include] loads. *)
Module DepartmentView.
Record t := mk {
  row : Department.t;
  manager : option Employee.t;
  parent : option Department.t;
}.
End DepartmentView.

(** The request context that [createAuditLog] receives as [req]. *)
Module Req.
Record t := mk {
  ip : string;
  path : string;
}.
End Req.

Inductive Snapshot :=
| SnapUser (u : PublicUser.t)
| SnapDepartment (d : DepartmentView.t)
| SnapPayroll (r : PayrollRecord.t).

Module AuditLogEntry.
Record t := mk {
  userId : string;
  action : ActionKind;
  resource : string;
  resourceId : option string;
  oldValues : option Snapshot;
  newValues : option Snapshot;
  timestamp : Z;
  context : Req.t;
}.
End AuditLogEntry.

(** ** The store *)

Record Store := mkStore {
  users : list User.t;
  employees : list Employee.t;
  refreshTokens : gmap string RefreshToken.t;
  passwordResetTokens : gmap string PasswordResetToken.t;
  auditLogs : list AuditLogEntry.t;
  payrollRecords : list PayrollRecord.t;
  departments : list Department.t;
  settings : list Setting.t;
}.

Definition empty_store : Store := mkStore [] [] ∅ ∅ [] [] [] [].

Definition set_users (f : list User.t → list User.t) (st : Store) : Store :=
  mkStore (f (users st)) (employees st) (refreshTokens st)
    (passwordResetTokens st) (auditLogs st) (payrollRecords st)
    (departments st) (settings st).

Definition set_refreshTokens
    (f : gmap string RefreshToken.t → gmap string RefreshToken.t)
    (st : Store) : Store :=
  mkStore (users st) (employees st) (f (refreshTokens st))
    (passwordResetTokens st) (auditLogs st) (payrollRecords st)
    (departments st) (settings st).

Definition set_passwordResetTokens
    (f : gmap string PasswordResetToken.t → gmap string PasswordResetToken.t)
    (st : Store) : Store :=
  mkStore (users st) (employees st) (refreshTokens st)
    (f (passwordResetTokens st)) (auditLogs st) (payrollRecords st)
    (departments st) (settings st).

Definition set_auditLogs
    (f : list AuditLogEntry.t → list AuditLogEntry.t) (st : Store) : Store :=
  mkStore (users st) (employees st) (refreshTokens st)
    (passwordResetTokens st) (f (auditLogs st)) (payrollRecords st)
    (departments st) (settings st).

Definition set_departments
    (f : list Department.t → list Department.t) (st : Store) : Store :=
  mkStore (users st) (employees st) (refreshTokens st)
    (passwordResetTokens st) (auditLogs st) (payrollRecords st)
    (f (departments st)) (settings st).

Definition set_settings
    (f : list Setting.t → list Setting.t) (st : Store) : Store :=
  mkStore (users st) (employees st) (refreshTokens st)
    (passwordResetTokens st) (auditLogs st) (payrollRecords st)
    (departments st) (f (settings st)).

(** ** Errors and the handler monad *)

(** The error classes of utils/errors.js that the handlers throw, the
    errors the Prisma client raises, and [InvalidToken], [Unauthenticated]
    (401) and [Denied] (403) of the specification's taxonomy, for the
    collaborators that are modelled from it. *)
Inductive Error :=
| ValidationError (message : string) (code : option string)
| AuthenticationError (message : string) (code : string)
| AppError (message : string) (statusCode : Z)
| NotFoundError (message : string)
| PrismaError (code : string)
| BcryptError
| InvalidToken
| Unauthenticated
| Denied.

#[global] Instance Error_eq_dec : EqDecision Error.
Proof. solve_decision. Defined.

Definition M (A : Type) : Type := Store → Store * (Error + A).

#[global] Instance M_ret : MRet M := λ A x st, (st, inr x).
#[global] Instance M_bind : MBind M := λ A B f m st,
  match m st with
  | (st', inr x) => f x st'
  | (st', inl e) => (st', inl e)
  end.

Definition throw {A} (e : Error) : M A := λ st, (st, inl e).
Definition gets {A} (f : Store → A) : M A := λ st, (st, inr (f st)).
Definition modify (f : Store → Store) : M unit := λ st, (f st, inr tt).

(** What the client of a route observes: a response, or an error handed
    to [next]. *)
Inductive Outcome (B : Type) :=
| Respond (status : Z) (body : B)
| Next (e : Error).
Arguments Respond {B} status body.
Arguments Next {B} e.

Definition run {B} (m : M (Z * B)) (st : Store) : Store * Outcome B :=
  match m st with
  | (st', inr (status, body)) => (st', Respond status body)
  | (st', inl e) => (st', Next e)
  end.

(** ** The persistence layer

    Each Prisma call the handlers make, on the tables of [Store].  The
    Prisma schema is missing from the sources; the unique columns are those
    of the specification's persisted layout (the email of a user, the
    value of a token) and the primary keys.  A table refuses a second row
    with the same unique value (P2002); [update] of an absent row raises
    P2025. *)

Definition find_by {A} (P : A → Prop) `{!∀ x, Decision (P x)} (l : list A)
    : option A :=
  snd <$> list_find P l.

Module Prisma.

Definition P2002 : Error := PrismaError "P2002".
Definition P2025 : Error := PrismaError "P2025".
Definition invalid_argument : Error :=
  PrismaError "PrismaClientValidationError".

Module user.
Definition findUnique_email (email : string) : M (option User.t) :=
  gets (λ st, find_by (λ u, User.email u = email) (users st)).

Definition findUnique_id (id : string) : M (option User.t) :=
  gets (λ st, find_by (λ u, User.id u = id) (users st)).

Definition create (u : User.t) : M User.t :=
  byId ← findUnique_id (User.id u);
  byEmail ← findUnique_email (User.email u);
  match byId, byEmail with
  | None, None => modify (set_users (λ l, l ++ [u]));; mret u
  | _, _ => throw P2002
  end.

Definition update_lastLoginAt (id : string) (d : Z) : M User.t :=
  old ← findUnique_id id;
  match old with
  | None => throw P2025
  | Some u =>
      modify (set_users
        (fmap (λ v, if decide (User.id v = id)
                    then User.with_lastLoginAt d v else v)));;
      mret (User.with_lastLoginAt d u)
  end.
End user.

Module refreshToken.
Definition create (token : string) (userId : string) (expiresAt : Js.num)
    : M unit :=
  match expiresAt with
  | None => throw invalid_argument
  | Some e =>
      old ← gets (λ st, refreshTokens st !! token);
      match old with
      | Some _ => throw P2002
      | None =>
          modify (set_refreshTokens
                    (insert token (RefreshToken.mk userId e)))
      end
  end.

Definition deleteMany_userId (userId : string) : M unit :=
  modify (set_refreshTokens
            (filter (λ kv, RefreshToken.userId kv.2 ≠ userId))).
End refreshToken.

End Prisma.

(** ** Collaborators that are not part of the sources *)

(** bcryptjs.  [bcrypt_hash password rounds salt] is [bcrypt.hash], the
    salt being the randomness it draws and [None] a thrown error;
    [bcrypt_compare password hash] is [bcrypt.compare]. *)
Class Bcrypt := {
  bcrypt_hash : string → Js.num → string → option string;
  bcrypt_compare : string → string → bool;
}.

Fixpoint take_bytes (n : nat) (s : string) : string :=
  match n, s with
  | S n, String c r => String c (take_bytes n r)
  | _, _ => EmptyString
  end.

(** The part of a password that bcrypt reads: its first 72 bytes. *)
Definition bcrypt_key (password : string) : string :=
  take_bytes 72 password.


(** The pair [generateTokens] of utils/authUtils.js returns. *)
Module Tokens.
Record t := mk {
  accessToken : string;
  refreshToken : string;
}.
End Tokens.

(** Modelled from the spec: middleware/auditMiddleware.js is missing from
    the sources.  The Audit Recorder's
    [record(actorId, actionKind, resourceType, resourceId, before, after,
    context)] appends one immutable entry with the values it is given and
    the time of the write; the snapshots are the caller's. *)
Definition createAuditLog (now : Z) (userId : string) (action : ActionKind)
    (resource : string) (resourceId : option string)
    (oldValues newValues : option Snapshot) (req : Req.t) : M unit :=
  modify (set_auditLogs (λ l,
    l ++ [AuditLogEntry.mk userId action resource resourceId
            oldValues newValues now req])).

(** ** authRoutes.js *)

Module AuthRoutes.

(** [process.env] *)
Definition Environ : Type := gmap string string.

Definition getEnvVariable (env : Environ) (key defaultValue : string)
    : string :=
  if Js.truthy (env !! key) then default defaultValue (env !! key)
  else defaultValue.

Module RegisterBody.
Record t := mk {
  email : string;
  password : string;
  role : option Role;
}.
End RegisterBody.

Module LoginBody.
Record t := mk {
  email : string;
  password : string;
}.
End LoginBody.

(** The user of the login response: every column but the password, with
    the employee profile that [include] loads. *)
Module LoginUser.
Record t := mk {
  id : string;
  email : string;
  role : Role;
  isActive : bool;
  createdAt : Z;
  lastLoginAt : option Z;
  employee : option Employee.t;
}.
End LoginUser.

Module Body.
Record t (U : Type) := mk {
  status : string;
  message : string;
  user : U;
  accessToken : string;
  refreshToken : string;
}.
Arguments mk {U}.
Arguments status {U}.
Arguments message {U}.
Arguments user {U}.
Arguments accessToken {U}.
Arguments refreshToken {U}.
End Body.

Definition select_public (u : User.t) : PublicUser.t :=
  PublicUser.mk (User.id u) (User.email u) (User.role u) (User.isActive u)
    (User.createdAt u).

Definition include_employee (st : Store) (u : User.t) : LoginUser.t :=
  LoginUser.mk (User.id u) (User.email u) (User.role u) (User.isActive u)
    (User.createdAt u) (User.lastLoginAt u)
    (eid ← User.employeeId u;
     find_by (λ e, Employee.id e = eid) (employees st)).

Definition refresh_expiry (env : Environ) (now : Z) : Js.num :=
  (λ ms, now + ms) <$>
    Js.parseInt (getEnvVariable env "REFRESH_TOKEN_EXPIRES_MS" "604800000").

Definition invalid_credentials : Error :=
  AuthenticationError "Invalid credentials" "INVALID_CREDENTIALS".

Section Handlers.
Context `{hasher : Bcrypt}.

(** Modelled from the spec: the Prisma schema with the column defaults
    of the User model is missing from the sources.  A registered user is
    active (its credentials verify immediately after registration) and
    has neither a last login nor an employee profile yet. *)
Definition new_user (id email hashedPassword : string) (role : Role)
    (now : Z) : User.t :=
  User.mk id email hashedPassword role true now None None.

(** POST /register.  [id] is the primary key the store gives the new
    row, [salt] the randomness of the hash, [minted] what
    [generateTokens] returns. *)
Definition register (env : Environ) (now : Z) (id salt : string)
    (minted : Tokens.t) (req : Req.t) (body : option RegisterBody.t)
    : M (Z * Body.t PublicUser.t) :=
  match body with
  | None =>
      throw (ValidationError "Validation data missing"
               (Some "VALIDATION_FAILED"))
  | Some b =>
      let email := RegisterBody.email b in
      let role := default EMPLOYEE (RegisterBody.role b) in
      existingUser ← Prisma.user.findUnique_email email;
      if bool_decide (is_Some existingUser) then
        throw (ValidationError "User already exists with this email"
                 (Some "USER_EXISTS"))
      else
        let saltRounds :=
          Js.parseInt (getEnvVariable env "BCRYPT_ROUNDS" "12") in
        match bcrypt_hash (RegisterBody.password b) saltRounds salt with
        | None => throw BcryptError
        | Some hashedPassword =>
            created ← Prisma.user.create
                        (new_user id email hashedPassword role now);
            let user := select_public created in
            Prisma.refreshToken.create (Tokens.refreshToken minted)
              (PublicUser.id user) (refresh_expiry env now);;
            createAuditLog now (PublicUser.id user) CREATE "users"
              (Some (PublicUser.id user)) None (Some (SnapUser user)) req;;
            mret (201, Body.mk "success" "User registered successfully"
                         user (Tokens.accessToken minted)
                         (Tokens.refreshToken minted))
        end
  end.

(** The credential check of POST /login: the look-up by email, the
    active flag and the hash comparison. *)
Definition verify (email password : string) : M User.t :=
  user ← Prisma.user.findUnique_email email;
  match user with
  | None => throw invalid_credentials
  | Some user =>
      if negb (User.isActive user) then throw invalid_credentials
      else if negb (bcrypt_compare password (User.password user))
      then throw invalid_credentials
      else mret user
  end.

(** POST /login *)
Definition login (env : Environ) (now : Z) (minted : Tokens.t)
    (body : option LoginBody.t) : M (Z * Body.t LoginUser.t) :=
  match body with
  | None =>
      throw (ValidationError "Validation data missing"
               (Some "VALIDATION_FAILED"))
  | Some b =>
      user ← verify (LoginBody.email b) (LoginBody.password b);
      included ← gets (λ st, include_employee st user);
      Prisma.refreshToken.deleteMany_userId (User.id user);;
      Prisma.refreshToken.create (Tokens.refreshToken minted)
        (User.id user) (refresh_expiry env now);;
      Prisma.user.update_lastLoginAt (User.id user) now;;
      mret (200, Body.mk "success" "Login successful" included
                   (Tokens.accessToken minted)
                   (Tokens.refreshToken minted))
  end.

End Handlers.

(** Modelled from the spec: the refresh route and [verifyRefreshToken]
    are missing from the sources.  [refresh(refreshToken)] fails with
    [InvalidToken] if the token is absent from the ledger or expired
    ([now > expiresAt]); otherwise an access token is issued for the
    token's user and the refresh token itself is not rotated. *)
Definition refresh (now : Z) (accessToken : string) (refreshToken : string)
    : M (string * string) :=
  row ← gets (λ st, refreshTokens st !! refreshToken);
  match row with
  | None => throw InvalidToken
  | Some r =>
      if bool_decide (RefreshToken.expiresAt r < now) then throw InvalidToken
      else mret (RefreshToken.userId r, accessToken)
  end.

End AuthRoutes.

(** ** Requests that overlap

    Node serves a request up to its next [await] and may go on with
    another request before the awaited call returns.  A handler is
    therefore a thread of calls, each of them atomic on the store, between
    which the calls of other requests may fall: the handlers open no
    transaction. *)

Module Overlap.

(** A handler between two awaits: it has answered or thrown, or it awaits
    a call and goes on with what the call returns. *)
Inductive Thread (A : Type) : Type :=
| Finished (r : Error + A)
| Await {X : Type} (call : M X) (resume : X → Thread A).
Arguments Finished {A} r.
Arguments Await {A X} call resume.

(** A rejected call is thrown into the handler's [catch]. *)
Definition resume_with {A X} (resume : X → Thread A) (r : Error + X)
    : Thread A :=
  match r with
  | inr x => resume x
  | inl e => Finished (inl e)
  end.

(** The thread makes the call it awaits. *)
Definition advance {A} (t : Thread A) (st : Store) : Store * Thread A :=
  match t with
  | Finished _ => (st, t)
  | Await call resume =>
      let '(st', r) := call st in (st', resume_with resume r)
  end.

(** The requests in flight and the store they share. *)
Definition Pool (A : Type) : Type := Store * list (Thread A).

(** The request at position [i] makes its next call. *)
Definition step_at {A} (i : nat) (c : Pool A) : Pool A :=
  match c.2 !! i with
  | Some t => let '(st', t') := advance t c.1 in (st', <[i := t']> c.2)
  | None => c
  end.

(** The requests take their turns in the order of the list. *)
Definition schedule {A} (turns : list nat) (c : Pool A) : Pool A :=
  foldl (λ c i, step_at i c) c turns.

(** The thread served to its end with no other request in between. *)
Fixpoint exec {A} (t : Thread A) (st : Store) : Store * (Error + A) :=
  match t with
  | Finished r => (st, r)
  | Await call resume =>
      match call st with
      | (st', inr x) => exec (resume x) st'
      | (st', inl e) => (st', inl e)
      end
  end.

Section Threads.
Context `{hasher : Bcrypt}.

(** POST /login, one [Await] for each [await] of the handler:
    [prisma.user.findUnique] with its [include], [bcrypt.compare],
    [prisma.refreshToken.deleteMany], [prisma.refreshToken.create] and
    [prisma.user.update]. *)
Definition login (env : AuthRoutes.Environ) (now : Z) (minted : Tokens.t)
    (body : option AuthRoutes.LoginBody.t)
    : Thread (Z * AuthRoutes.Body.t AuthRoutes.LoginUser.t) :=
  match body with
  | None =>
      Finished (inl (ValidationError "Validation data missing"
                       (Some "VALIDATION_FAILED")))
  | Some b =>
      Await
        (user ← Prisma.user.findUnique_email (AuthRoutes.LoginBody.email b);
         gets (λ st, (λ u, (u, AuthRoutes.include_employee st u)) <$> user))
        (λ found,
          match found with
          | None => Finished (inl AuthRoutes.invalid_credentials)
          | Some (user, included) =>
              if negb (User.isActive user)
              then Finished (inl AuthRoutes.invalid_credentials)
              else
                Await
                  (mret (bcrypt_compare (AuthRoutes.LoginBody.password b)
                           (User.password user)))
                  (λ isPasswordValid : bool,
                    if negb isPasswordValid
                    then Finished (inl AuthRoutes.invalid_credentials)
                    else
                      Await
                        (Prisma.refreshToken.deleteMany_userId (User.id user))
                        (λ _,
                          Await
                            (Prisma.refreshToken.create
                               (Tokens.refreshToken minted) (User.id user)
                               (AuthRoutes.refresh_expiry env now))
                            (λ _,
                              Await
                                (Prisma.user.update_lastLoginAt
                                   (User.id user) now)
                                (λ _,
                                  Finished
                                    (inr (200,
                                          AuthRoutes.Body.mk "success"
                                            "Login successful" included
                                            (Tokens.accessToken minted)
                                            (Tokens.refreshToken minted)))))))
          end)
  end.

End Threads.

End Overlap.

(** ** The authorization guard *)

Module Guard.

(** Modelled from the spec: middleware/auth.js is missing from the
    sources.  TokenValidated: the access token's signature and expiry are
    checked, failure is [Unauthenticated]; the argument is the outcome of
    that check, the caller's identity when it passed. *)
Definition authenticate (checked : option Caller.t) : Error + Caller.t :=
  match checked with
  | Some caller => inr caller
  | None => inl Unauthenticated
  end.

(** Modelled from the spec: middleware/auth.js is missing from the
    sources.  RoleChecked: the caller's role must be a member of the
    endpoint's declared allowed-role set; failure is [Denied] (403). *)
Definition authorize (allowedRoles : list Role) (caller : Caller.t)
    : Error + Caller.t :=
  if bool_decide (Caller.role caller ∈ allowedRoles) then inr caller
  else inl Denied.

(** [router.METHOD(path, authenticate, authorize(...roles), handler)]:
    the handler runs only when both middlewares call [next()]. *)
Definition route {B} (allowedRoles : list Role) (checked : option Caller.t)
    (handler : Caller.t → Store → Store * Outcome B)
    (st : Store) : Store * Outcome B :=
  match authenticate checked with
  | inl e => (st, Next e)
  | inr caller =>
      match authorize allowedRoles caller with
      | inl e => (st, Next e)
      | inr caller => handler caller st
      end
  end.

End Guard.

(** ** payrollRecordRoutes.js *)

Module PayrollRecordRoutes.

(** The [where] object handed to Prisma. *)
Module Where.
Record t := mk {
  employeeId : option string;
  status : option PayrollStatus;
  gte : option Z;
  lte : option Z;
}.

Definition with_employeeId (e : string) (w : t) : t :=
  mk (Some e) (status w) (gte w) (lte w).

Definition test {A} (o : option A) (p : A → bool) : bool :=
  match o with
  | None => true
  | Some a => p a
  end.

Definition matches (w : t) (r : PayrollRecord.t) : bool :=
  test (employeeId w) (λ e, bool_decide (PayrollRecord.employeeId r = e))
  && test (status w) (λ s, bool_decide (PayrollRecord.status r = s))
  && test (gte w) (λ d, bool_decide (d ≤ PayrollRecord.payPeriodStart r))
  && test (lte w) (λ d, bool_decide (PayrollRecord.payPeriodStart r ≤ d)).
End Where.

(** A row with the employee that [include] loads. *)
Module View.
Record t := mk {
  record : PayrollRecord.t;
  employee : option Employee.t;
}.
End View.

Definition include_employee (st : Store) (r : PayrollRecord.t) : View.t :=
  View.mk r
    (find_by (λ e, Employee.id e = PayrollRecord.employeeId r)
       (employees st)).

(** [orderBy: { payPeriodStart: 'desc' }] *)
Definition newer_first (a b : PayrollRecord.t) : Prop :=
  PayrollRecord.payPeriodStart b ≤ PayrollRecord.payPeriodStart a.

#[global] Instance newer_first_dec a b : Decision (newer_first a b).
Proof. unfold newer_first. apply _. Defined.

Definition selected (w : Where.t) (st : Store) : list PayrollRecord.t :=
  filter (λ r, Where.matches w r = true) (payrollRecords st).

(** [prisma.payrollRecord.findMany]; a negative [skip] is refused by the
    client. *)
Definition findMany (w : Where.t) (skip : Z) (n : N) : M (list View.t) :=
  if bool_decide (skip < 0) then throw Prisma.invalid_argument
  else
    gets (λ st,
      include_employee st <$>
        take (N.to_nat n)
          (drop (Z.to_nat skip) (merge_sort newer_first (selected w st)))).

Definition count (w : Where.t) : M Z :=
  gets (λ st, Z.of_nat (length (selected w st))).

Definition findUnique (id : string) : M (option View.t) :=
  gets (λ st,
    include_employee st <$>
      find_by (λ r, PayrollRecord.id r = id) (payrollRecords st)).

(** The validated query of GET /.  [page] and [limit] match [/^\d+$/] and
    are kept as the numbers [parseInt] reads from them; the dates are
    ISO strings, kept as the instants [new Date] makes of them. *)
Module ListQuery.
Record t := mk {
  page : N;
  limit : N;
  employeeId : option string;
  status : option PayrollStatus;
  startDate : option Z;
  endDate : option Z;
}.
End ListQuery.

Module ListBody.
Record t := mk {
  success : bool;
  records : list View.t;
  page : Z;
  limit : Z;
  total : Z;
  pages : Js.num;
}.
End ListBody.

Module RecordBody.
Record t := mk {
  success : bool;
  record : View.t;
}.
End RecordBody.

(** The [where] object GET / builds from the query parameters. *)
Definition query_where (q : ListQuery.t) : Where.t :=
  Where.mk
    (if Js.truthy (ListQuery.employeeId q) then ListQuery.employeeId q
     else None)
    (ListQuery.status q)
    (ListQuery.startDate q)
    (ListQuery.endDate q).

(** [if (req.user.role === 'EMPLOYEE' && req.user.employee)
       where.employeeId = req.user.employee.id] *)
Definition list_where (q : ListQuery.t) (user : Caller.t) : Where.t :=
  match Caller.role user, Caller.employee user with
  | EMPLOYEE, Some employee =>
      Where.with_employeeId (Employee.id employee) (query_where q)
  | _, _ => query_where q
  end.

(** GET / *)
Definition list_handler (now : Z) (req : Req.t) (q : ListQuery.t)
    (user : Caller.t)
    : M (Z * ListBody.t) :=
  let page := Z.of_N (ListQuery.page q) in
  let limit := Z.of_N (ListQuery.limit q) in
  let skip := (page - 1) * limit in
  let w := list_where q user in
  records ← findMany w skip (ListQuery.limit q);
  total ← count w;
  createAuditLog now (Caller.id user) READ "payroll_records" None None None
    req;;
  mret (200, ListBody.mk true records page limit total
               (Js.ceil_div total limit)).

(** GET /:id *)
Definition get_handler (now : Z) (req : Req.t) (id : string)
    (user : Caller.t)
    : M (Z * RecordBody.t) :=
  record ← findUnique id;
  match record with
  | None => throw (NotFoundError "Payroll record not found")
  | Some record =>
      let owner := PayrollRecord.employeeId (View.record record) in
      if bool_decide (Caller.role user = EMPLOYEE)
         && bool_decide (Employee.id <$> Caller.employee user ≠ Some owner)
      then throw (AppError "Access denied" 403)
      else
        createAuditLog now (Caller.id user) READ "payroll_records" (Some id)
          None None req;;
        mret (200, RecordBody.mk true record)
  end.

Definition allowed_read : list Role := [ADMIN; HR; EMPLOYEE].

(** The routes, behind the guard.  [validated] is what the [validate]
    middleware (validation.js, missing from the sources) makes of the
    request: the parsed data, or the error it hands to [next]. *)
Definition list_route (now : Z) (req : Req.t) (checked : option Caller.t)
    (validated : Error + ListQuery.t) : Store → Store * Outcome ListBody.t :=
  Guard.route allowed_read checked (λ user st,
    match validated with
    | inl e => (st, Next e)
    | inr q => run (list_handler now req q user) st
    end).

Definition get_route (now : Z) (req : Req.t) (checked : option Caller.t)
    (id : string) : Store → Store * Outcome RecordBody.t :=
  Guard.route allowed_read checked (λ user, run (get_handler now req id user)).

End PayrollRecordRoutes.

(** ** auditLogRoutes.js *)

Module AuditLogRoutes.

(** [req.query], each parameter absent or a string. *)
Module RawQuery.
Record t := mk {
  userId : option string;
  action : option string;
  resource : option string;
  page : option string;
  limit : option string;
}.
End RawQuery.

(** [req.validatedData] *)
Module Validated.
Record t := mk {
  userId : option string;
  action : option string;
  resource : option string;
  page : Js.num;
  limit : Js.num;
}.
End Validated.

(** The filter object the handler builds and never uses. *)
Module Filters.
Record t := mk {
  userId : option string;
  action : option string;
  resource : option string;
}.
End Filters.

Inductive Body :=
| Listing (success : bool) (logs : list AuditLogEntry.t) (total : Z)
    (page limit : Js.num)
| SchemaError
| ServerError.

Definition actions : list string := ["CREATE"; "UPDATE"; "DELETE"; "VIEW"].

Definition optional (o : option string) (p : string → bool) : bool :=
  match o with
  | None => true
  | Some s => p s
  end.

Definition keep_truthy (o : option string) : option string :=
  if Js.truthy o then o else None.

Section Schema.
(** zod's [string().uuid()] test *)
Variable is_uuid : string → bool.

(** [auditLogSchema.safeParse(req.query)] *)
Definition safeParse (q : RawQuery.t) : option Validated.t :=
  if optional (RawQuery.userId q) is_uuid
     && optional (RawQuery.action q) (λ a, bool_decide (a ∈ actions))
  then
    Some (Validated.mk (RawQuery.userId q) (RawQuery.action q)
            (RawQuery.resource q)
            (if Js.truthy (RawQuery.page q)
             then Js.max (Some 1)
                    (Js.parseInt (default "" (RawQuery.page q)))
             else Some 1)
            (if Js.truthy (RawQuery.limit q)
             then Js.min (Js.parseInt (default "" (RawQuery.limit q)))
                    (Some 100)
             else Some 10))
  else None.

(** The [validateAuditLog] middleware: 400 on a schema error. *)
Definition validateAuditLog (q : RawQuery.t) : Outcome Body + Validated.t :=
  match safeParse q with
  | None => inl (Respond 400 SchemaError)
  | Some v => inr v
  end.

(** GET / *)
Definition list_handler (v : Validated.t) (st : Store)
    : Store * Outcome Body :=
  let filters :=
    Filters.mk (keep_truthy (Validated.userId v))
      (keep_truthy (Validated.action v))
      (keep_truthy (Validated.resource v)) in
  let logs : list AuditLogEntry.t := [] in
  let total := 0 in
  (st, Respond 200
         (Listing true logs total (Validated.page v) (Validated.limit v))).

Definition list_route (checked : option Caller.t) (q : RawQuery.t)
    : Store → Store * Outcome Body :=
  Guard.route [ADMIN; HR] checked (λ _ st,
    match validateAuditLog q with
    | inl response => (st, response)
    | inr v => list_handler v st
    end).
End Schema.

End AuditLogRoutes.

(** ** departmentRoutes.js *)

Module DepartmentRoutes.

(** The validated body of POST /. *)
Module CreateBody.
Record t := mk {
  name : string;
  managerId : option string;
  parentId : option string;
  isActive : option bool;
  description : option string;
}.
End CreateBody.

Module Body.
Record t := mk {
  success : bool;
  message : string;
  department : DepartmentView.t;
}.
End Body.

Definition findFirst_name (name : string) : M (option Department.t) :=
  gets (λ st, find_by (λ d, Department.name d = name) (departments st)).

Definition findUnique (id : string) : M (option Department.t) :=
  gets (λ st, find_by (λ d, Department.id d = id) (departments st)).

Definition employee_findUnique (id : string) : M (option Employee.t) :=
  gets (λ st, find_by (λ e, Employee.id e = id) (employees st)).

Definition include_relations (st : Store) (d : Department.t)
    : DepartmentView.t :=
  DepartmentView.mk d
    (m ← Department.managerId d;
     find_by (λ e, Employee.id e = m) (employees st))
    (p ← Department.parentId d;
     find_by (λ x, Department.id x = p) (departments st)).

(** [prisma.department.create]; [id] is the key the store gives the row. *)
Definition create (d : Department.t) : M DepartmentView.t :=
  old ← findUnique (Department.id d);
  match old with
  | Some _ => throw Prisma.P2002
  | None =>
      modify (set_departments (λ l, l ++ [d]));;
      gets (λ st, include_relations st d)
  end.

(** POST / *)
Definition create_handler (now : Z) (id : string) (req : Req.t)
    (body : CreateBody.t) (user : Caller.t) : M (Z * Body.t) :=
  let name := CreateBody.name body in
  let managerId := CreateBody.managerId body in
  let parentId := CreateBody.parentId body in
  existingDepartment ← findFirst_name name;
  if bool_decide (is_Some existingDepartment)
  then throw (ValidationError "Department name already exists" None)
  else
    manager ← (if Js.truthy managerId
               then employee_findUnique (default "" managerId)
               else mret None);
    if Js.truthy managerId && bool_decide (manager = None)
    then throw (ValidationError "Manager not found" None)
    else
      parent ← (if Js.truthy parentId
                then findUnique (default "" parentId)
                else mret None);
      if Js.truthy parentId && bool_decide (parent = None)
      then throw (ValidationError "Parent department not found" None)
      else
        department ← create (Department.mk id name managerId parentId
                               (CreateBody.description body) true);
        createAuditLog now (Caller.id user) CREATE "department"
          (Some (Department.id (DepartmentView.row department))) None
          (Some (SnapDepartment department)) req;;
        mret (201, Body.mk true "Department created successfully"
                     department).

(** The route, behind the guard; [validated] is the outcome of the
    [validate] middleware. *)
Definition create_route (now : Z) (id : string) (req : Req.t)
    (checked : option Caller.t) (validated : Error + CreateBody.t)
    : Store → Store * Outcome Body.t :=
  Guard.route [ADMIN; HR] checked (λ user st,
    match validated with
    | inl e => (st, Next e)
    | inr body => run (create_handler now id req body user) st
    end).

End DepartmentRoutes.

(** ** settingRoutes *)

Module SettingRoutes.

(** [req.body] as the client sends it. *)
Module RawBody.
Record t := mk {
  key : option string;
  value : option string;
  category : option string;
  isPublic : option bool;
}.
End RawBody.

(** [settingSchema.parse(req.body)] *)
Module Parsed.
Record t := mk {
  key : string;
  value : string;
  category : option string;
  isPublic : option bool;
}.
End Parsed.

Inductive Body :=
| Created (s : Setting.t)
| SchemaErrors
| ServerError.

(** [settingSchema.parse]: [key] and [value] are strings of at least one
    character. *)
Definition parse (b : RawBody.t) : option Parsed.t :=
  match RawBody.key b, RawBody.value b with
  | Some (String k ks), Some (String v vs) =>
      Some (Parsed.mk (String k ks) (String v vs) (RawBody.category b)
              (RawBody.isPublic b))
  | _, _ => None
  end.

(** The [validateSetting] middleware *)
Definition validateSetting (b : RawBody.t) : Outcome Body + Parsed.t :=
  match parse b with
  | None => inl (Respond 400 SchemaErrors)
  | Some p => inr p
  end.

(** [prisma.setting.create]; [id] is the key the store gives the row. *)
Definition create (id : string) (data : Parsed.t) : M Setting.t :=
  old ← gets (λ st, find_by (λ s, Setting.id s = id) (settings st));
  match old with
  | Some _ => throw Prisma.P2002
  | None =>
      let s := Setting.mk id (Parsed.key data) (Parsed.value data)
                 (Parsed.category data) (Parsed.isPublic data) in
      modify (set_settings (λ l, l ++ [s]));;
      mret s
  end.

(** POST /: [try { ... res.status(201).json(newSetting) } catch { 500 }] *)
Definition create_handler (id : string) (body : Parsed.t) (st : Store)
    : Store * Outcome Body :=
  match create id body st with
  | (st', inr newSetting) => (st', Respond 201 (Created newSetting))
  | (st', inl _) => (st', Respond 500 ServerError)
  end.

Definition create_route (id : string) (checked : option Caller.t)
    (b : RawBody.t) : Store → Store * Outcome Body :=
  Guard.route [ADMIN] checked (λ _ st,
    match validateSetting b with
    | inl response => (st, response)
    | inr body => create_handler id body st
    end).

End SettingRoutes.

(** ** userService *)

Module UserService.

(** Modelled from the spec: the expiry of a reset token is missing from
    the sources with services/userService.js; the specification asks for
    a short expiry of at most one hour: one hour, in milliseconds. *)
Definition RESET_TOKEN_TTL_MS : Z := 3600000.

(** Modelled from the spec: services/userService.js is missing from the
    sources.  [requestReset(email)] always returns success, whether or
    not the email exists; if the user exists, a single-use token with an
    expiry of one hour is created (the token value is unique in the
    ledger, so a minted value that is already there is refused by the
    store).  [token] is the minted value. *)
Definition requestPasswordReset (now : Z) (token : string) (email : string)
    : M unit :=
  user ← Prisma.user.findUnique_email email;
  match user with
  | None => mret tt
  | Some u =>
      old ← gets (λ st, passwordResetTokens st !! token);
      match old with
      | Some _ => throw Prisma.P2002
      | None =>
          modify (set_passwordResetTokens
                    (insert token
                       (PasswordResetToken.mk (User.id u)
                          (now + RESET_TOKEN_TTL_MS) false)))
      end
  end.

Definition with_password (h : string) (u : User.t) : User.t :=
  User.mk (User.id u) (User.email u) h (User.role u) (User.isActive u)
    (User.createdAt u) (User.lastLoginAt u) (User.employeeId u).

Definition consume (r : PasswordResetToken.t) : PasswordResetToken.t :=
  PasswordResetToken.mk (PasswordResetToken.userId r)
    (PasswordResetToken.expiresAt r) true.

(** Modelled from the spec: the single store operation of a successful
    reset (services/userService.js is missing from the sources): the
    owner's password hash is replaced and the token is consumed together
    with that replacement. *)
Definition reset_commit (token userId hash : string) (st : Store) : Store :=
  set_passwordResetTokens (alter consume token)
    (set_users
       (fmap (λ u, if decide (User.id u = userId)
                   then with_password hash u else u)) st).

Section Reset.
Context `{hasher : Bcrypt}.

(** Modelled from the spec: services/userService.js is missing from
    the sources.  [completeReset(token, newPassword)] fails with
    [InvalidToken] if the token is missing, expired or already
    consumed; on success the password hash is replaced and the token
    is consumed in one store operation. *)
Definition resetPassword (now : Z) (saltRounds : Js.num) (salt : string)
    (token newPassword : string) : M unit :=
  row ← gets (λ st, passwordResetTokens st !! token);
  match row with
  | None => throw InvalidToken
  | Some r =>
      if PasswordResetToken.used r
         || bool_decide (PasswordResetToken.expiresAt r < now)
      then throw InvalidToken
      else
        match bcrypt_hash newPassword saltRounds salt with
        | None => throw BcryptError
        | Some h =>
            modify (reset_commit token (PasswordResetToken.userId r) h)
        end
  end.
End Reset.

End UserService.

(** ** userRoutes *)

Module UserRoutes.

(** The validated query of GET /; [page] and [limit] match [/^\d+$/]. *)
Module GetAllQuery.
Record t := mk {
  page : N;
  limit : N;
  search : option string;
  role : option Role;
  isActive : option bool;
}.
End GetAllQuery.

Module Message.
Record t := mk {
  success : bool;
  message : string;
}.
End Message.

Module ListBody.
Record t (D : Type) := mk {
  success : bool;
  message : string;
  data : D;
}.
Arguments mk {D}.
Arguments data {D}.
End ListBody.

Module ResetBody.
Record t := mk {
  token : string;
  newPassword : string;
}.
End ResetBody.

Section ListUsers.
(** [userService.getAllUsers], whose result the handler passes on. *)
Context {Page : Type} (getAllUsers : GetAllQuery.t → M Page).

(** GET / *)
Definition list_handler (now : Z) (req : Req.t) (q : GetAllQuery.t)
    (user : Caller.t) : M (Z * ListBody.t Page) :=
  users ← getAllUsers q;
  createAuditLog now (Caller.id user) READ "users" None None None req;;
  mret (200, ListBody.mk true "Users fetched successfully" users).

(** The route, behind the guard; [validated] is the outcome of the
    [validate] middleware. *)
Definition list_route (now : Z) (req : Req.t) (checked : option Caller.t)
    (validated : Error + GetAllQuery.t)
    : Store → Store * Outcome (ListBody.t Page) :=
  Guard.route [ADMIN; HR] checked (λ user st,
    match validated with
    | inl e => (st, Next e)
    | inr q => run (list_handler now req q user) st
    end).
End ListUsers.

(** POST /reset-password-request, on the validated email *)
Definition reset_password_request (now : Z) (token : string)
    (email : string) : M (Z * Message.t) :=
  UserService.requestPasswordReset now token email;;
  mret (200, Message.mk true "Reset token sent").

(** PATCH /reset-password, on the validated body *)
Definition reset_password `{hasher : Bcrypt} (now : Z) (saltRounds : Js.num)
    (salt : string) (body : ResetBody.t) : M (Z * Message.t) :=
  UserService.resetPassword now saltRounds salt (ResetBody.token body)
    (ResetBody.newPassword body);;
  mret (200, Message.mk true "Password reset successfully").

End UserRoutes.

(** ** authRoutes.js: GET /me *)

Module AuthRoutesMe.

Module Body.
Record t := mk {
  status : string;
  message : string;
  user : AuthRoutes.LoginUser.t;
}.
End Body.

Definition user_not_found : Error :=
  AuthenticationError "User not found" "USER_NOT_FOUND".

(** GET /me, for the identity [authenticate] attached to the request: the
    user is read by id with its employee profile and answered without the
    password.  As in the login response, the relations loaded with the
    profile (department, position and, here, manager) lie outside
    [Employee.t]. *)
Definition me (user : Caller.t) : M (Z * Body.t) :=
  found ← Prisma.user.findUnique_id (Caller.id user);
  match found with
  | None => throw user_not_found
  | Some u =>
      included ← gets (λ st, AuthRoutes.include_employee st u);
      mret (200, Body.mk "success" "User profile retrieved successfully"
                   included)
  end.

End AuthRoutesMe.

(** ** payrollRecordRoutes.js: DELETE /:id *)

Definition set_payrollRecords
    (f : list PayrollRecord.t → list PayrollRecord.t) (st : Store) : Store :=
  mkStore (users st) (employees st) (refreshTokens st)
    (passwordResetTokens st) (auditLogs st) (f (payrollRecords st))
    (departments st) (settings st).

Module PayrollRecordDelete.

Module Body.
Record t := mk {
  success : bool;
  message : string;
}.
End Body.

(** [prisma.payrollRecord.findUnique({ where: { id } })], without
    relations *)
Definition findUnique (id : string) : M (option PayrollRecord.t) :=
  gets (λ st, find_by (λ r, PayrollRecord.id r = id) (payrollRecords st)).

(** [prisma.payrollRecord.delete({ where: { id } })] *)
Definition delete (id : string) : M unit :=
  old ← findUnique id;
  match old with
  | None => throw Prisma.P2025
  | Some _ =>
      modify (set_payrollRecords (filter (λ r, PayrollRecord.id r ≠ id)))
  end.

(** DELETE /:id *)
Definition delete_handler (now : Z) (req : Req.t) (id : string)
    (user : Caller.t) : M (Z * Body.t) :=
  existingRecord ← findUnique id;
  match existingRecord with
  | None => throw (NotFoundError "Payroll record not found")
  | Some existingRecord =>
      if bool_decide (PayrollRecord.status existingRecord ∈ [PROCESSED; PAID])
      then throw (ValidationError
                    "Cannot delete processed or paid payroll records" None)
      else
        delete id;;
        createAuditLog now (Caller.id user) DELETE "payroll_records" (Some id)
          (Some (SnapPayroll existingRecord)) None req;;
        mret (200, Body.mk true "Payroll record deleted successfully")
  end.

End PayrollRecordDelete.

(** ** departmentRoutes.js: PUT /:id and DELETE /:id *)

Module DepartmentMutations.

(** The validated body of PUT /:id: every field is optional. *)
Module UpdateBody.
Record t := mk {
  name : option string;
  managerId : option string;
  parentId : option string;
  isActive : option bool;
  description : option string;
}.
End UpdateBody.

Module DeleteBody.
Record t := mk {
  success : bool;
  message : string;
  department : Department.t;
}.
End DeleteBody.

(** A row as an audit snapshot, when no relation is loaded with it (or the
    loaded lists are empty, as the active employees and children are when
    DELETE writes its entry). *)
Definition plain (d : Department.t) : DepartmentView.t :=
  DepartmentView.mk d None None.

Definition or_keep {A} (new : option A) (old : option A) : option A :=
  match new with
  | Some x => Some x
  | None => old
  end.

(** The columns of [data] that are present replace those of the row. *)
Definition apply_data (data : UpdateBody.t) (d : Department.t)
    : Department.t :=
  Department.mk (Department.id d)
    (default (Department.name d) (UpdateBody.name data))
    (or_keep (UpdateBody.managerId data) (Department.managerId d))
    (or_keep (UpdateBody.parentId data) (Department.parentId d))
    (or_keep (UpdateBody.description data) (Department.description d))
    (default (Department.isActive d) (UpdateBody.isActive data)).

(** [prisma.department.update({ where: { id }, data })] *)
Definition update (id : string) (data : UpdateBody.t) : M Department.t :=
  old ← DepartmentRoutes.findUnique id;
  match old with
  | None => throw Prisma.P2025
  | Some old =>
      modify (set_departments
        (fmap (λ d, if decide (Department.id d = id)
                    then apply_data data d else d)));;
      mret (apply_data data old)
  end.

(** The object PUT /:id spreads into [data]: the name when it is truthy,
    the other fields when they are defined. *)
Definition update_data (body : UpdateBody.t) : UpdateBody.t :=
  UpdateBody.mk
    (if Js.truthy (UpdateBody.name body) then UpdateBody.name body else None)
    (UpdateBody.managerId body) (UpdateBody.parentId body)
    (UpdateBody.isActive body) (UpdateBody.description body).

(** PUT /:id *)
Definition update_handler (now : Z) (req : Req.t) (id : string)
    (body : UpdateBody.t) (user : Caller.t)
    : M (Z * DepartmentRoutes.Body.t) :=
  let name := UpdateBody.name body in
  let managerId := UpdateBody.managerId body in
  let parentId := UpdateBody.parentId body in
  existingDepartment ← DepartmentRoutes.findUnique id;
  match existingDepartment with
  | None => throw (AppError "Department not found" 404)
  | Some existingDepartment =>
      nameConflict ←
        (if Js.truthy name
            && bool_decide (name ≠ Some (Department.name existingDepartment))
         then DepartmentRoutes.findFirst_name (default "" name)
         else mret None);
      if bool_decide (is_Some nameConflict)
      then throw (ValidationError "Department name already exists" None)
      else
        manager ← (if Js.truthy managerId
                   then DepartmentRoutes.employee_findUnique
                          (default "" managerId)
                   else mret None);
        if Js.truthy managerId && bool_decide (manager = None)
        then throw (ValidationError "Manager not found" None)
        else if Js.truthy parentId && bool_decide (parentId = Some id)
        then throw (ValidationError "Department cannot be its own parent"
                      None)
        else
          parent ← (if Js.truthy parentId
                    then DepartmentRoutes.findUnique (default "" parentId)
                    else mret None);
          if Js.truthy parentId && bool_decide (parent = None)
          then throw (ValidationError "Parent department not found" None)
          else
            updated ← update id (update_data body);
            department ← gets (λ st,
              DepartmentRoutes.include_relations st updated);
            createAuditLog now (Caller.id user) UPDATE "department" (Some id)
              (Some (SnapDepartment (plain existingDepartment)))
              (Some (SnapDepartment department)) req;;
            mret (200, DepartmentRoutes.Body.mk true
                         "Department updated successfully" department)
  end.

(** [include: { employees: { where: { employmentStatus: 'ACTIVE' } } }] *)
Definition active_employees (id : string) (st : Store) : list Employee.t :=
  filter (λ e, Employee.departmentId e = Some id
               ∧ Employee.employmentStatus e = "ACTIVE") (employees st).

(** [include: { children: { where: { isActive: true } } }] *)
Definition active_children (id : string) (st : Store) : list Department.t :=
  filter (λ d, Department.parentId d = Some id
               ∧ Department.isActive d = true) (departments st).

Definition deactivate : UpdateBody.t :=
  UpdateBody.mk None None None (Some false) None.

(** DELETE /:id, a soft delete *)
Definition delete_handler (now : Z) (req : Req.t) (id : string)
    (user : Caller.t) : M (Z * DeleteBody.t) :=
  existingDepartment ← DepartmentRoutes.findUnique id;
  match existingDepartment with
  | None => throw (AppError "Department not found" 404)
  | Some existingDepartment =>
      employees ← gets (active_employees id);
      children ← gets (active_children id);
      if bool_decide (0 < length employees)%nat
      then throw (ValidationError
                    "Cannot delete department with active employees" None)
      else if bool_decide (0 < length children)%nat
      then throw (ValidationError
                    "Cannot delete department with active child departments"
                    None)
      else
        department ← update id deactivate;
        createAuditLog now (Caller.id user) DELETE "department" (Some id)
          (Some (SnapDepartment (plain existingDepartment)))
          (Some (SnapDepartment (plain department))) req;;
        mret (200, DeleteBody.mk true "Department deleted successfully"
                     department)
  end.

End DepartmentMutations.

(** ** settingRoutes: GET /:id, PUT /:id and DELETE /:id *)

Module SettingCrud.

(** The JSON bodies of these routes: a setting, [{ message }] or
    [{ error }]. *)
Inductive Answer :=
| Row (s : Setting.t)
| Message (message : string)
| Failure (error : string).

(** [error.code] *)
Definition error_code (e : Error) : option string :=
  match e with
  | PrismaError code => Some code
  | ValidationError _ code => code
  | AuthenticationError _ code => Some code
  | _ => None
  end.

Definition findUnique (id : string) : M (option Setting.t) :=
  gets (λ st, find_by (λ s, Setting.id s = id) (settings st)).

(** The columns a parsed body replaces: [key] and [value] always,
    [category] and [isPublic] when they are given. *)
Definition apply_data (data : SettingRoutes.Parsed.t) (s : Setting.t)
    : Setting.t :=
  Setting.mk (Setting.id s) (SettingRoutes.Parsed.key data)
    (SettingRoutes.Parsed.value data)
    (DepartmentMutations.or_keep (SettingRoutes.Parsed.category data)
       (Setting.category s))
    (DepartmentMutations.or_keep (SettingRoutes.Parsed.isPublic data)
       (Setting.isPublic s)).

(** [prisma.setting.update({ where: { id }, data })] *)
Definition update (id : string) (data : SettingRoutes.Parsed.t)
    : M Setting.t :=
  old ← findUnique id;
  match old with
  | None => throw Prisma.P2025
  | Some old =>
      modify (set_settings
        (fmap (λ s, if decide (Setting.id s = id)
                    then apply_data data s else s)));;
      mret (apply_data data old)
  end.

(** [prisma.setting.delete({ where: { id } })] *)
Definition delete (id : string) : M unit :=
  old ← findUnique id;
  match old with
  | None => throw Prisma.P2025
  | Some _ => modify (set_settings (filter (λ s, Setting.id s ≠ id)))
  end.

(** GET /:id *)
Definition get_handler (id : string) (st : Store) : Store * Outcome Answer :=
  match findUnique id st with
  | (st', inr (Some setting)) => (st', Respond 200 (Row setting))
  | (st', inr None) => (st', Respond 404 (Failure "Setting not found"))
  | (st', inl _) => (st', Respond 500 (Failure "Server error"))
  end.

(** PUT /:id *)
Definition update_handler (id : string) (body : SettingRoutes.Parsed.t)
    (st : Store) : Store * Outcome Answer :=
  match update id body st with
  | (st', inr updatedSetting) => (st', Respond 200 (Row updatedSetting))
  | (st', inl error) =>
      if bool_decide (error_code error = Some "P2025")
      then (st', Respond 404 (Failure "Setting not found"))
      else (st', Respond 500 (Failure "Server error"))
  end.

(** DELETE /:id *)
Definition delete_handler (id : string) (st : Store)
    : Store * Outcome Answer :=
  match delete id st with
  | (st', inr _) => (st', Respond 200 (Message "Setting deleted"))
  | (st', inl error) =>
      if bool_decide (error_code error = Some "P2025")
      then (st', Respond 404 (Failure "Setting not found"))
      else (st', Respond 500 (Failure "Server error"))
  end.

End SettingCrud.

(** ** userRoutes: GET /:id and GET /:id/activity *)

Module UserRoutesAccess.

Module UserBody.
Record t (U : Type) := mk {
  success : bool;
  message : string;
  user : U;
}.
Arguments mk {U}.
Arguments user {U}.
End UserBody.

(** What the handler hands to [userService.getUserActivity]. *)
Module Paging.
Record t := mk {
  page : Z;
  limit : Z;
}.
End Paging.

(** [parseInt(value) || fallback]: NaN and 0 are falsy. *)
Definition parse_or (value : option string) (fallback : Z) : Z :=
  match Js.parseInt (default "undefined" value) with
  | None => fallback
  | Some n => if bool_decide (n = 0) then fallback else n
  end.

Section Services.
(** [userService.getUser] and [userService.getUserActivity], whose
    results the handlers pass on. *)
Context {U A : Type}.
Variable getUser : string → M (option U).
Variable getUserActivity : string → Paging.t → M A.

(** GET /:id *)
Definition get_handler (now : Z) (req : Req.t) (id : string)
    (user : Caller.t) : M (Z * UserBody.t U) :=
  if bool_decide (id ≠ Caller.id user)
     && negb (bool_decide (Caller.role user ∈ [ADMIN; HR]))
  then throw (AppError "Unauthorized access" 403)
  else
    found ← getUser id;
    match found with
    | None => throw (AppError "User not found" 404)
    | Some u =>
        createAuditLog now (Caller.id user) READ "users" (Some id) None None
          req;;
        mret (200, UserBody.mk true "User fetched successfully" u)
    end.

(** GET /:id/activity, on the raw [page] and [limit] of the query *)
Definition activity_handler (now : Z) (req : Req.t) (id : string)
    (page limit : option string) (user : Caller.t)
    : M (Z * UserRoutes.ListBody.t A) :=
  let page := parse_or page 1 in
  let limit := parse_or limit 20 in
  activities ← getUserActivity id (Paging.mk page limit);
  createAuditLog now (Caller.id user) READ "audit_logs" (Some id) None None
    req;;
  mret (200, UserRoutes.ListBody.mk true "Activity logs fetched successfully"
               activities).
End Services.

End UserRoutesAccess.

(** ** hooks/usePermissions *)

Module Permissions.

(** The hook over the signed-in user of the auth context, [None] when
    nobody is signed in. *)
Section Hook.
Variable user : option Caller.t.

Definition hasRole (requiredRoles : list Role) : bool :=
  match user, requiredRoles with
  | None, _ => false
  | _, [] => false
  | Some u, _ => bool_decide (Caller.role u ∈ requiredRoles)
  end.

Definition isAdmin : bool := bool_decide (Caller.role <$> user = Some ADMIN).
Definition isHR : bool := bool_decide (Caller.role <$> user = Some HR).
Definition isManager : bool :=
  bool_decide (Caller.role <$> user = Some MANAGER).
Definition isEmployee : bool :=
  bool_decide (Caller.role <$> user = Some EMPLOYEE).

Definition canManageEmployees : bool := hasRole [ADMIN; HR].
Definition canViewReports : bool := hasRole [ADMIN; HR; MANAGER].
Definition canManagePayroll : bool := hasRole [ADMIN; HR].
Definition canApproveLeave : bool := hasRole [ADMIN; HR; MANAGER].
Definition canAccessSettings : bool := hasRole [ADMIN].
End Hook.

End Permissions.

(** ** A concrete hasher

    An instance of the hasher interface that is used to run the handlers on
    examples: the hash is what bcrypt reads of the password, behind a fixed
    marker. *)
Definition plain_bcrypt : Bcrypt :=
  {| bcrypt_hash := λ p _ _, Some ("$2a$" +:+ bcrypt_key p);
     bcrypt_compare := λ p h, bool_decide (h = "$2a$" +:+ bcrypt_key p) |}.

(** ** Predicates of the specification *)

(** The three ways in which a pair of credentials is rejected: no user has
    the email, the user is inactive, the hash comparison fails. *)
Definition credentials_rejected `{hasher : Bcrypt} (st : Store)
    (email password : string) : Prop :=
  find_by (λ u, User.email u = email) (users st) = None
  ∨ (∃ u, find_by (λ u, User.email u = email) (users st) = Some u
          ∧ User.isActive u = false)
  ∨ (∃ u, find_by (λ u, User.email u = email) (users st) = Some u
          ∧ bcrypt_compare password (User.password u) = false).






(** The audit entries a response of the audit-log listing carries. *)
Definition returned_logs (o : Outcome AuditLogRoutes.Body)
    : list AuditLogEntry.t :=
  match o with
  | Respond _ (AuditLogRoutes.Listing _ logs _ _ _) => logs
  | _ => []
  end.

(** A reset token that cannot be used at time [now]: missing from the
    ledger, already consumed, or expired. *)
Definition token_unusable (st : Store) (now : Z) (token : string) : Prop :=
  passwordResetTokens st !! token = None
  ∨ ∃ row, passwordResetTokens st !! token = Some row
           ∧ (PasswordResetToken.used row = true
              ∨ PasswordResetToken.expiresAt row < now).

(** One request to POST /, PUT /:id or DELETE /:id of the departments,
    served to its end, on any input and for any caller. *)
Inductive department_step : Store → Store → Prop :=
| step_department_create now id req body user st :
    department_step st
      (run (DepartmentRoutes.create_handler now id req body user) st).1
| step_department_update now req id body user st :
    department_step st
      (run (DepartmentMutations.update_handler now req id body user) st).1
| step_department_delete now req id user st :
    department_step st
      (run (DepartmentMutations.delete_handler now req id user) st).1.

(** No two departments share an id, and no two share a name. *)
Definition departments_distinct (st : Store) : Prop :=
  NoDup (Department.id <$> departments st)
  ∧ NoDup (Department.name <$> departments st).

(** The body of PUT /:id asks for a new name that some department has:
    the name is not empty and is not the name of the department [d]
    itself. *)
Definition update_name_taken (st : Store) (d : Department.t)
    (body : DepartmentMutations.UpdateBody.t) : Prop :=
  ∃ n other,
    DepartmentMutations.UpdateBody.name body = Some n
    ∧ n ≠ "" ∧ n ≠ Department.name d
    ∧ find_by (λ x, Department.name x = n) (departments st) = Some other.

(** The body names a manager, and no employee has that id. *)
Definition update_manager_unknown (st : Store)
    (body : DepartmentMutations.UpdateBody.t) : Prop :=
  ∃ m,
    DepartmentMutations.UpdateBody.managerId body = Some m
    ∧ m ≠ ""
    ∧ find_by (λ e, Employee.id e = m) (employees st) = None.

(** The body names the department [id] itself as its parent. *)
Definition update_own_parent (id : string)
    (body : DepartmentMutations.UpdateBody.t) : Prop :=
  DepartmentMutations.UpdateBody.parentId body = Some id ∧ id ≠ "".

(** The body names a parent, and no department has that id. *)
Definition update_parent_unknown (st : Store)
    (body : DepartmentMutations.UpdateBody.t) : Prop :=
  ∃ p,
    DepartmentMutations.UpdateBody.parentId body = Some p
    ∧ p ≠ ""
    ∧ find_by (λ x, Department.id x = p) (departments st) = None.

(** ** Example data *)

Definition alice_registration : AuthRoutes.RegisterBody.t :=
  AuthRoutes.RegisterBody.mk "alice@example.com" "password1" None.

Definition alice_login : AuthRoutes.LoginBody.t :=
  AuthRoutes.LoginBody.mk "alice@example.com" "password1".


(** The store after alice has registered on an empty system. *)
Definition alice_store : Store :=
  (run (AuthRoutes.register (hasher:=plain_bcrypt) ∅ 1000 "u-1" "salt"
          (Tokens.mk "access-0" "refresh-0") (Req.mk "10.0.0.1" "/register")
          (Some alice_registration)) empty_store).1.

Definition alice_profile : Employee.t :=
  Employee.mk "e-1" "EMP001" "Alice" "Adams" "alice@example.com" "ACTIVE" None.

Definition bob_profile : Employee.t :=
  Employee.mk "e-2" "EMP002" "Bob" "Brown" "bob@example.com" "ACTIVE" None.

Definition alice_payslip : PayrollRecord.t :=
  PayrollRecord.mk "p-1" "e-1" 100 200 500000 400000 PAID None.

Definition bob_payslip : PayrollRecord.t :=
  PayrollRecord.mk "p-2" "e-2" 300 400 700000 550000 PAID None.

(** Two employees with one payroll record each, and two stored audit
    entries. *)
Definition payroll_store : Store :=
  mkStore [] [alice_profile; bob_profile] ∅ ∅
    [AuditLogEntry.mk "u-9" CREATE "payroll_records" (Some "p-1") None
       (Some (SnapPayroll alice_payslip)) 50 (Req.mk "10.0.0.9" "/payroll");
     AuditLogEntry.mk "u-9" CREATE "payroll_records" (Some "p-2") None
       (Some (SnapPayroll bob_payslip)) 60 (Req.mk "10.0.0.9" "/payroll")]
    [alice_payslip; bob_payslip] [] [].

(** alice, an EMPLOYEE linked to her profile; carol, an EMPLOYEE whose user
    has no employee profile; dana, an administrator. *)
Definition alice : Caller.t := Caller.mk "u-1" EMPLOYEE (Some alice_profile).
Definition carol : Caller.t := Caller.mk "u-3" EMPLOYEE None.
Definition dana : Caller.t := Caller.mk "u-4" ADMIN None.

Definition a_request : Req.t := Req.mk "10.0.0.1" "/api".

Definition first_page : PayrollRecordRoutes.ListQuery.t :=
  PayrollRecordRoutes.ListQuery.mk 1 10 None None None None.

(** A schema test that accepts every string, for running the listing. *)
Definition any_uuid (s : string) : bool := true.

Definition audit_query : AuditLogRoutes.RawQuery.t :=
  AuditLogRoutes.RawQuery.mk None (Some "CREATE") (Some "payroll_records")
    (Some "2") (Some "500").

Definition theme_setting : SettingRoutes.RawBody.t :=
  SettingRoutes.RawBody.mk (Some "theme") (Some "dark") None (Some true).

(** The store after alice, registered, has asked for a password reset. *)
Definition alice_reset_store : Store :=
  (UserService.requestPasswordReset 2000 "reset-1" "alice@example.com"
     alice_store).1.

(** alice, active, and bob, deactivated; both passwords are "password1". *)
Definition two_users_store : Store :=
  set_users (λ l,
    l ++ [User.mk "u-2" "bob@example.com" "$2a$password1" EMPLOYEE false
            1500 None None]) alice_store.

(** The two users, with a refresh token of bob in the ledger beside
    alice's. *)
Definition two_sessions_store : Store :=
  set_refreshTokens (insert "refresh-9" (RefreshToken.mk "u-2" 700000000))
    two_users_store.

Definition alice_draft : PayrollRecord.t :=
  PayrollRecord.mk "p-3" "e-1" 500 600 500000 400000 DRAFT None.

(** The payroll store with a third record, still a draft. *)
Definition draft_store : Store :=
  set_payrollRecords (λ l, l ++ [alice_draft]) payroll_store.

Definition erin_profile : Employee.t :=
  Employee.mk "e-5" "EMP005" "Erin" "Evans" "erin@example.com" "ACTIVE"
    (Some "d-1").

Definition engineering : Department.t :=
  Department.mk "d-1" "Engineering" None None None true.
Definition platform : Department.t :=
  Department.mk "d-2" "Platform" None (Some "d-1") None true.
Definition sales : Department.t :=
  Department.mk "d-3" "Sales" None None None true.

(** Three departments: Engineering, with an active employee and the child
    Platform, and Sales. *)
Definition org_store : Store :=
  mkStore [] [erin_profile] ∅ ∅ [] [] [engineering; platform; sales] [].

Definition theme_parsed : SettingRoutes.Parsed.t :=
  SettingRoutes.Parsed.mk "theme" "dark" (Some "ui") (Some true).

(** The payroll store after the theme setting has been created. *)
Definition settings_store : Store :=
  (SettingRoutes.create_handler "s-1" theme_parsed payroll_store).1.

(** * Properties *)

(** ** JavaScript helpers and the handler monad *)

Example parseInt_examples :
  Js.parseInt "604800000" = Some 604800000
  ∧ Js.parseInt "  -12px" = Some (-12)
  ∧ Js.parseInt "0x1f" = Some 31
  ∧ Js.parseInt "abc" = None
  ∧ Js.parseInt "" = None.
Proof. repeat split; reflexivity. Qed.

(** White space beyond ASCII is skipped as well: a no-break space
    (U+00A0) and an ideographic space (U+3000) in front of the digits. *)
Example parseInt_unicode_space :
  Js.parseInt (String "194" (String "160" "5")) = Some 5
  ∧ Js.parseInt (String "227" (String "128" (String "128" " 20")))
    = Some 20
  ∧ Js.parseInt (String "194" "5") = None.
Proof. repeat split; reflexivity. Qed.

Example refresh_expiry_default :
  AuthRoutes.refresh_expiry ∅ 1000 = Some 604801000
  ∧ AuthRoutes.refresh_expiry {["REFRESH_TOKEN_EXPIRES_MS" := "60000"]} 1000
    = Some 61000
  ∧ AuthRoutes.refresh_expiry {["REFRESH_TOKEN_EXPIRES_MS" := "soon"]} 1000
    = None.
Proof. repeat split; vm_compute; reflexivity. Qed.

Ltac unfold_M :=
  unfold run, mbind, M_bind, mret, M_ret, throw, gets, modify in *.

Lemma find_by_app_None {A} (P : A → Prop) `{!∀ x, Decision (P x)}
    (l : list A) (x : A) :
  find_by P l = None →
  find_by P (l ++ [x]) = if decide (P x) then Some x else None.
Proof.
  unfold find_by. induction l as [|y l IH]; simpl.
  - intros _. destruct (decide (P x)); reflexivity.
  - destruct (decide (P y)); [discriminate|].
    destruct (list_find P l) as [[i z]|] eqn:E; simpl; [discriminate|].
    intros _. specialize (IH eq_refl).
    destruct (list_find P (l ++ [x])) as [[j w]|]; simpl in *;
      destruct (decide (P x)); simplify_eq; reflexivity.
Qed.

Lemma find_by_Some {A} (P : A → Prop) `{!∀ x, Decision (P x)}
    (l : list A) (x : A) :
  find_by P l = Some x → x ∈ l ∧ P x.
Proof.
  unfold find_by. destruct (list_find P l) as [[i y]|] eqn:E; simpl; [|done].
  intros [= ->]. apply list_find_Some in E as (Hl & HP & _).
  split; [by eapply list_elem_of_lookup_2|done].
Qed.

Lemma find_by_None {A} (P : A → Prop) `{!∀ x, Decision (P x)} (l : list A) :
  find_by P l = None → ∀ x, x ∈ l → ¬ P x.
Proof.
  unfold find_by. destruct (list_find P l) as [[i y]|] eqn:E; simpl; [done|].
  intros _. apply list_find_None in E. intros x Hx.
  by eapply Forall_forall in E.
Qed.

(** ** Credential verification *)

Section Credentials.
Context `{hasher : Bcrypt}.

Lemma verify_rejected st email password :
  credentials_rejected st email password →
  AuthRoutes.verify email password st
  = (st, inl AuthRoutes.invalid_credentials).
Proof.
  unfold AuthRoutes.verify, Prisma.user.findUnique_email.
  unfold_M.
  intros [E|[(u & E & Hu)|(u & E & Hu)]]; rewrite E; [done| |].
  - by rewrite Hu.
  - rewrite Hu. by destruct (User.isActive u).
Qed.

Lemma verify_accepted st email password :
  ¬ credentials_rejected st email password →
  ∃ u, AuthRoutes.verify email password st = (st, inr u)
       ∧ find_by (λ u, User.email u = email) (users st) = Some u.
Proof.
  unfold credentials_rejected, AuthRoutes.verify,
    Prisma.user.findUnique_email.
  unfold_M. intros Hn.
  destruct (find_by _ (users st)) as [u|] eqn:E; [|tauto].
  exists u.
  destruct (User.isActive u) eqn:Ha; [|exfalso; naive_solver].
  destruct (bcrypt_compare password (User.password u)) eqn:Hc;
    [done|exfalso; naive_solver].
Qed.

(** C4: whichever of the three reasons rejects the credentials (no user
    with that email, an inactive user, a hash that does not match), the
    verification throws the same [AuthenticationError] "Invalid
    credentials" / INVALID_CREDENTIALS, POST /login hands exactly that
    error to the client, and the store is left as it was. *)
Theorem login_rejects_uniformly (env : AuthRoutes.Environ) (now : Z)
    (minted : Tokens.t) (st : Store) (email password : string) :
  credentials_rejected st email password →
  AuthRoutes.verify email password st
  = (st, inl (AuthenticationError "Invalid credentials"
                "INVALID_CREDENTIALS"))
  ∧ run (AuthRoutes.login env now minted
           (Some (AuthRoutes.LoginBody.mk email password))) st
    = (st, Next (AuthenticationError "Invalid credentials"
                   "INVALID_CREDENTIALS")).
Proof.
  intros Hr. pose proof (verify_rejected _ _ _ Hr) as Hv.
  split; [exact Hv|].
  unfold AuthRoutes.login. simpl. unfold run, mbind, M_bind at 1.
  by rewrite Hv.
Qed.

End Credentials.

(** An unknown email, a deactivated user with the right password and an
    active user with a wrong password are answered alike. *)
Example login_three_rejections :
  let attempt email password :=
    run (AuthRoutes.login (hasher:=plain_bcrypt) ∅ 2000
           (Tokens.mk "access-1" "refresh-1")
           (Some (AuthRoutes.LoginBody.mk email password))) two_users_store in
  let refused :=
    (two_users_store,
     Next (AuthenticationError "Invalid credentials" "INVALID_CREDENTIALS")) in
  attempt "nobody@example.com" "password1" = refused
  ∧ attempt "bob@example.com" "password1" = refused
  ∧ attempt "alice@example.com" "password2" = refused
  ∧ (attempt "alice@example.com" "password1").2
    = Respond 200
        (AuthRoutes.Body.mk "success" "Login successful"
           (AuthRoutes.LoginUser.mk "u-1" "alice@example.com" EMPLOYEE true
              1000 None None) "access-1" "refresh-1").
Proof. repeat split; vm_compute; reflexivity. Qed.

Lemma login_rejects_uniformly_witness :
  credentials_rejected (hasher:=plain_bcrypt) two_users_store
    "bob@example.com" "password1"
  ∧ run (AuthRoutes.login (hasher:=plain_bcrypt) ∅ 2000
           (Tokens.mk "access-1" "refresh-1")
           (Some (AuthRoutes.LoginBody.mk "bob@example.com" "password1")))
      two_users_store
    = (two_users_store,
       Next (AuthenticationError "Invalid credentials" "INVALID_CREDENTIALS")).
Proof.
  assert (Hbob : credentials_rejected (hasher:=plain_bcrypt) two_users_store
                   "bob@example.com" "password1").
  { right. left. eexists. split; [vm_compute; reflexivity|reflexivity]. }
  split; [exact Hbob|].
  apply (login_rejects_uniformly (hasher:=plain_bcrypt) ∅ 2000
           (Tokens.mk "access-1" "refresh-1") two_users_store
           "bob@example.com" "password1" Hbob).
Defined.

(** ** Registration *)

Section Registration.
Context `{hasher : Bcrypt}.

Lemma register_accepted env now id salt minted req b st st' resp :
  run (AuthRoutes.register env now id salt minted req (Some b)) st
  = (st', Respond 201 resp) →
  ∃ h e,
    bcrypt_hash (AuthRoutes.RegisterBody.password b)
      (Js.parseInt (AuthRoutes.getEnvVariable env "BCRYPT_ROUNDS" "12"))
      salt = Some h
    ∧ find_by (λ u, User.email u = AuthRoutes.RegisterBody.email b)
        (users st) = None
    ∧ find_by (λ u, User.id u = id) (users st) = None
    ∧ AuthRoutes.refresh_expiry env now = Some e
    ∧ refreshTokens st !! Tokens.refreshToken minted = None
    ∧ users st'
      = users st
        ++ [AuthRoutes.new_user id (AuthRoutes.RegisterBody.email b) h
              (default EMPLOYEE (AuthRoutes.RegisterBody.role b)) now]
    ∧ refreshTokens st'
      = <[Tokens.refreshToken minted := RefreshToken.mk id e]>
          (refreshTokens st).
Proof.
  unfold AuthRoutes.register, Prisma.user.create,
    Prisma.user.findUnique_email, Prisma.user.findUnique_id,
    Prisma.refreshToken.create, createAuditLog.
  unfold_M. simpl.
  destruct (find_by (λ u, User.email u = _) (users st)) as [u|] eqn:Ee;
    simpl; [done|].
  destruct (bcrypt_hash _ _ salt) as [h|] eqn:Eh; [|done].
  simpl. rewrite Ee.
  destruct (find_by (λ u, User.id u = _) (users st)) as [u|] eqn:Ei;
    simpl; [done|].
  destruct (AuthRoutes.refresh_expiry env now) as [e|] eqn:Ex; [|done].
  simpl.
  destruct (refreshTokens st !! Tokens.refreshToken minted) eqn:Et;
    simpl; [done|].
  intros [= <- <-]. by exists h, e.
Qed.


End Registration.





(** ** The refresh token ledger *)

Section Ledger.
Context `{hasher : Bcrypt}.









(** POST /login is its thread, served with no other request in
    between. *)
Lemma exec_login env now minted body st :
  Overlap.exec (Overlap.login env now minted body) st
  = AuthRoutes.login env now minted body st.
Proof.
  destruct body as [b|]; [|done].
  unfold Overlap.login, AuthRoutes.login, AuthRoutes.verify,
    Prisma.user.findUnique_email, Prisma.refreshToken.deleteMany_userId,
    Prisma.refreshToken.create, Prisma.user.update_lastLoginAt,
    Prisma.user.findUnique_id.
  unfold_M. simpl.
  destruct (find_by _ (users st)) as [u|]; simpl; [|done].
  destruct (User.isActive u); simpl; [|done].
  destruct (bcrypt_compare _ _); simpl; [|done].
  destruct (AuthRoutes.refresh_expiry env now) as [e|]; simpl; [|done].
  destruct (filter _ (refreshTokens st) !! Tokens.refreshToken minted);
    simpl; [done|].
  by destruct (find_by _ (users st)).
Qed.






End Ledger.

Lemma step_at_middle {A} (t : Overlap.Thread A) st before after :
  Overlap.step_at (length before) (st, before ++ t :: after)
  = ((Overlap.advance t st).1,
     before ++ (Overlap.advance t st).2 :: after).
Proof.
  unfold Overlap.step_at. simpl.
  assert (Hat : (before ++ t :: after) !! length before = Some t).
  { induction before as [|b before IH]; [done|exact IH]. }
  assert (Hset : ∀ t' : Overlap.Thread A,
            <[length before := t']> (before ++ t :: after)
            = before ++ t' :: after).
  { intros t'. clear Hat.
    induction before as [|b before IH]; simpl; [done|].
    f_equal. exact IH. }
  rewrite Hat. destruct (Overlap.advance t st) as [st' t']. simpl.
  by rewrite Hset.
Qed.

(** A request of a pool that is served with no turn of another request in
    between leaves what the handler leaves when it is run alone. *)
Lemma schedule_alone {A} (t : Overlap.Thread A) st before after :
  ∃ turns,
    Overlap.schedule turns (st, before ++ t :: after)
    = ((Overlap.exec t st).1,
       before ++ Overlap.Finished (Overlap.exec t st).2 :: after).
Proof.
  revert st. induction t as [r|X call resume IH]; intros st.
  - by exists [].
  - simpl. destruct (call st) as [st' [e|x]] eqn:Ec.
    + exists [length before].
      change (Overlap.step_at (length before)
                (st, before ++ Overlap.Await call resume :: after)
              = (st', before ++ Overlap.Finished (inl e) :: after)).
      rewrite step_at_middle. simpl. by rewrite Ec.
    + destruct (IH x st') as [turns Hturns].
      exists (length before :: turns).
      change (Overlap.schedule turns
                (Overlap.step_at (length before)
                   (st, before ++ Overlap.Await call resume :: after))
              = ((Overlap.exec (resume x) st').1,
                 before
                 ++ Overlap.Finished (Overlap.exec (resume x) st').2
                    :: after)).
      rewrite step_at_middle. simpl. by rewrite Ec.
Qed.

(** Two logins that are served one after the other are one schedule of
    the pool of the two: its store and answers are those of the two
    handlers run in turn. *)
Lemma logins_in_turn `{hasher : Bcrypt} env1 now1 minted1 body1 env2 now2
    minted2 body2 st :
  let first := AuthRoutes.login env1 now1 minted1 body1 st in
  let second := AuthRoutes.login env2 now2 minted2 body2 first.1 in
  ∃ turns,
    Overlap.schedule turns
      (st, [Overlap.login env1 now1 minted1 body1;
            Overlap.login env2 now2 minted2 body2])
    = (second.1, [Overlap.Finished first.2; Overlap.Finished second.2]).
Proof.
  intros first second.
  destruct (schedule_alone (Overlap.login env1 now1 minted1 body1) st []
              [Overlap.login env2 now2 minted2 body2]) as [turns1 H1].
  destruct (schedule_alone (Overlap.login env2 now2 minted2 body2) first.1
              [Overlap.Finished first.2] []) as [turns2 H2].
  exists (turns1 ++ turns2).
  unfold Overlap.schedule in *. rewrite foldl_app.
  simpl in H1. rewrite H1. rewrite !exec_login.
  simpl in H2. rewrite exec_login in H2. exact H2.
Qed.



(** The two logins of the theorem have to mint different values: when
    [generateTokens] returns for the second login the value it returned
    for the first, that value is stored again and refreshing with it
    succeeds. *)
Example same_token_minted_again :
  let st1 := (run (AuthRoutes.login (hasher:=plain_bcrypt) ∅ 2000
                     (Tokens.mk "access-1" "refresh-1") (Some alice_login))
                alice_store).1 in
  let st2 := (run (AuthRoutes.login (hasher:=plain_bcrypt) ∅ 3000
                     (Tokens.mk "access-2" "refresh-1") (Some alice_login))
                st1).1 in
  AuthRoutes.refresh 4000 "access-3" "refresh-1" st2
  = (st2, inr ("u-1", "access-3")).
Proof. vm_compute; reflexivity. Qed.

(** ** Payroll records *)

Section Payroll.
Import PayrollRecordRoutes.

(** X24: on GET /:id of the payroll records, whose allowed roles include
    EMPLOYEE, an EMPLOYEE caller who addresses an existing record is
    granted it (200, the record, one READ audit entry) if and only if the
    record's [employeeId] is the id of the caller's linked employee
    profile; for any other record the outcome is the 403 error "Access
    denied" and the store is untouched. *)
Theorem payroll_get_own_record_only now req id user st r :
  Caller.role user = EMPLOYEE →
  find_by (λ r, PayrollRecord.id r = id) (payrollRecords st) = Some r →
  let owns := Employee.id <$> Caller.employee user
              = Some (PayrollRecord.employeeId r) in
  ((∃ st' body, get_route now req (Some user) id st
                = (st', Respond 200 body)) ↔ owns)
  ∧ (owns →
     get_route now req (Some user) id st
     = (set_auditLogs (λ l, l ++ [AuditLogEntry.mk (Caller.id user) READ
                                    "payroll_records" (Some id) None None
                                    now req]) st,
        Respond 200 (RecordBody.mk true (include_employee st r))))
  ∧ (¬ owns →
     get_route now req (Some user) id st
     = (st, Next (AppError "Access denied" 403))).
Proof.
  intros Hrole Hfind owns.
  assert (Hyes : owns →
     get_route now req (Some user) id st
     = (set_auditLogs (λ l, l ++ [AuditLogEntry.mk (Caller.id user) READ
                                    "payroll_records" (Some id) None None
                                    now req]) st,
        Respond 200 (RecordBody.mk true (include_employee st r)))).
  { intros Ho. unfold get_route, Guard.route, Guard.authenticate,
      Guard.authorize, allowed_read. rewrite Hrole. simpl.
    unfold get_handler, findUnique, createAuditLog. unfold_M.
    rewrite Hfind. simpl. rewrite Hrole. simpl.
    rewrite bool_decide_eq_false_2; [done|]. by intros Hn. }
  assert (Hno : ¬ owns →
     get_route now req (Some user) id st
     = (st, Next (AppError "Access denied" 403))).
  { intros Ho. unfold get_route, Guard.route, Guard.authenticate,
      Guard.authorize, allowed_read. rewrite Hrole. simpl.
    unfold get_handler, findUnique, createAuditLog. unfold_M.
    rewrite Hfind. simpl. rewrite Hrole. simpl.
    by rewrite bool_decide_eq_true_2. }
  split; [|done].
  split.
  - intros (st' & body & E). destruct (decide owns) as [|Hn]; [done|].
    rewrite (Hno Hn) in E. discriminate.
  - intros Ho. rewrite (Hyes Ho). eauto.
Qed.

(** GET / answers with the selected rows, or fails on a negative
    [skip]; the caller enters only through [list_where] and the audit
    entry. *)
Lemma list_handler_run now req q user st :
  run (list_handler now req q user) st
  = let w := list_where q user in
    let skip := (Z.of_N (ListQuery.page q) - 1) * Z.of_N (ListQuery.limit q) in
    if bool_decide (skip < 0) then (st, Next Prisma.invalid_argument)
    else
      (set_auditLogs (λ l, l ++ [AuditLogEntry.mk (Caller.id user) READ
                                   "payroll_records" None None None
                                   now req]) st,
       Respond 200
         (ListBody.mk true
            (include_employee st <$>
               take (N.to_nat (ListQuery.limit q))
                 (drop (Z.to_nat skip)
                    (merge_sort newer_first (selected w st))))
            (Z.of_N (ListQuery.page q)) (Z.of_N (ListQuery.limit q))
            (Z.of_nat (length (selected w st)))
            (Js.ceil_div (Z.of_nat (length (selected w st)))
               (Z.of_N (ListQuery.limit q))))).
Proof.
  unfold list_handler, findMany, count, createAuditLog. unfold_M. simpl.
  by destruct (bool_decide _).
Qed.

Lemma selected_employee e w st r :
  r ∈ selected (Where.with_employeeId e w) st →
  PayrollRecord.employeeId r = e.
Proof.
  unfold selected. intros [Hm _]%list_elem_of_filter.
  unfold Where.matches in Hm. simpl in Hm.
  repeat (apply andb_prop in Hm as [Hm _]).
  by apply bool_decide_eq_true in Hm.
Qed.

(** C9: on GET / of the payroll records, the restriction to the caller's
    own records is added to the query only for an EMPLOYEE with a linked
    employee profile.  For an EMPLOYEE without one, the [where] object is
    the one built from the query parameters alone, and the answer is the
    answer an ADMIN or HR caller gets to the same query: records of any
    employee.  For an EMPLOYEE with a profile, every returned record is
    the caller's own. *)
Theorem payroll_list_restricts_linked_employees_only now req q user st :
  Caller.role user = EMPLOYEE →
  (Caller.employee user = None →
     list_where q user = query_where q
     ∧ ∀ staff, Caller.role staff = ADMIN ∨ Caller.role staff = HR →
         (run (list_handler now req q user) st).2
         = (run (list_handler now req q staff) st).2)
  ∧ (∀ e, Caller.employee user = Some e →
       list_where q user = Where.with_employeeId (Employee.id e)
                             (query_where q)
       ∧ ∀ st' body,
           run (list_handler now req q user) st = (st', Respond 200 body) →
           ∀ v, v ∈ ListBody.records body →
                PayrollRecord.employeeId (View.record v) = Employee.id e).
Proof.
  intros Hrole. split.
  - intros Hnone.
    assert (Hw : list_where q user = query_where q).
    { unfold list_where. by rewrite Hrole, Hnone. }
    split; [done|]. intros staff Hstaff.
    assert (Hs : list_where q staff = query_where q).
    { unfold list_where. by destruct Hstaff as [-> | ->]. }
    rewrite !list_handler_run. simpl. rewrite Hw, Hs.
    by destruct (bool_decide _).
  - intros e He.
    assert (Hw : list_where q user
                 = Where.with_employeeId (Employee.id e) (query_where q)).
    { unfold list_where. by rewrite Hrole, He. }
    split; [done|]. intros st' body. rewrite list_handler_run. simpl.
    destruct (bool_decide _); [done|]. intros [= <- <-]. simpl.
    intros v (r & -> & Hr)%list_elem_of_fmap. simpl.
    apply subseteq_take, subseteq_drop in Hr.
    rewrite merge_sort_Permutation, Hw in Hr.
    by eapply selected_employee.
Qed.

End Payroll.

Lemma payroll_get_own_record_only_witness :
  Caller.role alice = EMPLOYEE
  ∧ find_by (λ r, PayrollRecord.id r = "p-2") (payrollRecords payroll_store)
    = Some bob_payslip
  ∧ Employee.id <$> Caller.employee alice
    ≠ Some (PayrollRecord.employeeId bob_payslip)
  ∧ PayrollRecordRoutes.get_route 5000 a_request (Some alice) "p-2"
      payroll_store
    = (payroll_store, Next (AppError "Access denied" 403)).
Proof.
  split; [reflexivity|]. split; [reflexivity|]. split; [discriminate|].
  apply (payroll_get_own_record_only 5000 a_request "p-2" alice payroll_store
           bob_payslip eq_refl eq_refl).
  discriminate.
Defined.

(** alice reads her own record, and the read is audited. *)
Example alice_reads_her_payslip :
  PayrollRecordRoutes.get_route 5000 a_request (Some alice) "p-1" payroll_store
  = (set_auditLogs
       (λ l, l ++ [AuditLogEntry.mk "u-1" READ "payroll_records" (Some "p-1")
                     None None 5000 a_request]) payroll_store,
     Respond 200
       (PayrollRecordRoutes.RecordBody.mk true
          (PayrollRecordRoutes.View.mk alice_payslip (Some alice_profile)))).
Proof. reflexivity. Qed.

Lemma payroll_list_restricts_linked_employees_only_witness :
  Caller.role carol = EMPLOYEE
  ∧ Caller.employee carol = None
  ∧ PayrollRecordRoutes.list_where first_page carol
    = PayrollRecordRoutes.query_where first_page
  ∧ (run (PayrollRecordRoutes.list_handler 5000 a_request first_page carol)
       payroll_store).2
    = (run (PayrollRecordRoutes.list_handler 5000 a_request first_page dana)
         payroll_store).2
  ∧ (run (PayrollRecordRoutes.list_handler 5000 a_request first_page carol)
       payroll_store).2
    = Respond 200
        (PayrollRecordRoutes.ListBody.mk true
           [PayrollRecordRoutes.View.mk bob_payslip (Some bob_profile);
            PayrollRecordRoutes.View.mk alice_payslip (Some alice_profile)]
           1 10 2 (Some 1)).
Proof.
  split; [reflexivity|]. split; [reflexivity|].
  destruct (payroll_list_restricts_linked_employees_only 5000 a_request
              first_page carol payroll_store eq_refl) as [Hunlinked _].
  destruct (Hunlinked eq_refl) as [Hw Hsame].
  split; [exact Hw|]. split; [apply Hsame; by left|].
  vm_compute. reflexivity.
Defined.

(** C2: the ownership rule fails on GET / of the payroll records.  carol,
    an EMPLOYEE whose user has no employee profile, passes the guard of
    the route and is answered 200 with the payroll records of alice and
    of bob, none of which is hers; GET /:id of the same router refuses her
    each of these records with the 403 error "Access denied". *)
Theorem unlinked_employee_lists_other_payroll :
  Caller.role carol = EMPLOYEE
  ∧ Caller.employee carol = None
  ∧ (PayrollRecordRoutes.list_route 5000 a_request (Some carol)
       (inr first_page) draft_store).2
    = Respond 200
        (PayrollRecordRoutes.ListBody.mk true
           [PayrollRecordRoutes.View.mk alice_draft (Some alice_profile);
            PayrollRecordRoutes.View.mk bob_payslip (Some bob_profile);
            PayrollRecordRoutes.View.mk alice_payslip (Some alice_profile)]
           1 10 3 (Some 1))
  ∧ PayrollRecordRoutes.get_route 5000 a_request (Some carol) "p-1"
      draft_store
    = (draft_store, Next (AppError "Access denied" 403))
  ∧ PayrollRecordRoutes.get_route 5000 a_request (Some carol) "p-2"
      draft_store
    = (draft_store, Next (AppError "Access denied" 403))
  ∧ PayrollRecordRoutes.get_route 5000 a_request (Some carol) "p-3"
      draft_store
    = (draft_store, Next (AppError "Access denied" 403)).
Proof. repeat split; vm_compute; reflexivity. Qed.

(** alice, who has a profile, is shown her own record only. *)
Example alice_lists_her_payslips :
  (run (PayrollRecordRoutes.list_handler 5000 a_request first_page alice)
     payroll_store).2
  = Respond 200
      (PayrollRecordRoutes.ListBody.mk true
         [PayrollRecordRoutes.View.mk alice_payslip (Some alice_profile)]
         1 10 1 (Some 1)).
Proof. vm_compute. reflexivity. Qed.

(** ** The audit-log listing *)

Section AuditListing.
Variable is_uuid : string → bool.

(** The listing never carries a stored entry, whoever calls and
    whatever the query is. *)
Lemma audit_list_returns_no_entry checked q st :
  (AuditLogRoutes.list_route is_uuid checked q st).1 = st
  ∧ returned_logs (AuditLogRoutes.list_route is_uuid checked q st).2 = [].
Proof.
  unfold AuditLogRoutes.list_route, Guard.route, Guard.authenticate,
    Guard.authorize, AuditLogRoutes.validateAuditLog,
    AuditLogRoutes.list_handler.
  destruct checked as [user|]; [|done].
  destruct (bool_decide _); [|done].
  by destruct (AuditLogRoutes.safeParse is_uuid q).
Qed.

(** C10: for every ADMIN or HR caller and every query the schema
    accepts, GET / of the audit logs answers 200 with an empty [logs]
    list and [total] 0 (and the parsed [page] and [limit]), whatever
    audit entries the store holds; the store is not read or written and
    no stored entry is returned. *)
Theorem audit_log_listing_is_empty user q v st :
  Caller.role user = ADMIN ∨ Caller.role user = HR →
  AuditLogRoutes.safeParse is_uuid q = Some v →
  AuditLogRoutes.list_handler v st
  = (st, Respond 200
           (AuditLogRoutes.Listing true [] 0
              (AuditLogRoutes.Validated.page v)
              (AuditLogRoutes.Validated.limit v)))
  ∧ AuditLogRoutes.list_route is_uuid (Some user) q st
    = (st, Respond 200
             (AuditLogRoutes.Listing true [] 0
                (AuditLogRoutes.Validated.page v)
                (AuditLogRoutes.Validated.limit v)))
  ∧ ∀ entry, entry ∈ auditLogs st →
      entry ∉ returned_logs
                (AuditLogRoutes.list_route is_uuid (Some user) q st).2.
Proof.
  intros Hrole Hparse. split; [done|]. split.
  - unfold AuditLogRoutes.list_route, Guard.route, Guard.authenticate,
      Guard.authorize, AuditLogRoutes.validateAuditLog.
    rewrite Hparse.
    rewrite bool_decide_eq_true_2; [done|].
    destruct Hrole as [-> | ->]; set_solver.
  - intros entry _.
    destruct (audit_list_returns_no_entry (Some user) q st) as [_ ->].
    apply not_elem_of_nil.
Qed.

End AuditListing.

Lemma audit_log_listing_is_empty_witness :
  Caller.role dana = ADMIN
  ∧ length (auditLogs payroll_store) = 2%nat
  ∧ AuditLogRoutes.safeParse any_uuid audit_query
    = Some (AuditLogRoutes.Validated.mk None (Some "CREATE")
              (Some "payroll_records") (Some 2) (Some 100))
  ∧ AuditLogRoutes.list_route any_uuid (Some dana) audit_query payroll_store
    = (payroll_store,
       Respond 200 (AuditLogRoutes.Listing true [] 0 (Some 2) (Some 100))).
Proof.
  split; [reflexivity|]. split; [reflexivity|]. split; [reflexivity|].
  apply (audit_log_listing_is_empty any_uuid dana audit_query _ payroll_store
           (or_introl eq_refl) eq_refl).
Defined.

(** A query the schema refuses is answered 400, also without entries. *)
Example audit_list_refuses_unknown_action :
  AuditLogRoutes.list_route any_uuid (Some dana)
    (AuditLogRoutes.RawQuery.mk None (Some "READ") None None None)
    payroll_store
  = (payroll_store, Respond 400 AuditLogRoutes.SchemaError).
Proof. reflexivity. Qed.

(** ** The role check *)

Lemma authorize_iff allowedRoles caller :
  Guard.authorize allowedRoles caller = inr caller
  ↔ Caller.role caller ∈ allowedRoles.
Proof.
  unfold Guard.authorize. case_bool_decide; split; done.
Qed.

Lemma authorize_denied allowedRoles caller :
  Caller.role caller ∉ allowedRoles →
  Guard.authorize allowedRoles caller = inl Denied.
Proof.
  unfold Guard.authorize. intros Hn. by rewrite bool_decide_eq_false_2.
Qed.

(** C3: on an endpoint whose allowed roles are ADMIN and HR and that has
    no ownership rule, such as the listing of users, an authenticated
    EMPLOYEE is [Denied]: the handler is not run, whatever it is and
    whatever resource the request addresses, and the store is untouched.
    The role check passes exactly when the caller's role is in the
    endpoint's allowed-role set. *)
Theorem employee_denied_on_admin_hr_endpoints (user : Caller.t) :
  Caller.role user = EMPLOYEE →
  (∀ (B : Type) (handler : Caller.t → Store → Store * Outcome B) st,
     Guard.route [ADMIN; HR] (Some user) handler st = (st, Next Denied))
  ∧ (∀ (Page : Type) (getAllUsers : UserRoutes.GetAllQuery.t → M Page)
       now req validated st,
       UserRoutes.list_route getAllUsers now req (Some user) validated st
       = (st, Next Denied))
  ∧ (∀ allowedRoles (caller : Caller.t),
       Guard.authorize allowedRoles caller = inr caller
       ↔ Caller.role caller ∈ allowedRoles).
Proof.
  intros Hrole.
  assert (Hroute : ∀ (B : Type)
                     (handler : Caller.t → Store → Store * Outcome B) st,
            Guard.route [ADMIN; HR] (Some user) handler st
            = (st, Next Denied)).
  { intros B handler st. unfold Guard.route. simpl.
    rewrite authorize_denied; [done|]. rewrite Hrole.
    intros [?|[?|?%elem_of_nil]%elem_of_cons]%elem_of_cons; done. }
  split; [exact Hroute|]. split; [|apply authorize_iff].
  intros. apply Hroute.
Qed.

Lemma employee_denied_on_admin_hr_endpoints_witness :
  Caller.role alice = EMPLOYEE
  ∧ UserRoutes.list_route
      (λ _, gets (λ st, AuthRoutes.select_public <$> users st))
      5000 a_request (Some alice)
      (inr (UserRoutes.GetAllQuery.mk 1 10 None None None)) alice_store
    = (alice_store, Next Denied).
Proof.
  split; [reflexivity|].
  apply (employee_denied_on_admin_hr_endpoints alice eq_refl).
Defined.

(** An administrator passes the same gate and the handler runs. *)
Example admin_lists_users :
  (UserRoutes.list_route
     (λ _, gets (λ st, User.email <$> users st))
     5000 a_request (Some dana)
     (inr (UserRoutes.GetAllQuery.mk 1 10 None None None)) alice_store).2
  = Respond 200
      (UserRoutes.ListBody.mk true "Users fetched successfully"
         ["alice@example.com"]).
Proof. vm_compute. reflexivity. Qed.

(** ** The audit trail of mutations *)

(** POST / of the departments, when it answers 201, has appended exactly
    one audit entry: the caller as actor, CREATE, and the id of the new
    department. *)
Lemma department_create_audited now id req body user st st' resp :
  run (DepartmentRoutes.create_handler now id req body user) st
  = (st', Respond 201 resp) →
  ∃ entry,
    auditLogs st' = auditLogs st ++ [entry]
    ∧ AuditLogEntry.userId entry = Caller.id user
    ∧ AuditLogEntry.action entry = CREATE
    ∧ AuditLogEntry.resource entry = "department"
    ∧ AuditLogEntry.resourceId entry
      = Some (Department.id
                (DepartmentView.row (DepartmentRoutes.Body.department resp)))
    ∧ Department.id
        (DepartmentView.row (DepartmentRoutes.Body.department resp)) = id.
Proof.
  unfold DepartmentRoutes.create_handler, DepartmentRoutes.create,
    DepartmentRoutes.findFirst_name, DepartmentRoutes.findUnique,
    DepartmentRoutes.employee_findUnique, createAuditLog.
  unfold_M. simpl.
  destruct (bool_decide (is_Some (find_by _ (departments st)))); [done|].
  destruct (Js.truthy (DepartmentRoutes.CreateBody.managerId body)); simpl.
  - destruct (bool_decide (find_by _ (employees st) = None)); [done|].
    destruct (Js.truthy (DepartmentRoutes.CreateBody.parentId body)); simpl.
    + destruct (bool_decide (find_by _ (departments st) = None)); [done|].
      destruct (find_by _ (departments st)); [done|]. simpl.
      intros [= <- <-]. simpl. eexists. by repeat split.
    + destruct (find_by _ (departments st)); [done|]. simpl.
      intros [= <- <-]. simpl. eexists. by repeat split.
  - destruct (Js.truthy (DepartmentRoutes.CreateBody.parentId body)); simpl.
    + destruct (bool_decide (find_by _ (departments st) = None)); [done|].
      destruct (find_by _ (departments st)); [done|]. simpl.
      intros [= <- <-]. simpl. eexists. by repeat split.
    + destruct (find_by _ (departments st)); [done|]. simpl.
      intros [= <- <-]. simpl. eexists. by repeat split.
Qed.

Lemma setting_create_keeps_audit_log id checked b st :
  auditLogs (SettingRoutes.create_route id checked b st).1 = auditLogs st.
Proof.
  unfold SettingRoutes.create_route, Guard.route, Guard.authenticate,
    Guard.authorize, SettingRoutes.validateSetting,
    SettingRoutes.create_handler, SettingRoutes.create.
  unfold_M.
  destruct checked as [user|]; [|done]. simpl.
  destruct (bool_decide _); [|done].
  destruct (SettingRoutes.parse b); [|done].
  by destruct (find_by _ (settings st)).
Qed.

(** C5, evaluated on the code: POST / of the settings, a guarded handler
    (ADMIN only), creates the setting and answers 201, and the audit log
    afterwards is the audit log before: no entry records the CREATE.  The
    same holds on every input of that route. *)
Theorem setting_create_is_not_audited :
  SettingRoutes.create_route "s-1" (Some dana) theme_setting payroll_store
  = (set_settings
       (λ l, l ++ [Setting.mk "s-1" "theme" "dark" None (Some true)])
       payroll_store,
     Respond 201
       (SettingRoutes.Created
          (Setting.mk "s-1" "theme" "dark" None (Some true))))
  ∧ auditLogs
      (SettingRoutes.create_route "s-1" (Some dana) theme_setting
         payroll_store).1
    = auditLogs payroll_store
  ∧ ∀ id checked b st,
      auditLogs (SettingRoutes.create_route id checked b st).1 = auditLogs st.
Proof.
  split; [reflexivity|]. split; [reflexivity|].
  apply setting_create_keeps_audit_log.
Qed.

(** The sibling route does record its CREATE. *)
Example department_create_example :
  ∃ st' resp,
    DepartmentRoutes.create_route 5000 "d-1" a_request (Some dana)
      (inr (DepartmentRoutes.CreateBody.mk "Finance" (Some "e-1") None None
              None)) payroll_store
    = (st', Respond 201 resp)
    ∧ auditLogs st'
      = auditLogs payroll_store
        ++ [AuditLogEntry.mk "u-4" CREATE "department" (Some "d-1") None
              (Some (SnapDepartment (DepartmentRoutes.Body.department resp)))
              5000 a_request].
Proof. eexists _, _. split; reflexivity. Qed.

(** ** Password reset *)

Section PasswordReset.
Context `{hasher : Bcrypt}.

Lemma resetPassword_unusable now saltRounds salt token newPassword st :
  token_unusable st now token →
  UserService.resetPassword now saltRounds salt token newPassword st
  = (st, inl InvalidToken).
Proof.
  unfold UserService.resetPassword. unfold_M.
  intros [->|(row & -> & [Hu|He])]; [done| |].
  - by rewrite Hu.
  - rewrite (bool_decide_eq_true_2 _ He). by rewrite orb_true_r.
Qed.

Lemma resetPassword_failure now saltRounds salt token newPassword st st' e :
  UserService.resetPassword now saltRounds salt token newPassword st
  = (st', inl e) →
  st' = st.
Proof.
  unfold UserService.resetPassword. unfold_M.
  destruct (passwordResetTokens st !! token) as [row|]; [|congruence].
  destruct (_ || _); [congruence|].
  destruct (bcrypt_hash _ _ _); [done|congruence].
Qed.

Lemma resetPassword_accepted now saltRounds salt token newPassword st st' :
  UserService.resetPassword now saltRounds salt token newPassword st
  = (st', inr tt) →
  ∃ row h,
    passwordResetTokens st !! token = Some row
    ∧ PasswordResetToken.used row = false
    ∧ now ≤ PasswordResetToken.expiresAt row
    ∧ bcrypt_hash newPassword saltRounds salt = Some h
    ∧ st' = UserService.reset_commit token
              (PasswordResetToken.userId row) h st.
Proof.
  unfold UserService.resetPassword. unfold_M.
  destruct (passwordResetTokens st !! token) as [row|]; [|done].
  destruct (PasswordResetToken.used row) eqn:Hu; [done|]. simpl.
  case_bool_decide as He; [done|].
  destruct (bcrypt_hash _ _ _) as [h|]; [|done].
  intros [= <-]. exists row, h. repeat split; [done|lia].
Qed.

Lemma reset_commit_token token userId h st row :
  passwordResetTokens st !! token = Some row →
  passwordResetTokens (UserService.reset_commit token userId h st) !! token
  = Some (UserService.consume row).
Proof.
  intros Hrow. unfold UserService.reset_commit. simpl.
  by rewrite lookup_alter_eq, Hrow.
Qed.

Lemma reset_commit_password token userId h st u :
  u ∈ users (UserService.reset_commit token userId h st) →
  User.id u = userId →
  User.password u = h.
Proof.
  unfold UserService.reset_commit. simpl.
  intros (v & -> & Hv)%list_elem_of_fmap.
  destruct (decide (User.id v = userId)); simpl; done.
Qed.

(** A token that completed a reset completes no other. *)
Lemma resetPassword_consumes now saltRounds salt token newPassword st st' :
  UserService.resetPassword now saltRounds salt token newPassword st
  = (st', inr tt) →
  ∀ now2 saltRounds2 salt2 password2,
    UserService.resetPassword now2 saltRounds2 salt2 token password2 st'
    = (st', inl InvalidToken).
Proof.
  intros (row & h & Hrow & _ & _ & _ & ->)%resetPassword_accepted.
  intros. apply resetPassword_unusable. right.
  exists (UserService.consume row).
  split; [by apply reset_commit_token|by left].
Qed.

(** C6: [completeReset(token, newPassword)] fails with [InvalidToken],
    changing nothing, when the token is missing, expired or already
    consumed; any failure leaves the store as it was; a success replaces
    the owner's password hash and marks the token used in one store
    operation; and after a success every further call with the same
    token, also through PATCH /reset-password, fails with [InvalidToken]
    and leaves the password of the first call in place. *)
Theorem completeReset_succeeds_once now saltRounds salt token newPassword
    st :
  (token_unusable st now token →
     UserService.resetPassword now saltRounds salt token newPassword st
     = (st, inl InvalidToken))
  ∧ (∀ st' e,
       UserService.resetPassword now saltRounds salt token newPassword st
       = (st', inl e) → st' = st)
  ∧ (∀ st',
       UserService.resetPassword now saltRounds salt token newPassword st
       = (st', inr tt) →
       ∃ row h,
         passwordResetTokens st !! token = Some row
         ∧ bcrypt_hash newPassword saltRounds salt = Some h
         ∧ st' = UserService.reset_commit token
                   (PasswordResetToken.userId row) h st
         ∧ passwordResetTokens st' !! token
           = Some (UserService.consume row)
         ∧ (∀ u, u ∈ users st' →
                 User.id u = PasswordResetToken.userId row →
                 User.password u = h)
         ∧ ∀ now2 saltRounds2 salt2 password2,
             UserService.resetPassword now2 saltRounds2 salt2 token
               password2 st' = (st', inl InvalidToken)
             ∧ run (UserRoutes.reset_password now2 saltRounds2 salt2
                      (UserRoutes.ResetBody.mk token password2)) st'
               = (st', Next InvalidToken)).
Proof.
  split; [apply resetPassword_unusable|].
  split; [apply resetPassword_failure|].
  intros st' (row & h & Hrow & Hused & Hexp & Hh & ->)%resetPassword_accepted.
  exists row, h.
  pose proof (reset_commit_token token (PasswordResetToken.userId row) h st
                row Hrow) as Hconsumed.
  repeat split; try done.
  - intros u. apply reset_commit_password.
  - apply resetPassword_unusable. right. eexists. split; [done|]. by left.
  - unfold UserRoutes.reset_password. unfold run, mbind, M_bind. simpl.
    rewrite resetPassword_unusable; [done|].
    right. eexists. split; [done|]. by left.
Qed.

End PasswordReset.

Lemma completeReset_succeeds_once_witness :
  ∃ st',
    UserService.resetPassword (hasher:=plain_bcrypt) 3000 (Some 12) "salt"
      "reset-1" "newpassword1" alice_reset_store = (st', inr tt)
    ∧ (User.password <$> users st') = ["$2a$newpassword1"]
    ∧ UserService.resetPassword (hasher:=plain_bcrypt) 3500 (Some 12) "salt"
        "reset-1" "otherpassword" st' = (st', inl InvalidToken).
Proof.
  let r := eval vm_compute in
    (UserService.resetPassword (hasher:=plain_bcrypt) 3000 (Some 12) "salt"
       "reset-1" "newpassword1" alice_reset_store) in
  match r with
  | (?s, inr _) =>
      exists s;
      destruct (completeReset_succeeds_once (hasher:=plain_bcrypt) 3000
                  (Some 12) "salt" "reset-1" "newpassword1" alice_reset_store)
        as (_ & _ & Hok);
      destruct (Hok s) as (row & h & _ & _ & _ & _ & _ & Hagain)
  end.
  - vm_compute; reflexivity.
  - split; [vm_compute; reflexivity|].
    split; [vm_compute; reflexivity|].
    apply (Hagain 3500 (Some 12) "salt" "otherpassword").
Defined.

Section ResetRequest.
Context `{hasher : Bcrypt}.

(** C7: POST /reset-password-request answers 200 "Reset token sent" for
    every email, on a store where a user has that email and on one where
    none has (the minted token being new to both ledgers), so that the
    two answers are equal; when the user exists the ledger gains one
    token for that user, unused and expiring one hour after the request,
    and nothing else changes, and the token can complete at most one
    reset; when no user exists the store is unchanged. *)
Theorem reset_request_answers_alike now token email st1 st2 :
  passwordResetTokens st1 !! token = None →
  passwordResetTokens st2 !! token = None →
  let request := UserRoutes.reset_password_request now token email in
  (run request st1).2
  = Respond 200 (UserRoutes.Message.mk true "Reset token sent")
  ∧ (run request st2).2 = (run request st1).2
  ∧ (find_by (λ u, User.email u = email) (users st1) = None →
     (run request st1).1 = st1)
  ∧ (∀ u, find_by (λ u, User.email u = email) (users st1) = Some u →
       ∃ row,
         (run request st1).1
         = set_passwordResetTokens (insert token row) st1
         ∧ PasswordResetToken.userId row = User.id u
         ∧ PasswordResetToken.used row = false
         ∧ PasswordResetToken.expiresAt row - now ≤ 3600000
         ∧ ∀ now1 rounds1 salt1 password1 st',
             UserService.resetPassword now1 rounds1 salt1 token password1
               (run request st1).1 = (st', inr tt) →
             ∀ now2 rounds2 salt2 password2,
               UserService.resetPassword now2 rounds2 salt2 token password2
                 st' = (st', inl InvalidToken)).
Proof.
  intros Hfresh1 Hfresh2 request.
  assert (Hrun : ∀ st, passwordResetTokens st !! token = None →
            run request st
            = (match find_by (λ u, User.email u = email) (users st) with
               | None => st
               | Some u =>
                   set_passwordResetTokens
                     (insert token
                        (PasswordResetToken.mk (User.id u)
                           (now + UserService.RESET_TOKEN_TTL_MS) false)) st
               end,
               Respond 200 (UserRoutes.Message.mk true "Reset token sent"))).
  { intros st Hfresh. subst request.
    unfold UserRoutes.reset_password_request,
      UserService.requestPasswordReset, Prisma.user.findUnique_email.
    unfold_M. simpl.
    destruct (find_by _ (users st)); [|done]. simpl. by rewrite Hfresh. }
  rewrite (Hrun st1 Hfresh1), (Hrun st2 Hfresh2). simpl.
  split; [done|]. split; [done|]. split; [by intros ->|].
  intros u ->. eexists. split; [done|]. simpl.
  split; [done|]. split; [done|].
  split; [unfold UserService.RESET_TOKEN_TTL_MS; lia|].
  intros now1 rounds1 salt1 password1 st' Hok now2 rounds2 salt2 password2.
  by eapply resetPassword_consumes.
Qed.

End ResetRequest.

Lemma reset_request_answers_alike_witness :
  passwordResetTokens alice_store !! "reset-1" = None
  ∧ passwordResetTokens empty_store !! "reset-1" = None
  ∧ (run (UserRoutes.reset_password_request 2000 "reset-1"
            "alice@example.com") alice_store).2
    = Respond 200 (UserRoutes.Message.mk true "Reset token sent")
  ∧ (run (UserRoutes.reset_password_request 2000 "reset-1"
            "alice@example.com") empty_store).2
    = (run (UserRoutes.reset_password_request 2000 "reset-1"
              "alice@example.com") alice_store).2
  ∧ passwordResetTokens alice_reset_store !! "reset-1"
    = Some (PasswordResetToken.mk "u-1" 3602000 false).
Proof.
  split; [reflexivity|]. split; [reflexivity|].
  destruct (reset_request_answers_alike (hasher:=plain_bcrypt) 2000 "reset-1"
              "alice@example.com" alice_store empty_store eq_refl eq_refl)
    as (Hanswer & Hsame & _ & _).
  split; [exact Hanswer|]. split; [exact Hsame|].
  vm_compute. reflexivity.
Defined.

(** * Further properties of the routes *)

(** ** Registration and login, in full *)

Section AuthEffects.
Context `{hasher : Bcrypt}.

(** X1: POST /register is refused with the [ValidationError] USER_EXISTS
    exactly when some user already has the email of the body; the refusal
    comes before anything is hashed or written, so the store is
    unchanged. *)
Theorem register_existing_email env now id salt minted req email password
    role st :
  let request :=
    AuthRoutes.register env now id salt minted req
      (Some (AuthRoutes.RegisterBody.mk email password role)) in
  let refusal :=
    Next (ValidationError "User already exists with this email"
            (Some "USER_EXISTS")) in
  ((run request st).2 = refusal
   ↔ is_Some (find_by (λ u, User.email u = email) (users st)))
  ∧ (is_Some (find_by (λ u, User.email u = email) (users st)) →
     run request st = (st, refusal)).
Proof.
  intros request refusal. subst request refusal.
  unfold AuthRoutes.register, Prisma.user.create,
    Prisma.user.findUnique_email, Prisma.user.findUnique_id,
    Prisma.refreshToken.create, createAuditLog.
  unfold_M. simpl.
  destruct (find_by (λ u, User.email u = email) (users st)) as [u|] eqn:Ee;
    simpl.
  { split; [split; [eauto|done]|done]. }
  assert (Hno : ¬ is_Some (@None User.t)) by (by intros [? ?]).
  split; [|by intros ?]. split; [|by intros ?].
  destruct (bcrypt_hash _ _ salt) as [h|]; [|done].
  simpl. rewrite Ee.
  destruct (find_by (λ u, User.id u = _) (users st)); simpl; [done|].
  destruct (AuthRoutes.refresh_expiry env now); simpl; [|done].
  by destruct (refreshTokens st !! Tokens.refreshToken minted).
Qed.

(** The store and the answer of an accepted registration. *)
Lemma register_accepted_store env now id salt minted req b st st' resp :
  run (AuthRoutes.register env now id salt minted req (Some b)) st
  = (st', Respond 201 resp) →
  ∃ h e,
    let u := AuthRoutes.new_user id (AuthRoutes.RegisterBody.email b) h
               (default EMPLOYEE (AuthRoutes.RegisterBody.role b)) now in
    bcrypt_hash (AuthRoutes.RegisterBody.password b)
      (Js.parseInt (AuthRoutes.getEnvVariable env "BCRYPT_ROUNDS" "12"))
      salt = Some h
    ∧ AuthRoutes.refresh_expiry env now = Some e
    ∧ st' = set_auditLogs (λ l,
              l ++ [AuditLogEntry.mk id CREATE "users" (Some id) None
                      (Some (SnapUser (AuthRoutes.select_public u))) now req])
              (set_refreshTokens
                 (insert (Tokens.refreshToken minted) (RefreshToken.mk id e))
                 (set_users (λ l, l ++ [u]) st))
    ∧ resp = AuthRoutes.Body.mk "success" "User registered successfully"
               (AuthRoutes.select_public u) (Tokens.accessToken minted)
               (Tokens.refreshToken minted).
Proof.
  unfold AuthRoutes.register, Prisma.user.create,
    Prisma.user.findUnique_email, Prisma.user.findUnique_id,
    Prisma.refreshToken.create, createAuditLog.
  unfold_M. simpl.
  destruct (find_by (λ u, User.email u = _) (users st)) as [u|] eqn:Ee;
    simpl; [done|].
  destruct (bcrypt_hash _ _ salt) as [h|] eqn:Eh; [|done].
  simpl. rewrite Ee.
  destruct (find_by (λ u, User.id u = _) (users st)) as [u|] eqn:Ei;
    simpl; [done|].
  destruct (AuthRoutes.refresh_expiry env now) as [e|] eqn:Ex; [|done].
  simpl.
  destruct (refreshTokens st !! Tokens.refreshToken minted) eqn:Et;
    simpl; [done|].
  intros [= <- <-]. by exists h, e.
Qed.

(** X2: a registration answered 201 has added exactly one user (an
    EMPLOYEE when the body names no role), exactly one refresh token, owned
    by that user, and exactly one audit entry, CREATE on "users", whose
    actor and resource id are both the new user's id and whose snapshot is
    the user without its password; every other table is as before. *)
Theorem register_accepted_effects env now id salt minted req b st st' resp :
  run (AuthRoutes.register env now id salt minted req (Some b)) st
  = (st', Respond 201 resp) →
  let public := AuthRoutes.Body.user resp in
  (∃ u, users st' = users st ++ [u]
        ∧ AuthRoutes.select_public u = public
        ∧ User.email u = AuthRoutes.RegisterBody.email b
        ∧ User.role u = default EMPLOYEE (AuthRoutes.RegisterBody.role b))
  ∧ PublicUser.id public = id
  ∧ (∃ e, refreshTokens st'
          = <[Tokens.refreshToken minted := RefreshToken.mk id e]>
              (refreshTokens st)
          ∧ refreshTokens st !! Tokens.refreshToken minted = None
          ∧ AuthRoutes.refresh_expiry env now = Some e)
  ∧ auditLogs st'
    = auditLogs st
      ++ [AuditLogEntry.mk id CREATE "users" (Some id) None
            (Some (SnapUser public)) now req]
  ∧ employees st' = employees st
  ∧ passwordResetTokens st' = passwordResetTokens st
  ∧ payrollRecords st' = payrollRecords st
  ∧ departments st' = departments st
  ∧ settings st' = settings st.
Proof.
  intros Hrun public. subst public.
  pose proof (register_accepted _ _ _ _ _ _ _ _ _ _ Hrun)
    as (h0 & e0 & _ & _ & _ & _ & Hfresh & _).
  apply register_accepted_store in Hrun as (h & e & _ & He & -> & ->).
  simpl. split; [by eexists|]. split; [done|].
  split; [by exists e|]. done.
Qed.

(** A refresh token that cannot be stored leaves the store as it is. *)
Lemma refreshToken_create_failure token userId expiresAt st e :
  (Prisma.refreshToken.create token userId expiresAt st).2 = inl e →
  Prisma.refreshToken.create token userId expiresAt st = (st, inl e).
Proof.
  unfold Prisma.refreshToken.create. unfold_M.
  destruct expiresAt as [x|]; simpl; [|by intros [= ->]].
  destruct (refreshTokens st !! token); simpl; [by intros [= ->]|done].
Qed.

(** X3: the registration is not one transaction.  When the user row is
    created and storing the refresh token then throws (the token value is
    already in the ledger, or REFRESH_TOKEN_EXPIRES_MS is not a number and
    the expiry is an invalid date), the request fails with that error, no
    token and no audit entry are written, but the new user stays in the
    store: a second attempt with the same email is refused with
    USER_EXISTS. *)
Theorem register_token_failure_keeps_user env now id salt minted req email
    password role st h e :
  find_by (λ u, User.email u = email) (users st) = None →
  find_by (λ u, User.id u = id) (users st) = None →
  bcrypt_hash password
    (Js.parseInt (AuthRoutes.getEnvVariable env "BCRYPT_ROUNDS" "12")) salt
  = Some h →
  let body := Some (AuthRoutes.RegisterBody.mk email password role) in
  let st' := set_users (λ l,
               l ++ [AuthRoutes.new_user id email h (default EMPLOYEE role)
                       now]) st in
  (Prisma.refreshToken.create (Tokens.refreshToken minted) id
     (AuthRoutes.refresh_expiry env now) st').2 = inl e →
  run (AuthRoutes.register env now id salt minted req body) st
  = (st', Next e)
  ∧ ∀ env2 now2 id2 salt2 minted2 req2,
      run (AuthRoutes.register env2 now2 id2 salt2 minted2 req2 body) st'
      = (st', Next (ValidationError "User already exists with this email"
                      (Some "USER_EXISTS"))).
Proof.
  intros Hemail Hid Hhash body st' Hfail.
  apply refreshToken_create_failure in Hfail. split.
  - unfold AuthRoutes.register, Prisma.user.create,
      Prisma.user.findUnique_email, Prisma.user.findUnique_id.
    unfold run, mbind, M_bind, gets, modify, mret, M_ret, throw. simpl.
    rewrite Hemail. simpl. rewrite Hhash. rewrite Hemail, Hid. simpl.
    fold st'. by rewrite Hfail.
  - intros.
    unfold AuthRoutes.register, Prisma.user.findUnique_email. unfold_M.
    subst st'. simpl.
    rewrite find_by_app_None by done. simpl. by rewrite decide_True.
Qed.

End AuthEffects.

Lemma register_existing_email_witness :
  find_by (λ u, User.email u = "alice@example.com") (users alice_store)
  = Some (User.mk "u-1" "alice@example.com" "$2a$password1" EMPLOYEE true
            1000 None None)
  ∧ run (AuthRoutes.register (hasher:=plain_bcrypt) ∅ 2000 "u-2" "salt"
           (Tokens.mk "access-1" "refresh-1") a_request
           (Some (AuthRoutes.RegisterBody.mk "alice@example.com" "another1"
                    (Some ADMIN)))) alice_store
    = (alice_store,
       Next (ValidationError "User already exists with this email"
               (Some "USER_EXISTS"))).
Proof.
  split; [vm_compute; reflexivity|].
  destruct (register_existing_email (hasher:=plain_bcrypt) ∅ 2000 "u-2" "salt"
              (Tokens.mk "access-1" "refresh-1") a_request
              "alice@example.com" "another1" (Some ADMIN) alice_store)
    as [_ Hrefused].
  apply Hrefused. vm_compute. eauto.
Defined.

Lemma register_accepted_effects_witness :
  ∃ st' resp,
    run (AuthRoutes.register (hasher:=plain_bcrypt) ∅ 1000 "u-1" "salt"
           (Tokens.mk "access-0" "refresh-0") a_request
           (Some alice_registration)) empty_store
    = (st', Respond 201 resp)
    ∧ auditLogs st'
      = [AuditLogEntry.mk "u-1" CREATE "users" (Some "u-1") None
           (Some (SnapUser (PublicUser.mk "u-1" "alice@example.com" EMPLOYEE
                              true 1000))) 1000 a_request]
    ∧ refreshTokens st' !! "refresh-0"
      = Some (RefreshToken.mk "u-1" 604801000).
Proof.
  let r := eval vm_compute in
    (run (AuthRoutes.register (hasher:=plain_bcrypt) ∅ 1000 "u-1" "salt"
            (Tokens.mk "access-0" "refresh-0") a_request
            (Some alice_registration)) empty_store) in
  match r with
  | (?s, Respond _ ?b) =>
      exists s, b;
      destruct (register_accepted_effects (hasher:=plain_bcrypt) ∅ 1000 "u-1"
                  "salt" (Tokens.mk "access-0" "refresh-0") a_request
                  alice_registration empty_store s b)
        as (_ & _ & _ & Haudit & _)
  end.
  - vm_compute; reflexivity.
  - split; [vm_compute; reflexivity|].
    split; [exact Haudit|vm_compute; reflexivity].
Defined.

Lemma register_token_failure_keeps_user_witness :
  AuthRoutes.refresh_expiry {["REFRESH_TOKEN_EXPIRES_MS" := "a week"]} 2000
  = None
  ∧ run (AuthRoutes.register (hasher:=plain_bcrypt)
           {["REFRESH_TOKEN_EXPIRES_MS" := "a week"]} 2000 "u-2" "salt"
           (Tokens.mk "access-1" "refresh-1") a_request
           (Some (AuthRoutes.RegisterBody.mk "bob@example.com" "password2"
                    None))) alice_store
    = (set_users (λ l,
         l ++ [User.mk "u-2" "bob@example.com" "$2a$password2" EMPLOYEE true
                 2000 None None]) alice_store,
       Next (PrismaError "PrismaClientValidationError")).
Proof.
  split; [vm_compute; reflexivity|].
  eapply (register_token_failure_keeps_user (hasher:=plain_bcrypt)
            {["REFRESH_TOKEN_EXPIRES_MS" := "a week"]} 2000
            "u-2" "salt" (Tokens.mk "access-1" "refresh-1") a_request
            "bob@example.com" "password2" None alice_store).
  - vm_compute; reflexivity.
  - vm_compute; reflexivity.
  - reflexivity.
  - vm_compute; reflexivity.
Defined.

Section LoginEffects.
Context `{hasher : Bcrypt}.

(** The store and the answer of an accepted login. *)
Lemma login_accepted_store env now minted b st st' resp :
  run (AuthRoutes.login env now minted (Some b)) st
  = (st', Respond 200 resp) →
  ∃ u e,
    find_by (λ u, User.email u = AuthRoutes.LoginBody.email b) (users st)
    = Some u
    ∧ AuthRoutes.refresh_expiry env now = Some e
    ∧ filter (λ kv, RefreshToken.userId kv.2 ≠ User.id u)
        (refreshTokens st) !! Tokens.refreshToken minted = None
    ∧ st' = set_users
              (fmap (λ v, if decide (User.id v = User.id u)
                          then User.with_lastLoginAt now v else v))
              (set_refreshTokens
                 (λ m, <[Tokens.refreshToken minted
                         := RefreshToken.mk (User.id u) e]>
                         (filter (λ kv, RefreshToken.userId kv.2 ≠ User.id u)
                            m)) st)
    ∧ resp = AuthRoutes.Body.mk "success" "Login successful"
               (AuthRoutes.include_employee st u) (Tokens.accessToken minted)
               (Tokens.refreshToken minted).
Proof.
  unfold AuthRoutes.login, AuthRoutes.verify, Prisma.user.findUnique_email,
    Prisma.refreshToken.deleteMany_userId, Prisma.refreshToken.create,
    Prisma.user.update_lastLoginAt, Prisma.user.findUnique_id.
  unfold_M. simpl.
  destruct (find_by (λ u, User.email u = _) (users st)) as [u|] eqn:Eu;
    [|done].
  destruct (User.isActive u); simpl; [|done].
  destruct (bcrypt_compare _ _); simpl; [|done].
  destruct (AuthRoutes.refresh_expiry env now) as [e|]; simpl; [|done].
  destruct (filter _ (refreshTokens st) !! Tokens.refreshToken minted)
    eqn:Et; simpl; [done|].
  destruct (find_by (λ v, User.id v = _) (users st)) as [v|]; simpl; [|done].
  intros [= <- <-]. by exists u, e.
Qed.

(** X4: an accepted login touches only what belongs to the user who logs
    in.  The refresh tokens of every other user are exactly those of
    before, the users table changes in the [lastLoginAt] of that one user
    only, and no other table changes: in particular a login leaves no
    audit entry. *)
Theorem login_touches_own_rows_only env now minted b st st' resp :
  run (AuthRoutes.login env now minted (Some b)) st
  = (st', Respond 200 resp) →
  let uid := AuthRoutes.LoginUser.id (AuthRoutes.Body.user resp) in
  (∀ t r, RefreshToken.userId r ≠ uid →
          refreshTokens st' !! t = Some r ↔ refreshTokens st !! t = Some r)
  ∧ users st'
    = (λ v, if decide (User.id v = uid) then User.with_lastLoginAt now v
            else v) <$> users st
  ∧ auditLogs st' = auditLogs st
  ∧ employees st' = employees st
  ∧ passwordResetTokens st' = passwordResetTokens st
  ∧ payrollRecords st' = payrollRecords st
  ∧ departments st' = departments st
  ∧ settings st' = settings st.
Proof.
  intros (u & e & Hu & He & Hfresh & -> & ->)%login_accepted_store uid.
  subst uid. simpl. split; [|done].
  intros t r Hr. split.
  - intros [[<- <-]|[Hne Ht]]%lookup_insert_Some; [done|].
    by apply map_lookup_filter_Some in Ht as [Ht _].
  - intros Ht.
    assert (Hin : filter (λ kv, RefreshToken.userId kv.2 ≠ User.id u)
                    (refreshTokens st) !! t = Some r).
    { by apply map_lookup_filter_Some. }
    rewrite lookup_insert_ne; [done|]. intros <-. congruence.
Qed.

(** X5: the user in the login response is the row as it was read before
    [lastLoginAt] is written, so it shows the previous login time; GET /me
    right afterwards answers the same user with [lastLoginAt] set to the
    time of this login, and changes nothing.  Users have distinct ids. *)
Theorem login_then_me env now minted b st st' resp caller :
  NoDup (User.id <$> users st) →
  run (AuthRoutes.login env now minted (Some b)) st
  = (st', Respond 200 resp) →
  Caller.id caller = AuthRoutes.LoginUser.id (AuthRoutes.Body.user resp) →
  let shown := AuthRoutes.Body.user resp in
  (∃ u, find_by (λ u, User.email u = AuthRoutes.LoginBody.email b) (users st)
        = Some u
        ∧ AuthRoutes.LoginUser.lastLoginAt shown = User.lastLoginAt u)
  ∧ run (AuthRoutesMe.me caller) st'
    = (st',
       Respond 200
         (AuthRoutesMe.Body.mk "success" "User profile retrieved successfully"
            (AuthRoutes.LoginUser.mk
               (AuthRoutes.LoginUser.id shown)
               (AuthRoutes.LoginUser.email shown)
               (AuthRoutes.LoginUser.role shown)
               (AuthRoutes.LoginUser.isActive shown)
               (AuthRoutes.LoginUser.createdAt shown)
               (Some now)
               (AuthRoutes.LoginUser.employee shown)))).
Proof.
  intros Hnodup (u & e & Hu & He & Hfresh & -> & ->)%login_accepted_store
    Hcaller shown.
  subst shown. simpl in *. split; [by exists u|].
  unfold AuthRoutesMe.me, Prisma.user.findUnique_id. unfold_M. simpl.
  rewrite Hcaller.
  assert (Hfind : find_by (λ v, User.id v = User.id u)
            ((λ v, if decide (User.id v = User.id u)
                   then User.with_lastLoginAt now v else v) <$> users st)
          = Some (User.with_lastLoginAt now u)).
  { apply find_by_Some in Hu as [Hin _]. clear -Hin Hnodup.
    induction (users st) as [|w l IH]; [by apply elem_of_nil in Hin|].
    simpl in *. apply NoDup_cons in Hnodup as [Hw Hl].
    unfold find_by. simpl.
    destruct (decide (User.id w = User.id u)) as [Eq|Ne]; simpl.
    - rewrite decide_True by done. simpl.
      apply elem_of_cons in Hin as [->|Hin]; [done|].
      destruct Hw. rewrite Eq. apply list_elem_of_fmap. eauto.
    - rewrite decide_False by done.
      apply elem_of_cons in Hin as [->|Hin]; [done|].
      specialize (IH Hl Hin). unfold find_by in IH.
      destruct (list_find _ _) as [[i x]|]; simpl in *; [|done].
      by simplify_eq. }
  rewrite Hfind. done.
Qed.

(** X6: the login is not one transaction either.  When storing the new
    refresh token throws (the token value is already in the ledger of
    another user, or the configured expiry is not a number), the login
    fails with that error after it has deleted the refresh tokens of the
    user who logs in: that user is left with no refresh token at all, and
    [lastLoginAt] is not written. *)
Theorem login_token_failure_logs_out env now minted email password st u e :
  AuthRoutes.verify email password st = (st, inr u) →
  let st' := set_refreshTokens
               (filter (λ kv, RefreshToken.userId kv.2 ≠ User.id u)) st in
  (Prisma.refreshToken.create (Tokens.refreshToken minted) (User.id u)
     (AuthRoutes.refresh_expiry env now) st').2 = inl e →
  run (AuthRoutes.login env now minted
         (Some (AuthRoutes.LoginBody.mk email password))) st
  = (st', Next e)
  ∧ (∀ t row, refreshTokens st' !! t = Some row →
              RefreshToken.userId row ≠ User.id u)
  ∧ users st' = users st.
Proof.
  intros Hverify st' Hfail.
  apply refreshToken_create_failure in Hfail.
  split; [|split; [|done]].
  - unfold AuthRoutes.login. unfold run, mbind, M_bind at 1.
    simpl. rewrite Hverify.
    unfold Prisma.refreshToken.deleteMany_userId.
    unfold mbind, M_bind, gets, modify. simpl. fold st'.
    by rewrite Hfail.
  - subst st'. simpl. by intros t row [_ ?]%map_lookup_filter_Some.
Qed.

End LoginEffects.

Lemma login_touches_own_rows_only_witness :
  ∃ st' resp,
    run (AuthRoutes.login (hasher:=plain_bcrypt) ∅ 2000
           (Tokens.mk "access-1" "refresh-1") (Some alice_login))
      two_sessions_store = (st', Respond 200 resp)
    ∧ refreshTokens st' !! "refresh-9"
      = Some (RefreshToken.mk "u-2" 700000000)
    ∧ refreshTokens st' !! "refresh-0" = None
    ∧ auditLogs st' = auditLogs two_sessions_store.
Proof.
  let r := eval vm_compute in
    (run (AuthRoutes.login (hasher:=plain_bcrypt) ∅ 2000
            (Tokens.mk "access-1" "refresh-1") (Some alice_login))
       two_sessions_store) in
  match r with
  | (?s, Respond _ ?b) =>
      exists s, b;
      destruct (login_touches_own_rows_only (hasher:=plain_bcrypt) ∅ 2000
                  (Tokens.mk "access-1" "refresh-1") alice_login
                  two_sessions_store s b)
        as (Hothers & _ & Haudit & _)
  end.
  - vm_compute; reflexivity.
  - split; [vm_compute; reflexivity|].
    split.
    { apply (Hothers "refresh-9" (RefreshToken.mk "u-2" 700000000));
        [discriminate|vm_compute; reflexivity]. }
    split; [vm_compute; reflexivity|exact Haudit].
Defined.

Lemma login_then_me_witness :
  ∃ st' resp,
    NoDup (User.id <$> users two_sessions_store)
    ∧ run (AuthRoutes.login (hasher:=plain_bcrypt) ∅ 2000
             (Tokens.mk "access-1" "refresh-1") (Some alice_login))
        two_sessions_store = (st', Respond 200 resp)
    ∧ AuthRoutes.LoginUser.lastLoginAt (AuthRoutes.Body.user resp) = None
    ∧ run (AuthRoutesMe.me alice) st'
      = (st',
         Respond 200
           (AuthRoutesMe.Body.mk "success"
              "User profile retrieved successfully"
              (AuthRoutes.LoginUser.mk "u-1" "alice@example.com" EMPLOYEE
                 true 1000 (Some 2000) None))).
Proof.
  assert (Hids : NoDup (User.id <$> users two_sessions_store)).
  { apply (bool_decide_unpack _). vm_compute. exact I. }
  let r := eval vm_compute in
    (run (AuthRoutes.login (hasher:=plain_bcrypt) ∅ 2000
            (Tokens.mk "access-1" "refresh-1") (Some alice_login))
       two_sessions_store) in
  match r with
  | (?s, Respond _ ?b) =>
      exists s, b;
      destruct (login_then_me (hasher:=plain_bcrypt) ∅ 2000
                  (Tokens.mk "access-1" "refresh-1") alice_login
                  two_sessions_store s b alice Hids)
        as (_ & Hme)
  end.
  - vm_compute; reflexivity.
  - reflexivity.
  - split; [exact Hids|]. split; [vm_compute; reflexivity|].
    split; [reflexivity|exact Hme].
Defined.

Lemma login_token_failure_logs_out_witness :
  refreshTokens two_sessions_store !! "refresh-9"
  = Some (RefreshToken.mk "u-2" 700000000)
  ∧ refreshTokens two_sessions_store !! "refresh-0"
    = Some (RefreshToken.mk "u-1" 604801000)
  ∧ run (AuthRoutes.login (hasher:=plain_bcrypt) ∅ 2000
           (Tokens.mk "access-1" "refresh-9") (Some alice_login))
      two_sessions_store
    = (set_refreshTokens (filter (λ kv, RefreshToken.userId kv.2 ≠ "u-1"))
         two_sessions_store,
       Next (PrismaError "P2002")).
Proof.
  split; [vm_compute; reflexivity|]. split; [vm_compute; reflexivity|].
  eapply (login_token_failure_logs_out (hasher:=plain_bcrypt) ∅ 2000
            (Tokens.mk "access-1" "refresh-9") "alice@example.com"
            "password1" two_sessions_store
            (User.mk "u-1" "alice@example.com" "$2a$password1" EMPLOYEE true
               1000 None None)).
  - vm_compute; reflexivity.
  - vm_compute; reflexivity.
Defined.

(** ** Lists as tables *)

Lemma find_by_cons {A} (P : A → Prop) `{!∀ x, Decision (P x)} (x : A)
    (l : list A) :
  find_by P (x :: l) = if decide (P x) then Some x else find_by P l.
Proof.
  unfold find_by. simpl. destruct (decide (P x)); [done|].
  by destruct (list_find P l) as [[i y]|].
Qed.

Lemma find_by_filter_out {A} (P : A → Prop) `{!∀ x, Decision (P x)}
    (l : list A) :
  find_by P (filter (λ x, ¬ P x) l) = None.
Proof.
  induction l as [|x l IH]; [done|].
  rewrite filter_cons. destruct (decide (¬ P x)) as [Hn|Hn]; [|done].
  rewrite find_by_cons. by rewrite decide_False.
Qed.

Lemma find_by_filter_keep {A} (P Q : A → Prop) `{!∀ x, Decision (P x)}
    `{!∀ x, Decision (Q x)} (l : list A) :
  (∀ x, P x → Q x) →
  find_by P (filter Q l) = find_by P l.
Proof.
  intros HPQ. induction l as [|x l IH]; [done|].
  rewrite filter_cons, (find_by_cons P x l).
  destruct (decide (Q x)) as [Hq|Hq].
  - rewrite find_by_cons. by destruct (decide (P x)).
  - rewrite decide_False; [done|]. intros Hp. by apply Hq, HPQ.
Qed.

Lemma StronglySorted_take_drop {A} (R : relation A) (l : list A) n m :
  StronglySorted R l → StronglySorted R (take n (drop m l)).
Proof.
  intros Hl.
  rewrite <- (take_drop m l) in Hl. apply StronglySorted_app_1_r in Hl.
  rewrite <- (take_drop n (drop m l)) in Hl.
  by apply StronglySorted_app_1_l in Hl.
Qed.

(** ** Payroll records, continued *)

Lemma newer_first_trans : Transitive PayrollRecordRoutes.newer_first.
Proof. unfold PayrollRecordRoutes.newer_first. intros a b c. lia. Qed.

Lemma newer_first_total : Total PayrollRecordRoutes.newer_first.
Proof. unfold PayrollRecordRoutes.newer_first. intros a b. lia. Qed.

Lemma records_of_views st (l : list PayrollRecord.t) :
  PayrollRecordRoutes.View.record
  <$> (PayrollRecordRoutes.include_employee st <$> l) = l.
Proof. induction l as [|r l IH]; [done|]. rewrite !fmap_cons. by f_equal. Qed.

(** X7: GET / of the payroll records answers at most [limit] records; each
    is a stored record that satisfies the [where] object of the request
    (the status and date filters and, for a linked EMPLOYEE, the own
    [employeeId]); they come latest pay period first; and [total] is the
    number of all stored records that satisfy it, whatever the page. *)
Theorem payroll_list_page now req q user st st' body :
  run (PayrollRecordRoutes.list_handler now req q user) st
  = (st', Respond 200 body) →
  let rows := PayrollRecordRoutes.View.record
              <$> PayrollRecordRoutes.ListBody.records body in
  let w := PayrollRecordRoutes.list_where q user in
  (length rows ≤ N.to_nat (PayrollRecordRoutes.ListQuery.limit q))%nat
  ∧ (∀ r, r ∈ rows →
          r ∈ payrollRecords st
          ∧ PayrollRecordRoutes.Where.matches w r = true)
  ∧ StronglySorted PayrollRecordRoutes.newer_first rows
  ∧ PayrollRecordRoutes.ListBody.total body
    = Z.of_nat
        (length (filter (λ r, PayrollRecordRoutes.Where.matches w r = true)
                   (payrollRecords st)))
  ∧ Z.of_nat (length rows) ≤ PayrollRecordRoutes.ListBody.total body
  ∧ payrollRecords st' = payrollRecords st.
Proof.
  rewrite list_handler_run. simpl.
  destruct (bool_decide _); [done|]. intros [= <- <-]. simpl.
  rewrite records_of_views.
  set (sorted := merge_sort PayrollRecordRoutes.newer_first
                   (PayrollRecordRoutes.selected
                      (PayrollRecordRoutes.list_where q user) st)).
  assert (Hlen : length sorted
                 = length (PayrollRecordRoutes.selected
                             (PayrollRecordRoutes.list_where q user) st)).
  { subst sorted. apply Permutation_length, merge_sort_Permutation. }
  split; [rewrite length_take; lia|].
  split.
  { intros r Hr. apply subseteq_take, subseteq_drop in Hr.
    subst sorted. rewrite merge_sort_Permutation in Hr.
    unfold PayrollRecordRoutes.selected in Hr.
    by apply list_elem_of_filter in Hr as [? ?]. }
  split.
  { apply StronglySorted_take_drop. subst sorted.
    apply (@StronglySorted_merge_sort _ _ _ newer_first_trans
             newer_first_total). }
  split; [done|]. split; [|done].
  rewrite length_take, length_drop, Hlen.
  unfold PayrollRecordRoutes.selected. lia.
Qed.

Lemma payroll_list_page_witness :
  ∃ st' body,
    run (PayrollRecordRoutes.list_handler 5000 a_request first_page dana)
      payroll_store = (st', Respond 200 body)
    ∧ PayrollRecordRoutes.View.record
      <$> PayrollRecordRoutes.ListBody.records body
      = [bob_payslip; alice_payslip]
    ∧ PayrollRecordRoutes.ListBody.total body = 2.
Proof.
  let r := eval vm_compute in
    (run (PayrollRecordRoutes.list_handler 5000 a_request first_page dana)
       payroll_store) in
  match r with
  | (?s, Respond _ ?b) =>
      exists s, b;
      destruct (payroll_list_page 5000 a_request first_page dana
                  payroll_store s b) as (_ & _ & _ & Htotal & _)
  end.
  - vm_compute; reflexivity.
  - split; [vm_compute; reflexivity|].
    split; [vm_compute; reflexivity|].
    rewrite Htotal. vm_compute; reflexivity.
Defined.

(** X8: the [pages] field of GET / is the least number of pages of [limit]
    records that hold [total] records; with [limit] 0 the route still
    answers 200, with no records and [pages] null. *)
Theorem payroll_list_pages now req q user st st' body :
  run (PayrollRecordRoutes.list_handler now req q user) st
  = (st', Respond 200 body) →
  let limit := Z.of_N (PayrollRecordRoutes.ListQuery.limit q) in
  let total := PayrollRecordRoutes.ListBody.total body in
  (∀ p, PayrollRecordRoutes.ListBody.pages body = Some p →
        0 < limit ∧ (p - 1) * limit < total ∧ total ≤ p * limit)
  ∧ (limit = 0 →
       PayrollRecordRoutes.ListBody.pages body = None
       ∧ PayrollRecordRoutes.ListBody.records body = [])
  ∧ (0 < limit → is_Some (PayrollRecordRoutes.ListBody.pages body)).
Proof.
  rewrite list_handler_run. simpl.
  destruct (bool_decide _); [done|]. intros [= <- <-]. simpl.
  unfold Js.ceil_div.
  set (limit := Z.of_N (PayrollRecordRoutes.ListQuery.limit q)).
  set (total := Z.of_nat _).
  assert (0 ≤ limit) by (subst limit; lia).
  assert (0 ≤ total) by (subst total; lia).
  split; [|split].
  - intros p. case_bool_decide as Hz; [done|]. intros [= <-].
    split; [lia|].
    pose proof (Z.div_mod (total + limit - 1) limit Hz) as Hdm.
    pose proof (Z.mod_pos_bound (total + limit - 1) limit ltac:(lia)).
    nia.
  - intros Hz. rewrite bool_decide_eq_true_2 by done. split; [done|].
    assert (PayrollRecordRoutes.ListQuery.limit q = 0%N) as -> by lia.
    done.
  - intros Hpos. rewrite bool_decide_eq_false_2 by lia. eauto.
Qed.

Lemma payroll_list_pages_witness :
  ∃ st' body,
    run (PayrollRecordRoutes.list_handler 5000 a_request
           (PayrollRecordRoutes.ListQuery.mk 1 0 None None None None) dana)
      payroll_store = (st', Respond 200 body)
    ∧ PayrollRecordRoutes.ListBody.total body = 2
    ∧ PayrollRecordRoutes.ListBody.pages body = None
    ∧ PayrollRecordRoutes.ListBody.records body = [].
Proof.
  let r := eval vm_compute in
    (run (PayrollRecordRoutes.list_handler 5000 a_request
            (PayrollRecordRoutes.ListQuery.mk 1 0 None None None None) dana)
       payroll_store) in
  match r with
  | (?s, Respond _ ?b) =>
      exists s, b;
      destruct (payroll_list_pages 5000 a_request
                  (PayrollRecordRoutes.ListQuery.mk 1 0 None None None None)
                  dana payroll_store s b) as (_ & Hzero & _)
  end.
  - vm_compute; reflexivity.
  - split; [vm_compute; reflexivity|].
    split; [vm_compute; reflexivity|].
    apply Hzero. reflexivity.
Defined.

(** X9: DELETE /:id refuses a payroll record that is PROCESSED or PAID with
    a [ValidationError], and a missing id with [NotFoundError]; in both
    cases nothing is deleted and no audit entry is written. *)
Theorem payroll_delete_refusals now req id user st :
  (find_by (λ r, PayrollRecord.id r = id) (payrollRecords st) = None →
   run (PayrollRecordDelete.delete_handler now req id user) st
   = (st, Next (NotFoundError "Payroll record not found")))
  ∧ (∀ r,
       find_by (λ r, PayrollRecord.id r = id) (payrollRecords st) = Some r →
       PayrollRecord.status r = PROCESSED ∨ PayrollRecord.status r = PAID →
          run (PayrollRecordDelete.delete_handler now req id user) st
          = (st, Next (ValidationError
                         "Cannot delete processed or paid payroll records"
                         None))).
Proof.
  unfold PayrollRecordDelete.delete_handler, PayrollRecordDelete.findUnique.
  unfold_M. split.
  - by intros ->.
  - intros r -> Hstatus. simpl.
    rewrite bool_decide_eq_true_2; [done|].
    destruct Hstatus as [-> | ->]; set_solver.
Qed.

(** X10: DELETE /:id of a DRAFT or CANCELLED payroll record removes the
    record and appends one DELETE audit entry that keeps the deleted record
    as its old value.  Afterwards GET /:id and a second DELETE of the same
    id answer [NotFoundError] for every caller, and every other record is
    found as before. *)
Theorem payroll_delete_removes now req id user st r :
  find_by (λ r, PayrollRecord.id r = id) (payrollRecords st) = Some r →
  PayrollRecord.status r = DRAFT ∨ PayrollRecord.status r = CANCELLED →
  let st' :=
    set_auditLogs (λ l,
      l ++ [AuditLogEntry.mk (Caller.id user) DELETE "payroll_records"
              (Some id) (Some (SnapPayroll r)) None now req])
      (set_payrollRecords (filter (λ r, PayrollRecord.id r ≠ id)) st) in
  run (PayrollRecordDelete.delete_handler now req id user) st
  = (st', Respond 200
            (PayrollRecordDelete.Body.mk true
               "Payroll record deleted successfully"))
  ∧ (∀ now2 req2 user2,
       run (PayrollRecordRoutes.get_handler now2 req2 id user2) st'
       = (st', Next (NotFoundError "Payroll record not found"))
       ∧ run (PayrollRecordDelete.delete_handler now2 req2 id user2) st'
         = (st', Next (NotFoundError "Payroll record not found")))
  ∧ (∀ other, other ≠ id →
       find_by (λ r, PayrollRecord.id r = other) (payrollRecords st')
       = find_by (λ r, PayrollRecord.id r = other) (payrollRecords st)).
Proof.
  intros Hfind Hstatus st'.
  assert (Hgone : find_by (λ r, PayrollRecord.id r = id) (payrollRecords st')
                  = None).
  { subst st'. simpl. apply find_by_filter_out. }
  split; [|split].
  - unfold PayrollRecordDelete.delete_handler, PayrollRecordDelete.delete,
      PayrollRecordDelete.findUnique, createAuditLog.
    unfold_M. rewrite Hfind. simpl.
    rewrite bool_decide_eq_false_2.
    2:{ destruct Hstatus as [-> | ->];
          intros [?|[?|?%elem_of_nil]%elem_of_cons]%elem_of_cons; done. }
    by rewrite Hfind.
  - intros now2 req2 user2. split.
    + unfold PayrollRecordRoutes.get_handler, PayrollRecordRoutes.findUnique.
      unfold_M. by rewrite Hgone.
    + unfold PayrollRecordDelete.delete_handler,
        PayrollRecordDelete.findUnique.
      unfold_M. by rewrite Hgone.
  - intros other Hother. subst st'. simpl.
    apply find_by_filter_keep. intros x <-. done.
Qed.

Lemma payroll_delete_refusals_witness :
  find_by (λ r, PayrollRecord.id r = "p-1") (payrollRecords draft_store)
  = Some alice_payslip
  ∧ PayrollRecord.status alice_payslip = PAID
  ∧ run (PayrollRecordDelete.delete_handler 5000 a_request "p-1" dana)
      draft_store
    = (draft_store,
       Next (ValidationError "Cannot delete processed or paid payroll records"
               None)).
Proof.
  split; [reflexivity|]. split; [reflexivity|].
  destruct (payroll_delete_refusals 5000 a_request "p-1" dana draft_store)
    as [_ Hpaid].
  apply (Hpaid alice_payslip eq_refl). by right.
Defined.

Lemma payroll_delete_removes_witness :
  find_by (λ r, PayrollRecord.id r = "p-3") (payrollRecords draft_store)
  = Some alice_draft
  ∧ PayrollRecord.status alice_draft = DRAFT
  ∧ (run (PayrollRecordDelete.delete_handler 5000 a_request "p-3" dana)
       draft_store).2
    = Respond 200
        (PayrollRecordDelete.Body.mk true
           "Payroll record deleted successfully")
  ∧ payrollRecords
      (run (PayrollRecordDelete.delete_handler 5000 a_request "p-3" dana)
         draft_store).1
    = [alice_payslip; bob_payslip].
Proof.
  split; [reflexivity|]. split; [reflexivity|].
  destruct (payroll_delete_removes 5000 a_request "p-3" dana draft_store
              alice_draft eq_refl (or_introl eq_refl)) as (Hrun & _).
  rewrite Hrun. split; [reflexivity|]. vm_compute; reflexivity.
Defined.

(** ** Departments *)

Lemma find_by_fmap {A K} `{!EqDecision K} (key : A → K) (f : A → A)
    (k : K) (l : list A) :
  (∀ x, key (f x) = key x) →
  find_by (λ x, key x = k) (f <$> l) = f <$> find_by (λ x, key x = k) l.
Proof.
  intros Hkey. induction l as [|x l IH]; [done|].
  rewrite fmap_cons, !find_by_cons, Hkey.
  by destruct (decide (key x = k)).
Qed.

Lemma department_update_rows id data st st' d :
  DepartmentMutations.update id data st = (st', inr d) →
  ∃ old,
    find_by (λ d, Department.id d = id) (departments st) = Some old
    ∧ d = DepartmentMutations.apply_data data old
    ∧ st' = set_departments
              (fmap (λ d, if decide (Department.id d = id)
                          then DepartmentMutations.apply_data data d else d))
              st.
Proof.
  unfold DepartmentMutations.update, DepartmentRoutes.findUnique. unfold_M.
  destruct (find_by _ (departments st)) as [old|]; [|done].
  intros [= <- <-]. by exists old.
Qed.

Lemma department_update_found id data st old :
  find_by (λ d, Department.id d = id) (departments st) = Some old →
  DepartmentMutations.update id data st
  = (set_departments
       (fmap (λ d, if decide (Department.id d = id)
                   then DepartmentMutations.apply_data data d else d)) st,
     inr (DepartmentMutations.apply_data data old)).
Proof.
  intros Hold.
  unfold DepartmentMutations.update, DepartmentRoutes.findUnique. unfold_M.
  by rewrite Hold.
Qed.

(** After an update the row is found under its id with the new columns,
    and rows with other ids are found as before. *)
Lemma department_find_updated id data k (l : list Department.t) :
  find_by (λ d, Department.id d = k)
    ((λ d, if decide (Department.id d = id)
           then DepartmentMutations.apply_data data d else d) <$> l)
  = (λ d, if decide (Department.id d = id)
          then DepartmentMutations.apply_data data d else d)
    <$> find_by (λ d, Department.id d = k) l.
Proof.
  apply (find_by_fmap Department.id). intros x.
  by destruct (decide (Department.id x = id)).
Qed.

(** X11: DELETE /:id of a department is refused with a [ValidationError]
    while an ACTIVE employee belongs to the department, or, failing that,
    while it has an active child department, and with the 404 error when
    the id is unknown; a refusal changes nothing. *)
Theorem department_delete_refusals now req id user st :
  (find_by (λ d, Department.id d = id) (departments st) = None →
   run (DepartmentMutations.delete_handler now req id user) st
   = (st, Next (AppError "Department not found" 404)))
  ∧ (∀ d e,
       find_by (λ d, Department.id d = id) (departments st) = Some d →
       e ∈ employees st →
       Employee.departmentId e = Some id →
       Employee.employmentStatus e = "ACTIVE" →
       run (DepartmentMutations.delete_handler now req id user) st
       = (st, Next (ValidationError
                      "Cannot delete department with active employees" None)))
  ∧ (∀ d c,
       find_by (λ d, Department.id d = id) (departments st) = Some d →
       DepartmentMutations.active_employees id st = [] →
       c ∈ departments st →
       Department.parentId c = Some id →
       Department.isActive c = true →
       run (DepartmentMutations.delete_handler now req id user) st
       = (st, Next (ValidationError
                      "Cannot delete department with active child departments"
                      None))).
Proof.
  unfold DepartmentMutations.delete_handler, DepartmentRoutes.findUnique.
  unfold_M. split; [by intros ->|]. split.
  - intros d e -> He Hdep Hact. simpl.
    rewrite bool_decide_eq_true_2; [done|].
    assert (e ∈ DepartmentMutations.active_employees id st) as Hin.
    { unfold DepartmentMutations.active_employees.
      by apply list_elem_of_filter. }
    destruct (DepartmentMutations.active_employees id st);
      [by apply elem_of_nil in Hin|simpl; lia].
  - intros d c -> -> Hc Hpar Hact. simpl.
    rewrite bool_decide_eq_true_2; [done|].
    assert (c ∈ DepartmentMutations.active_children id st) as Hin.
    { unfold DepartmentMutations.active_children.
      by apply list_elem_of_filter. }
    destruct (DepartmentMutations.active_children id st);
      [by apply elem_of_nil in Hin|simpl; lia].
Qed.

Lemma find_by_elem_of {A} (P : A → Prop) `{!∀ x, Decision (P x)}
    (l : list A) (x : A) :
  x ∈ l → P x → is_Some (find_by P l).
Proof.
  intros Hin HP. unfold find_by.
  destruct (list_find_elem_of P l x Hin HP) as [[i y] ->]. simpl. eauto.
Qed.

Lemma filter_empty_elem_of {A} (P : A → Prop) `{!∀ x, Decision (P x)}
    (l : list A) :
  (∀ x, x ∈ l → ¬ P x) → filter P l = [].
Proof.
  intros Hnone. induction l as [|x l IH]; [done|].
  rewrite filter_cons, decide_False.
  - apply IH. intros y Hy. apply Hnone. by right.
  - apply Hnone. by left.
Qed.

(** Deactivating a department makes no department an active child. *)
Lemma active_children_after_deactivation id k st :
  DepartmentMutations.active_children k st = [] →
  DepartmentMutations.active_children k
    (set_departments
       (fmap (λ d, if decide (Department.id d = id)
                   then DepartmentMutations.apply_data
                          DepartmentMutations.deactivate d
                   else d)) st) = [].
Proof.
  unfold DepartmentMutations.active_children. simpl. intros Hnone.
  apply filter_empty_elem_of.
  intros c' (c & -> & Hc)%list_elem_of_fmap [Hpar Hact].
  destruct (decide (Department.id c = id)); simpl in *; [done|].
  eapply (filter_nil_not_elem_of _ _ c Hnone); [|done]. done.
Qed.

(** X12: an accepted DELETE /:id of a department is a soft delete: the
    row stays in the table, found under its id with the same name and
    [isActive] false, and one DELETE audit entry is appended.  The route
    has no guard for a department that is already inactive: a repeated
    DELETE is accepted again and appends a further audit entry.  The name
    of the deleted department stays taken: POST / with that name is
    refused. *)
Theorem department_delete_is_soft now req id user st d :
  find_by (λ d, Department.id d = id) (departments st) = Some d →
  DepartmentMutations.active_employees id st = [] →
  DepartmentMutations.active_children id st = [] →
  let d' := Department.mk (Department.id d) (Department.name d)
              (Department.managerId d) (Department.parentId d)
              (Department.description d) false in
  ∃ st',
    run (DepartmentMutations.delete_handler now req id user) st
    = (st', Respond 200
              (DepartmentMutations.DeleteBody.mk true
                 "Department deleted successfully" d'))
    ∧ find_by (λ d, Department.id d = id) (departments st') = Some d'
    ∧ length (departments st') = length (departments st)
    ∧ auditLogs st'
      = auditLogs st
        ++ [AuditLogEntry.mk (Caller.id user) DELETE "department" (Some id)
              (Some (SnapDepartment (DepartmentMutations.plain d)))
              (Some (SnapDepartment (DepartmentMutations.plain d')))
              now req]
    ∧ (∀ now2 req2 user2, ∃ st'',
         run (DepartmentMutations.delete_handler now2 req2 id user2) st'
         = (st'', Respond 200
                    (DepartmentMutations.DeleteBody.mk true
                       "Department deleted successfully" d'))
         ∧ length (auditLogs st'') = S (length (auditLogs st')))
    ∧ (∀ now2 id2 req2 user2 body,
         DepartmentRoutes.CreateBody.name body = Department.name d →
         run (DepartmentRoutes.create_handler now2 id2 req2 body user2) st'
         = (st', Next (ValidationError "Department name already exists"
                         None))).
Proof.
  intros Hfind Hemp Hchild d'.
  assert (Hrun : ∀ now req user s x,
            find_by (λ d, Department.id d = id) (departments s) = Some x →
            DepartmentMutations.active_employees id s = [] →
            DepartmentMutations.active_children id s = [] →
            run (DepartmentMutations.delete_handler now req id user) s
            = (set_auditLogs (λ l,
                 l ++ [AuditLogEntry.mk (Caller.id user) DELETE "department"
                         (Some id)
                         (Some (SnapDepartment (DepartmentMutations.plain x)))
                         (Some (SnapDepartment
                                  (DepartmentMutations.plain
                                     (DepartmentMutations.apply_data
                                        DepartmentMutations.deactivate x))))
                         now req])
                 (set_departments
                    (fmap (λ d, if decide (Department.id d = id)
                                then DepartmentMutations.apply_data
                                       DepartmentMutations.deactivate d
                                else d)) s),
               Respond 200
                 (DepartmentMutations.DeleteBody.mk true
                    "Department deleted successfully"
                    (DepartmentMutations.apply_data
                       DepartmentMutations.deactivate x)))).
  { intros now0 req0 user0 s x Hx He Hc.
    unfold DepartmentMutations.delete_handler. unfold run, mbind, M_bind.
    unfold DepartmentRoutes.findUnique at 1. unfold gets at 1 2 3.
    rewrite Hx, He, Hc. simpl.
    rewrite (department_update_found _ _ _ _ Hx).
    unfold createAuditLog, modify, mret, M_ret. done. }
  assert (Hid : Department.id d = id).
  { by apply find_by_Some in Hfind as [_ ?]. }
  eexists. split; [rewrite (Hrun _ _ _ _ _ Hfind Hemp Hchild); reflexivity|].
  assert (Hfind' :
    find_by (λ d, Department.id d = id)
      ((λ d, if decide (Department.id d = id)
             then DepartmentMutations.apply_data
                    DepartmentMutations.deactivate d
             else d) <$> departments st) = Some d').
  { rewrite department_find_updated, Hfind. simpl.
    by rewrite decide_True. }
  simpl. split; [exact Hfind'|]. split; [by rewrite length_fmap|].
  split; [done|]. split.
  - intros now2 req2 user2. eexists. split.
    + rewrite (Hrun now2 req2 user2 _ d'); [reflexivity|exact Hfind'|..].
      * done.
      * by apply active_children_after_deactivation.
    + simpl. rewrite length_app. simpl. lia.
  - intros now2 id2 req2 user2 body Hname.
    unfold DepartmentRoutes.create_handler, DepartmentRoutes.findFirst_name.
    unfold_M. simpl. rewrite Hname.
    rewrite bool_decide_eq_true_2; [done|].
    apply (find_by_elem_of _ _ d'); [|done].
    apply find_by_Some in Hfind' as [Hin _]. exact Hin.
Qed.

Lemma department_delete_refusals_witness :
  find_by (λ d, Department.id d = "d-1") (departments org_store)
  = Some engineering
  ∧ erin_profile ∈ employees org_store
  ∧ run (DepartmentMutations.delete_handler 5000 a_request "d-1" dana)
      org_store
    = (org_store,
       Next (ValidationError "Cannot delete department with active employees"
               None)).
Proof.
  split; [reflexivity|].
  assert (Hin : erin_profile ∈ employees org_store) by (simpl; by left).
  split; [exact Hin|].
  destruct (department_delete_refusals 5000 a_request "d-1" dana org_store)
    as (_ & Hemp & _).
  apply (Hemp engineering erin_profile eq_refl Hin eq_refl eq_refl).
Defined.

Lemma department_delete_is_soft_witness :
  find_by (λ d, Department.id d = "d-2") (departments org_store)
  = Some platform
  ∧ DepartmentMutations.active_employees "d-2" org_store = []
  ∧ DepartmentMutations.active_children "d-2" org_store = []
  ∧ ∃ st',
      run (DepartmentMutations.delete_handler 5000 a_request "d-2" dana)
        org_store
      = (st', Respond 200
                (DepartmentMutations.DeleteBody.mk true
                   "Department deleted successfully"
                   (Department.mk "d-2" "Platform" None (Some "d-1") None
                      false)))
      ∧ length (departments st') = 3%nat.
Proof.
  split; [reflexivity|]. split; [reflexivity|]. split; [reflexivity|].
  destruct (department_delete_is_soft 5000 a_request "d-2" dana org_store
              platform eq_refl eq_refl eq_refl)
    as (st' & Hrun & _ & Hlen & _).
  exists st'. split; [exact Hrun|exact Hlen].
Defined.

Lemma truthy_Some (s : string) : s ≠ "" → Js.truthy (Some s) = true.
Proof. by destruct s. Qed.

(** The two look-ups PUT /:id makes before it compares the parent: the
    name check finds a department exactly when the requested name is
    taken, the manager check fails exactly when the manager is unknown. *)
Lemma update_name_check st d body :
  let name := DepartmentMutations.UpdateBody.name body in
  ∃ c,
    (if Js.truthy name && bool_decide (name ≠ Some (Department.name d))
     then DepartmentRoutes.findFirst_name (default "" name)
     else mret None) st = (st, inr c)
    ∧ (bool_decide (is_Some c) = true ↔ update_name_taken st d body).
Proof.
  unfold update_name_taken, DepartmentRoutes.findFirst_name. unfold_M.
  destruct (DepartmentMutations.UpdateBody.name body) as [[|a n]|];
    simpl.
  - exists None. split; [done|]. split; [done|].
    by intros (n & other & [= <-] & Hn & _).
  - case_bool_decide as Hne; simpl.
    + eexists. split; [done|]. split.
      * intros [other Ho]%bool_decide_eq_true.
        exists (String a n), other. repeat split; [done|congruence|done].
      * intros (n' & other & [= <-] & _ & _ & Ho).
        apply bool_decide_eq_true. by rewrite Ho.
    + exists None. split; [done|]. split; [done|].
      intros (n' & other & [= <-] & _ & Hd & _). congruence.
  - exists None. split; [done|]. split; [done|].
    by intros (n & other & [=] & _).
Qed.

Lemma update_manager_check st body :
  let managerId := DepartmentMutations.UpdateBody.managerId body in
  ∃ m,
    (if Js.truthy managerId
     then DepartmentRoutes.employee_findUnique (default "" managerId)
     else mret None) st = (st, inr m)
    ∧ (Js.truthy managerId && bool_decide (m = None) = true
       ↔ update_manager_unknown st body).
Proof.
  unfold update_manager_unknown, DepartmentRoutes.employee_findUnique.
  unfold_M.
  destruct (DepartmentMutations.UpdateBody.managerId body) as [[|a m]|];
    simpl.
  - exists None. split; [done|]. split; [done|].
    by intros (m & [= <-] & Hm & _).
  - eexists. split; [done|]. split.
    + intros Hm%bool_decide_eq_true. by exists (String a m).
    + intros (m' & [= <-] & _ & Hm). by apply bool_decide_eq_true.
  - exists None. split; [done|]. split; [done|].
    by intros (m & [=] & _).
Qed.

Lemma update_parent_check st id body :
  let parentId := DepartmentMutations.UpdateBody.parentId body in
  (Js.truthy parentId && bool_decide (parentId = Some id) = true
   ↔ update_own_parent id body)
  ∧ ∃ p,
      (if Js.truthy parentId
       then DepartmentRoutes.findUnique (default "" parentId)
       else mret None) st = (st, inr p)
      ∧ (Js.truthy parentId && bool_decide (p = None) = true
         ↔ update_parent_unknown st body).
Proof.
  unfold update_own_parent, update_parent_unknown,
    DepartmentRoutes.findUnique.
  unfold_M.
  destruct (DepartmentMutations.UpdateBody.parentId body) as [[|a p]|];
    simpl.
  - split; [split; [done|by intros [[= <-] ?]]|].
    exists None. split; [done|]. split; [done|].
    by intros (p & [= <-] & Hp & _).
  - split.
    { split.
      - intros [= <-]%bool_decide_eq_true. by split.
      - intros [E _]. by apply bool_decide_eq_true. }
    eexists. split; [done|]. split.
    + intros Hp%bool_decide_eq_true. by exists (String a p).
    + intros (p' & [= <-] & _ & Hp). by apply bool_decide_eq_true.
  - split; [split; [done|by intros [[=] ?]]|].
    exists None. split; [done|]. split; [done|].
    by intros (p & [=] & _).
Qed.

(** X13: PUT /:id of a department answers the 404 error for an unknown
    id.  For a department that exists it makes four checks, in this order,
    and the first that fails decides the error, the store unchanged:
    "Department name already exists" when the body's name is not empty,
    differs from the department's own and some department has it;
    "Manager not found" when the body's managerId is not empty and no
    employee has it; "Department cannot be its own parent" when the body's
    parentId is the department's own id; "Parent department not found"
    when the body's parentId is not empty and no department has it.  When
    no check fails the update is answered with 200. *)
Theorem department_update_refusals now req id body user st :
  let answer := run (DepartmentMutations.update_handler now req id body user)
                  st in
  (find_by (λ d, Department.id d = id) (departments st) = None →
   answer = (st, Next (AppError "Department not found" 404)))
  ∧ (∀ d,
       find_by (λ d, Department.id d = id) (departments st) = Some d →
       (update_name_taken st d body →
        answer
        = (st, Next (ValidationError "Department name already exists"
                       None)))
       ∧ (¬ update_name_taken st d body →
          update_manager_unknown st body →
          answer = (st, Next (ValidationError "Manager not found" None)))
       ∧ (¬ update_name_taken st d body →
          ¬ update_manager_unknown st body →
          update_own_parent id body →
          answer
          = (st, Next (ValidationError
                         "Department cannot be its own parent" None)))
       ∧ (¬ update_name_taken st d body →
          ¬ update_manager_unknown st body →
          ¬ update_own_parent id body →
          update_parent_unknown st body →
          answer
          = (st, Next (ValidationError "Parent department not found"
                         None)))
       ∧ (¬ update_name_taken st d body →
          ¬ update_manager_unknown st body →
          ¬ update_own_parent id body →
          ¬ update_parent_unknown st body →
          ∃ st' answered, answer = (st', Respond 200 answered))).
Proof.
  intros answer.
  assert (Hrun : answer
                 = run (DepartmentMutations.update_handler now req id body
                          user) st) by done.
  clearbody answer. revert Hrun.
  unfold DepartmentMutations.update_handler. cbv zeta.
  unfold run, mbind, M_bind at 1.
  unfold DepartmentRoutes.findUnique at 1. unfold gets at 1.
  destruct (find_by (λ d, Department.id d = id) (departments st))
    as [d|] eqn:Ed.
  2:{ intros ->. split; [done|]. by intros d. }
  intros Hrun. split; [done|]. intros ? [= <-]. revert Hrun.
  destruct (update_name_check st d body) as (c & Ec & Hc).
  destruct (update_manager_check st body) as (m & Em & Hm).
  destruct (update_parent_check st id body) as (Hown & p & Ep & Hp).
  cbv zeta in Ec, Hc, Em, Hm, Hown, Ep, Hp.
  unfold mbind, M_bind at 1. rewrite Ec.
  destruct (bool_decide (is_Some c)) eqn:Bc.
  { intros ->.
    assert (Ht : update_name_taken st d body) by by apply Hc.
    split; [done|]. repeat split; by intros Hn. }
  intros Hrun. split; [by intros Ht%Hc|]. revert Hrun.
  unfold mbind, M_bind at 1. rewrite Em.
  destruct (Js.truthy _ && bool_decide (m = None)) eqn:Bm.
  { intros ->.
    assert (Ht : update_manager_unknown st body) by by apply Hm.
    split; [done|]. repeat split; by intros _ Hn. }
  intros Hrun. split; [by intros _ Ht%Hm|]. revert Hrun.
  destruct (Js.truthy _ && bool_decide (_ = Some id)) eqn:Bo.
  { intros ->.
    assert (Ht : update_own_parent id body) by by apply Hown.
    split; [done|]. repeat split; by intros _ _ Hn. }
  intros Hrun. split; [by intros _ _ Ht%Hown|]. revert Hrun.
  unfold mbind, M_bind at 1. rewrite Ep.
  destruct (Js.truthy _ && bool_decide (p = None)) eqn:Bp.
  { intros ->.
    assert (Ht : update_parent_unknown st body) by by apply Hp.
    split; [done|]. by intros _ _ _ Hn. }
  intros Hrun. split; [by intros _ _ _ Ht%Hp|]. revert Hrun.
  unfold DepartmentMutations.update, DepartmentRoutes.findUnique,
    createAuditLog.
  unfold_M. simpl. rewrite Ed. simpl.
  intros -> _ _ _ _. eauto.
Qed.

Lemma department_update_refusals_witness :
  find_by (λ d, Department.id d = "d-2") (departments org_store)
  = Some platform
  ∧ run (DepartmentMutations.update_handler 5000 a_request "d-2"
           (DepartmentMutations.UpdateBody.mk (Some "Sales") None None None
              None) dana) org_store
    = (org_store,
       Next (ValidationError "Department name already exists" None))
  ∧ run (DepartmentMutations.update_handler 5000 a_request "d-2"
           (DepartmentMutations.UpdateBody.mk None (Some "e-404")
              (Some "d-2") None None) dana) org_store
    = (org_store, Next (ValidationError "Manager not found" None))
  ∧ run (DepartmentMutations.update_handler 5000 a_request "d-2"
           (DepartmentMutations.UpdateBody.mk (Some "Platform")
              (Some "e-5") (Some "d-2") None None) dana) org_store
    = (org_store,
       Next (ValidationError "Department cannot be its own parent" None))
  ∧ run (DepartmentMutations.update_handler 5000 a_request "d-2"
           (DepartmentMutations.UpdateBody.mk None None (Some "d-404") None
              None) dana) org_store
    = (org_store,
       Next (ValidationError "Parent department not found" None)).
Proof.
  assert (Hno_name : ∀ m p,
    ¬ update_name_taken org_store platform
        (DepartmentMutations.UpdateBody.mk None m p None None)).
  { by intros m p (n & other & [=] & _). }
  split; [reflexivity|]. split; [|split; [|split]].
  - destruct (department_update_refusals 5000 a_request "d-2"
                (DepartmentMutations.UpdateBody.mk (Some "Sales") None None
                   None None) dana org_store) as (_ & Hfound).
    destruct (Hfound platform eq_refl) as (Hname & _).
    apply Hname. exists "Sales", sales.
    repeat split; [discriminate|discriminate].
  - destruct (department_update_refusals 5000 a_request "d-2"
                (DepartmentMutations.UpdateBody.mk None (Some "e-404")
                   (Some "d-2") None None) dana org_store) as (_ & Hfound).
    destruct (Hfound platform eq_refl) as (_ & Hmanager & _).
    apply Hmanager; [apply Hno_name|].
    exists "e-404". repeat split. discriminate.
  - destruct (department_update_refusals 5000 a_request "d-2"
                (DepartmentMutations.UpdateBody.mk (Some "Platform")
                   (Some "e-5") (Some "d-2") None None) dana org_store)
      as (_ & Hfound).
    destruct (Hfound platform eq_refl) as (_ & _ & Hown & _).
    apply Hown.
    + intros (n & other & [= <-] & _ & Hn & _). by apply Hn.
    + intros (m & [= <-] & _ & Hm). discriminate Hm.
    + split; [reflexivity|discriminate].
  - destruct (department_update_refusals 5000 a_request "d-2"
                (DepartmentMutations.UpdateBody.mk None None (Some "d-404")
                   None None) dana org_store) as (_ & Hfound).
    destruct (Hfound platform eq_refl) as (_ & _ & _ & Hparent & _).
    apply Hparent; [apply Hno_name| | |].
    + by intros (m & [=] & _).
    + by intros [[=] _].
    + exists "d-404". repeat split. discriminate.
Defined.

(** What the three mutations do to the departments table, whether they
    answer or throw. *)
Lemma department_create_rows now id req body user st st' o :
  run (DepartmentRoutes.create_handler now id req body user) st = (st', o) →
  departments st' = departments st
  ∨ ∃ d, find_by
           (λ d, Department.name d = DepartmentRoutes.CreateBody.name body)
           (departments st) = None
         ∧ find_by (λ d, Department.id d = id) (departments st) = None
         ∧ Department.id d = id
         ∧ Department.name d = DepartmentRoutes.CreateBody.name body
         ∧ departments st' = departments st ++ [d].
Proof.
  unfold DepartmentRoutes.create_handler, DepartmentRoutes.create,
    DepartmentRoutes.findFirst_name, DepartmentRoutes.findUnique,
    DepartmentRoutes.employee_findUnique, createAuditLog.
  unfold_M. simpl.
  destruct (find_by (λ d, Department.name d = _) (departments st)) eqn:En;
    simpl; [intros [= <- <-]; by left|].
  destruct (Js.truthy (DepartmentRoutes.CreateBody.managerId body)); simpl;
    [destruct (bool_decide (find_by _ (employees st) = None));
       [intros [= <- <-]; by left|]|];
    (destruct (Js.truthy (DepartmentRoutes.CreateBody.parentId body)); simpl;
       [destruct (bool_decide (find_by _ (departments st) = None));
          [intros [= <- <-]; by left|]|]);
    (destruct (find_by (λ d, Department.id d = id) (departments st)) eqn:Ei;
       simpl; intros [= <- <-]; [by left|]);
    right; eexists; by repeat split.
Qed.

Lemma department_update_rows_of_handler now req id body user st st' o :
  run (DepartmentMutations.update_handler now req id body user) st
  = (st', o) →
  departments st' = departments st
  ∨ ∃ old,
      find_by (λ d, Department.id d = id) (departments st) = Some old
      ∧ departments st'
        = (λ d, if decide (Department.id d = id)
                then DepartmentMutations.apply_data
                       (DepartmentMutations.update_data body) d
                else d) <$> departments st
      ∧ ∀ n, DepartmentMutations.UpdateBody.name
               (DepartmentMutations.update_data body) = Some n →
             n = Department.name old
             ∨ find_by (λ d, Department.name d = n) (departments st) = None.
Proof.
  unfold DepartmentMutations.update_handler. unfold run, mbind, M_bind.
  cbv zeta.
  unfold DepartmentRoutes.findUnique at 1. unfold gets at 1.
  destruct (find_by (λ d, Department.id d = id) (departments st))
    as [old|] eqn:Eold; [|intros [= <- <-]; by left].
  set (name := DepartmentMutations.UpdateBody.name body).
  assert (Hname :
    (Js.truthy name && bool_decide (name ≠ Some (Department.name old))
     = false
     ∨ find_by (λ d, Department.name d = default "" name) (departments st)
       = None) →
    ∀ n, DepartmentMutations.UpdateBody.name
           (DepartmentMutations.update_data body) = Some n →
         n = Department.name old
         ∨ find_by (λ d, Department.name d = n) (departments st) = None).
  { intros Hok n. unfold DepartmentMutations.update_data. simpl. fold name.
    destruct (Js.truthy name) eqn:Et; [|done]. intros Hn. rewrite Hn in Hok.
    simpl in Hok. destruct Hok as [Hsame|Hnone]; [|by right].
    left. apply bool_decide_eq_false in Hsame.
    destruct (decide (n = Department.name old)); [done|].
    destruct Hsame. congruence. }
  destruct (Js.truthy name && bool_decide (name ≠ Some (Department.name old)))
    eqn:Eb.
  - unfold DepartmentRoutes.findFirst_name at 1. unfold gets at 1.
    destruct (find_by (λ d, Department.name d = default "" name)
                (departments st)) eqn:Ef;
      simpl; [intros [= <- <-]; by left|].
    specialize (Hname (or_intror eq_refl)). revert Hname.
    unfold DepartmentRoutes.employee_findUnique, DepartmentRoutes.findUnique,
      gets, mret, M_ret, throw.
    destruct (Js.truthy (DepartmentMutations.UpdateBody.managerId body));
      simpl;
      [destruct (bool_decide (find_by _ (employees st) = None));
         [intros _ [= <- <-]; by left|]|];
      (destruct (Js.truthy (DepartmentMutations.UpdateBody.parentId body));
         simpl;
         [destruct (bool_decide
                      (DepartmentMutations.UpdateBody.parentId body
                       = Some id));
            simpl; [intros _ [= <- <-]; by left|];
          destruct (bool_decide (find_by _ (departments st) = None));
            [intros _ [= <- <-]; by left|]|]);
      rewrite (department_update_found _ _ _ _ Eold);
      unfold createAuditLog, modify; simpl;
      intros Hname [= <- <-]; right; exists old; by repeat split.
  - specialize (Hname (or_introl eq_refl)). revert Hname.
    unfold DepartmentRoutes.employee_findUnique, DepartmentRoutes.findUnique,
      gets, mret, M_ret, throw. simpl.
    destruct (Js.truthy (DepartmentMutations.UpdateBody.managerId body));
      simpl;
      [destruct (bool_decide (find_by _ (employees st) = None));
         [intros _ [= <- <-]; by left|]|];
      (destruct (Js.truthy (DepartmentMutations.UpdateBody.parentId body));
         simpl;
         [destruct (bool_decide
                      (DepartmentMutations.UpdateBody.parentId body
                       = Some id));
            simpl; [intros _ [= <- <-]; by left|];
          destruct (bool_decide (find_by _ (departments st) = None));
            [intros _ [= <- <-]; by left|]|]);
      rewrite (department_update_found _ _ _ _ Eold);
      unfold createAuditLog, modify; simpl;
      intros Hname [= <- <-]; right; exists old; by repeat split.
Qed.

Lemma department_delete_rows now req id user st st' o :
  run (DepartmentMutations.delete_handler now req id user) st = (st', o) →
  departments st' = departments st
  ∨ departments st'
    = (λ d, if decide (Department.id d = id)
            then DepartmentMutations.apply_data
                   DepartmentMutations.deactivate d
            else d) <$> departments st.
Proof.
  unfold DepartmentMutations.delete_handler. unfold run, mbind, M_bind.
  unfold DepartmentRoutes.findUnique at 1. unfold gets at 1 2 3.
  destruct (find_by (λ d, Department.id d = id) (departments st))
    as [old|] eqn:Eold; [|intros [= <- <-]; by left].
  destruct (bool_decide _); [intros [= <- <-]; by left|].
  destruct (bool_decide _); [intros [= <- <-]; by left|].
  rewrite (department_update_found _ _ _ _ Eold).
  unfold createAuditLog, modify, mret, M_ret. simpl.
  intros [= <- <-]. by right.
Qed.

Lemma department_ids_after_update id data (l : list Department.t) :
  Department.id
  <$> ((λ d, if decide (Department.id d = id)
             then DepartmentMutations.apply_data data d else d) <$> l)
  = Department.id <$> l.
Proof.
  rewrite <- list_fmap_compose. apply list_fmap_ext.
  intros i d _. simpl. by destruct (decide (Department.id d = id)).
Qed.

(** Renaming the row of one id to a name no row has keeps the names
    distinct. *)
Lemma department_names_after_rename id data n (l : list Department.t) :
  DepartmentMutations.UpdateBody.name data = Some n →
  NoDup (Department.id <$> l) →
  NoDup (Department.name <$> l) →
  (∀ d, d ∈ l → Department.name d ≠ n) →
  let upd := λ d, if decide (Department.id d = id)
                  then DepartmentMutations.apply_data data d else d in
  NoDup (Department.name <$> (upd <$> l))
  ∧ (∀ m, m ∈ Department.name <$> (upd <$> l) →
          m = n ∨ m ∈ Department.name <$> l)
  ∧ (n ∈ Department.name <$> (upd <$> l) → id ∈ Department.id <$> l).
Proof.
  intros Hn.
  induction l as [|x l IH]; intros Hids Hnames Hfresh upd.
  { split; [constructor|].
    split; [intros ? Hm|intros Hm]; by apply elem_of_nil in Hm. }
  rewrite !fmap_cons in Hids, Hnames.
  apply NoDup_cons in Hids as [Hx Hids].
  apply NoDup_cons in Hnames as [Hxn Hnames].
  destruct (IH Hids Hnames) as (IH1 & IH2 & IH3).
  { intros d Hd. apply Hfresh. by right. }
  rewrite !fmap_cons. subst upd. simpl.
  destruct (decide (Department.id x = id)) as [Heq|Hne].
  - assert (Hname : Department.name (DepartmentMutations.apply_data data x)
                    = n).
    { unfold DepartmentMutations.apply_data. simpl. by rewrite Hn. }
    rewrite Hname. split; [|split].
    + apply NoDup_cons. split; [|done].
      intros Hin. apply IH3 in Hin. by rewrite Heq in Hx.
    + intros m [->|Hm]%elem_of_cons; [by left|].
      destruct (IH2 m Hm) as [->|?]; [by left|right; by right].
    + intros _. rewrite <- Heq. by left.
  - split; [|split].
    + apply NoDup_cons. split; [|done].
      intros Hin. destruct (IH2 _ Hin) as [Hbad|Hbad]; [|done].
      eapply Hfresh; [|exact Hbad]. by left.
    + intros m [->|Hm]%elem_of_cons; [right; by left|].
      destruct (IH2 m Hm) as [->|?]; [by left|right; by right].
    + intros [Hbad|Hin]%elem_of_cons; [|right; by apply IH3].
      exfalso. eapply Hfresh; [|symmetry; exact Hbad]. by left.
Qed.

(** A row found under an id is, among rows with distinct ids, the only
    row with that id. *)
Lemma department_unique_by_id id (l : list Department.t) old x :
  NoDup (Department.id <$> l) →
  find_by (λ d, Department.id d = id) l = Some old →
  x ∈ l → Department.id x = id → x = old.
Proof.
  intros Hids Hold Hx Hid.
  apply find_by_Some in Hold as [Hin Hoid].
  apply list_elem_of_lookup in Hx as [i Hi].
  apply list_elem_of_lookup in Hin as [j Hj].
  assert (i = j) as ->; [|congruence].
  eapply (NoDup_lookup _ i j (Department.id x) Hids);
    rewrite list_lookup_fmap.
  - by rewrite Hi.
  - rewrite Hj. simpl. congruence.
Qed.

(** X14: POST /, PUT /:id and DELETE /:id of the departments keep the ids
    of the departments pairwise distinct and their names pairwise
    distinct, whatever the inputs and whether the request is answered or
    refused; this holds for every sequence of such requests. *)
Theorem departments_stay_distinct st st' :
  rtc department_step st st' →
  departments_distinct st →
  departments_distinct st'.
Proof.
  intros Hsteps. induction Hsteps as [|s1 s2 s3 Hstep _ IH]; [done|].
  intros [Hids Hnames]. apply IH. clear IH. destruct Hstep.
  - destruct (run (DepartmentRoutes.create_handler _ _ _ _ _) st)
      as [s o] eqn:E.
    apply department_create_rows in E
      as [E|(d & Hname & Hid & Hd & Hdn & E)];
      simpl; unfold departments_distinct; rewrite E; [done|].
    rewrite !fmap_app. simpl. split; apply NoDup_app.
    + split; [done|]. split; [|apply NoDup_singleton].
      intros i (x & -> & Hx)%list_elem_of_fmap
        Hi%list_elem_of_singleton.
      eapply (find_by_None _ _ Hid x); [done|]. congruence.
    + split; [done|]. split; [|apply NoDup_singleton].
      intros m (x & -> & Hx)%list_elem_of_fmap
        Hm%list_elem_of_singleton.
      eapply (find_by_None _ _ Hname x); [done|]. congruence.
  - destruct (run (DepartmentMutations.update_handler _ _ _ _ _) st)
      as [s o] eqn:E.
    apply department_update_rows_of_handler in E
      as [E|(old & Hold & E & Hname)];
      simpl; unfold departments_distinct; rewrite E; [done|].
    rewrite department_ids_after_update. split; [done|].
    destruct (DepartmentMutations.UpdateBody.name
                (DepartmentMutations.update_data body)) as [n|] eqn:En.
    + destruct (Hname n eq_refl) as [Hsame|Hfresh].
      * rewrite <- list_fmap_compose.
        rewrite (list_fmap_ext _ Department.name (departments st));
          [done|].
        intros i x Hx. simpl.
        destruct (decide (Department.id x = id)) as [Hid|]; [|done].
        assert (x = old) as ->.
        { eapply department_unique_by_id; try done.
          by eapply list_elem_of_lookup_2. }
        unfold DepartmentMutations.apply_data. cbn [Department.name].
        by rewrite En.
      * eapply department_names_after_rename; try done.
        intros d Hd. by eapply (find_by_None _ _ Hfresh d).
    + rewrite <- list_fmap_compose.
      rewrite (list_fmap_ext _ Department.name (departments st)); [done|].
      intros i x _. simpl.
      destruct (decide (Department.id x = id)); [|done].
      unfold DepartmentMutations.apply_data. cbn [Department.name].
      by rewrite En.
  - destruct (run (DepartmentMutations.delete_handler _ _ _ _) st)
      as [s o] eqn:E.
    apply department_delete_rows in E as [E|E];
      simpl; unfold departments_distinct; rewrite E; [done|].
    rewrite department_ids_after_update. split; [done|].
    rewrite <- list_fmap_compose.
    rewrite (list_fmap_ext _ Department.name (departments st)); [done|].
    intros i x _. simpl. by destruct (decide (Department.id x = id)).
Qed.

Lemma departments_stay_distinct_witness :
  departments_distinct org_store
  ∧ Department.name
    <$> departments
          (run (DepartmentMutations.update_handler 5000 a_request "d-2"
                  (DepartmentMutations.UpdateBody.mk (Some "Infrastructure")
                     None None None None) dana) org_store).1
    = ["Engineering"; "Infrastructure"; "Sales"]
  ∧ departments_distinct
      (run (DepartmentMutations.update_handler 5000 a_request "d-2"
              (DepartmentMutations.UpdateBody.mk (Some "Infrastructure")
                 None None None None) dana) org_store).1.
Proof.
  assert (Hstart : departments_distinct org_store).
  { split; apply (bool_decide_unpack _); vm_compute; exact I. }
  split; [exact Hstart|]. split; [vm_compute; reflexivity|].
  apply (departments_stay_distinct org_store); [|exact Hstart].
  apply rtc_once, step_department_update.
Defined.

(** A PUT /:id that only names another existing department as parent is
    accepted. *)
Lemma department_set_parent now req id p user st d dp :
  find_by (λ d, Department.id d = id) (departments st) = Some d →
  find_by (λ d, Department.id d = p) (departments st) = Some dp →
  p ≠ id → p ≠ "" →
  let data := DepartmentMutations.UpdateBody.mk None None (Some p) None None in
  ∃ st' resp,
    run (DepartmentMutations.update_handler now req id data user) st
    = (st', Respond 200 resp)
    ∧ departments st'
      = (λ d, if decide (Department.id d = id)
              then DepartmentMutations.apply_data data d else d)
        <$> departments st.
Proof.
  intros Hd Hp Hne Hp0 data.
  unfold DepartmentMutations.update_handler. unfold run, mbind, M_bind.
  cbv zeta.
  unfold DepartmentRoutes.findUnique at 1. unfold gets at 1. rewrite Hd.
  subst data. cbn [DepartmentMutations.UpdateBody.name
                   DepartmentMutations.UpdateBody.managerId
                   DepartmentMutations.UpdateBody.parentId].
  rewrite (truthy_Some p Hp0).
  rewrite (bool_decide_eq_false_2 (Some p = Some id)) by congruence.
  unfold DepartmentRoutes.findUnique at 1. unfold gets at 1.
  simpl. rewrite Hp. simpl.
  rewrite (department_update_found _ _ _ _ Hd).
  unfold createAuditLog, modify, gets, mret, M_ret. simpl.
  eexists _, _. split; reflexivity.
Qed.

(** X15: the parent check of PUT /:id stops a department from naming
    itself, and nothing more: for two distinct existing departments a and
    b, making b the parent of a and then a the parent of b are both
    accepted, and the table then holds a cycle, each the parent of the
    other. *)
Theorem department_parent_cycle_accepted now1 req1 user1 now2 req2 user2 st
    a b da db :
  find_by (λ d, Department.id d = a) (departments st) = Some da →
  find_by (λ d, Department.id d = b) (departments st) = Some db →
  a ≠ b → a ≠ "" → b ≠ "" →
  ∃ st1 st2 resp1 resp2 da' db',
    run (DepartmentMutations.update_handler now1 req1 a
           (DepartmentMutations.UpdateBody.mk None None (Some b) None None)
           user1) st = (st1, Respond 200 resp1)
    ∧ run (DepartmentMutations.update_handler now2 req2 b
             (DepartmentMutations.UpdateBody.mk None None (Some a) None None)
             user2) st1 = (st2, Respond 200 resp2)
    ∧ find_by (λ d, Department.id d = a) (departments st2) = Some da'
    ∧ find_by (λ d, Department.id d = b) (departments st2) = Some db'
    ∧ Department.parentId da' = Some b
    ∧ Department.parentId db' = Some a.
Proof.
  intros Ha Hb Hne Ha0 Hb0.
  assert (Hida : Department.id da = a)
    by (by apply find_by_Some in Ha as [_ ?]).
  assert (Hidb : Department.id db = b)
    by (by apply find_by_Some in Hb as [_ ?]).
  destruct (department_set_parent now1 req1 a b user1 st da db Ha Hb)
    as (st1 & resp1 & Hrun1 & Hrows1); [congruence|done|].
  assert (Ha1 : find_by (λ d, Department.id d = a) (departments st1)
                = Some (DepartmentMutations.apply_data
                          (DepartmentMutations.UpdateBody.mk None None
                             (Some b) None None) da)).
  { rewrite Hrows1, department_find_updated, Ha. simpl.
    by rewrite decide_True. }
  assert (Hb1 : find_by (λ d, Department.id d = b) (departments st1)
                = Some db).
  { rewrite Hrows1, department_find_updated, Hb. simpl.
    by rewrite decide_False by congruence. }
  destruct (department_set_parent now2 req2 b a user2 st1 _ _ Hb1 Ha1)
    as (st2 & resp2 & Hrun2 & Hrows2); [done|done|].
  eexists st1, st2, resp1, resp2, _, _.
  split; [exact Hrun1|]. split; [exact Hrun2|].
  split.
  { rewrite Hrows2, department_find_updated, Ha1. simpl.
    rewrite decide_False by congruence. reflexivity. }
  split.
  { rewrite Hrows2, department_find_updated, Hb1. simpl.
    rewrite decide_True by done. reflexivity. }
  done.
Qed.

Lemma department_parent_cycle_accepted_witness :
  ∃ st2,
    departments st2
    = [engineering;
       Department.mk "d-2" "Platform" None (Some "d-3") None true;
       Department.mk "d-3" "Sales" None (Some "d-2") None true].
Proof.
  destruct (department_parent_cycle_accepted 5000 a_request dana 6000
              a_request dana org_store "d-2" "d-3" platform sales
              eq_refl eq_refl)
    as (st1 & st2 & r1 & r2 & da' & db' & H1 & H2 & _);
    [discriminate|discriminate|discriminate|].
  exists st2.
  vm_compute in H1. injection H1 as <- _.
  vm_compute in H2. injection H2 as <- _.
  reflexivity.
Defined.

(** ** Settings *)

Lemma setting_find_updated id data k (l : list Setting.t) :
  find_by (λ s, Setting.id s = k)
    ((λ s, if decide (Setting.id s = id)
           then SettingCrud.apply_data data s else s) <$> l)
  = (λ s, if decide (Setting.id s = id)
          then SettingCrud.apply_data data s else s)
    <$> find_by (λ s, Setting.id s = k) l.
Proof.
  apply (find_by_fmap Setting.id). intros x.
  by destruct (decide (Setting.id x = id)).
Qed.

(** X16: a setting that POST / has created (201) is the one GET /:id
    answers under the id in the response; it carries the key, value,
    category and visibility of the parsed body and is appended to the
    table. *)
Theorem setting_create_then_get id body st st' s :
  SettingRoutes.create_handler id body st
  = (st', Respond 201 (SettingRoutes.Created s)) →
  SettingCrud.get_handler (Setting.id s) st'
  = (st', Respond 200 (SettingCrud.Row s))
  ∧ s = Setting.mk id (SettingRoutes.Parsed.key body)
          (SettingRoutes.Parsed.value body)
          (SettingRoutes.Parsed.category body)
          (SettingRoutes.Parsed.isPublic body)
  ∧ settings st' = settings st ++ [s]
  ∧ find_by (λ s, Setting.id s = id) (settings st) = None.
Proof.
  unfold SettingRoutes.create_handler, SettingRoutes.create. unfold_M.
  destruct (find_by (λ s, Setting.id s = id) (settings st)) eqn:Efind;
    [done|].
  intros [= <- <-]. simpl. split; [|done].
  unfold SettingCrud.get_handler, SettingCrud.findUnique, gets. simpl.
  rewrite find_by_app_None by done. simpl. by rewrite decide_True.
Qed.

(** X17: GET /:id, PUT /:id and DELETE /:id of the settings answer 404
    "Setting not found" for an id that no setting has, and leave the store
    as it is. *)
Theorem setting_unknown_id id body st :
  find_by (λ s, Setting.id s = id) (settings st) = None →
  SettingCrud.get_handler id st
  = (st, Respond 404 (SettingCrud.Failure "Setting not found"))
  ∧ SettingCrud.update_handler id body st
    = (st, Respond 404 (SettingCrud.Failure "Setting not found"))
  ∧ SettingCrud.delete_handler id st
    = (st, Respond 404 (SettingCrud.Failure "Setting not found")).
Proof.
  intros Hnone.
  unfold SettingCrud.get_handler, SettingCrud.update_handler,
    SettingCrud.delete_handler, SettingCrud.update, SettingCrud.delete,
    SettingCrud.findUnique.
  unfold_M. by rewrite Hnone.
Qed.

(** X18: when PUT /:id answers 200, the answered setting has the id of the
    request, the key and value of the body, and the category and
    visibility of the body where it gives them and of the stored setting
    where it does not; GET /:id answers that setting afterwards, settings
    with other ids are found as before, the table has as many rows as
    before, and no audit entry is written. *)
Theorem setting_update_effects id body st st' s :
  SettingCrud.update_handler id body st
  = (st', Respond 200 (SettingCrud.Row s)) →
  (∃ old,
     find_by (λ s, Setting.id s = id) (settings st) = Some old
     ∧ s = Setting.mk id (SettingRoutes.Parsed.key body)
             (SettingRoutes.Parsed.value body)
             (match SettingRoutes.Parsed.category body with
              | Some c => Some c
              | None => Setting.category old
              end)
             (match SettingRoutes.Parsed.isPublic body with
              | Some p => Some p
              | None => Setting.isPublic old
              end))
  ∧ SettingCrud.get_handler id st' = (st', Respond 200 (SettingCrud.Row s))
  ∧ (∀ other, other ≠ id →
       find_by (λ s, Setting.id s = other) (settings st')
       = find_by (λ s, Setting.id s = other) (settings st))
  ∧ length (settings st') = length (settings st)
  ∧ auditLogs st' = auditLogs st.
Proof.
  unfold SettingCrud.update_handler, SettingCrud.update,
    SettingCrud.findUnique.
  unfold_M.
  destruct (find_by (λ s, Setting.id s = id) (settings st)) as [old|]
    eqn:Eold; [|done].
  intros [= <- <-]. simpl.
  assert (Hid : Setting.id old = id)
    by (by apply find_by_Some in Eold as [_ ?]).
  split.
  { exists old. split; [done|].
    unfold SettingCrud.apply_data, DepartmentMutations.or_keep.
    by rewrite Hid. }
  split.
  { unfold SettingCrud.get_handler, SettingCrud.findUnique, gets. simpl.
    rewrite setting_find_updated, Eold. simpl. by rewrite decide_True. }
  split.
  { intros other Hother. rewrite setting_find_updated.
    destruct (find_by (λ s, Setting.id s = other) (settings st)) as [x|]
      eqn:Ex; [|done].
    simpl. apply find_by_Some in Ex as [_ Hx].
    rewrite decide_False; [done|congruence]. }
  split; [by rewrite length_fmap|done].
Qed.

(** X19: when DELETE /:id answers 200, the setting was in the table and is
    gone from it: GET /:id and a repeated DELETE answer 404, settings with
    other ids are found as before, and no audit entry is written. *)
Theorem setting_delete_effects id st st' :
  SettingCrud.delete_handler id st
  = (st', Respond 200 (SettingCrud.Message "Setting deleted")) →
  is_Some (find_by (λ s, Setting.id s = id) (settings st))
  ∧ SettingCrud.get_handler id st'
    = (st', Respond 404 (SettingCrud.Failure "Setting not found"))
  ∧ SettingCrud.delete_handler id st'
    = (st', Respond 404 (SettingCrud.Failure "Setting not found"))
  ∧ (∀ other, other ≠ id →
       find_by (λ s, Setting.id s = other) (settings st')
       = find_by (λ s, Setting.id s = other) (settings st))
  ∧ auditLogs st' = auditLogs st.
Proof.
  unfold SettingCrud.delete_handler at 1. unfold SettingCrud.delete,
    SettingCrud.findUnique.
  unfold_M.
  destruct (find_by (λ s, Setting.id s = id) (settings st)) as [old|]
    eqn:Eold; [|done].
  intros [= <-]. split; [eauto|].
  assert (Hgone : find_by (λ s, Setting.id s = id)
                    (filter (λ s, Setting.id s ≠ id) (settings st)) = None)
    by apply find_by_filter_out.
  split; [|split; [|split; [|done]]].
  - unfold SettingCrud.get_handler, SettingCrud.findUnique, gets. simpl.
    by rewrite Hgone.
  - unfold SettingCrud.delete_handler, SettingCrud.delete,
      SettingCrud.findUnique.
    unfold_M. simpl. by rewrite Hgone.
  - intros other Hother. simpl. apply find_by_filter_keep.
    intros x <-. done.
Qed.

Lemma setting_create_then_get_witness :
  SettingRoutes.create_handler "s-1" theme_parsed payroll_store
  = (settings_store,
     Respond 201
       (SettingRoutes.Created
          (Setting.mk "s-1" "theme" "dark" (Some "ui") (Some true))))
  ∧ SettingCrud.get_handler "s-1" settings_store
    = (settings_store,
       Respond 200
         (SettingCrud.Row
            (Setting.mk "s-1" "theme" "dark" (Some "ui") (Some true)))).
Proof.
  assert (Hcreate :
    SettingRoutes.create_handler "s-1" theme_parsed payroll_store
    = (settings_store,
       Respond 201
         (SettingRoutes.Created
            (Setting.mk "s-1" "theme" "dark" (Some "ui") (Some true)))))
    by reflexivity.
  split; [exact Hcreate|].
  apply (setting_create_then_get "s-1" theme_parsed payroll_store
           settings_store _ Hcreate).
Defined.

Lemma setting_unknown_id_witness :
  find_by (λ s, Setting.id s = "s-9") (settings settings_store) = None
  ∧ SettingCrud.update_handler "s-9" theme_parsed settings_store
    = (settings_store,
       Respond 404 (SettingCrud.Failure "Setting not found")).
Proof.
  split; [reflexivity|].
  apply (setting_unknown_id "s-9" theme_parsed settings_store eq_refl).
Defined.

Lemma setting_update_effects_witness :
  ∃ st',
    SettingCrud.update_handler "s-1"
      (SettingRoutes.Parsed.mk "theme" "light" None None) settings_store
    = (st', Respond 200
              (SettingCrud.Row
                 (Setting.mk "s-1" "theme" "light" (Some "ui") (Some true))))
    ∧ SettingCrud.get_handler "s-1" st'
      = (st', Respond 200
                (SettingCrud.Row
                   (Setting.mk "s-1" "theme" "light" (Some "ui")
                      (Some true))))
    ∧ auditLogs st' = auditLogs settings_store.
Proof.
  eexists. split; [reflexivity|].
  destruct (setting_update_effects "s-1"
              (SettingRoutes.Parsed.mk "theme" "light" None None)
              settings_store _ _ eq_refl) as (_ & Hget & _ & _ & Haudit).
  split; [exact Hget|exact Haudit].
Defined.

Lemma setting_delete_effects_witness :
  ∃ st',
    SettingCrud.delete_handler "s-1" settings_store
    = (st', Respond 200 (SettingCrud.Message "Setting deleted"))
    ∧ settings st' = []
    ∧ SettingCrud.get_handler "s-1" st'
      = (st', Respond 404 (SettingCrud.Failure "Setting not found")).
Proof.
  eexists. split; [reflexivity|]. split; [reflexivity|].
  destruct (setting_delete_effects "s-1" settings_store _ eq_refl)
    as (_ & Hget & _).
  exact Hget.
Defined.

(** ** Query validation and access to users *)

(** X20: in every query that the audit-log schema accepts, a numeric
    [page] is at least 1 and a numeric [limit] is at most 100; an absent or
    empty [page] is 1 and an absent or empty [limit] is 10; an [action]
    that is kept is one of CREATE, UPDATE, DELETE and VIEW, and a [userId]
    that is kept passed the uuid test.  There is no lower bound on
    [limit]. *)
Theorem audit_query_bounds (is_uuid : string → bool) q v :
  AuditLogRoutes.safeParse is_uuid q = Some v →
  (∀ p, AuditLogRoutes.Validated.page v = Some p → 1 ≤ p)
  ∧ (∀ l, AuditLogRoutes.Validated.limit v = Some l → l ≤ 100)
  ∧ (Js.truthy (AuditLogRoutes.RawQuery.page q) = false →
     AuditLogRoutes.Validated.page v = Some 1)
  ∧ (Js.truthy (AuditLogRoutes.RawQuery.limit q) = false →
     AuditLogRoutes.Validated.limit v = Some 10)
  ∧ (∀ a, AuditLogRoutes.Validated.action v = Some a →
          a ∈ ["CREATE"; "UPDATE"; "DELETE"; "VIEW"])
  ∧ (∀ u, AuditLogRoutes.Validated.userId v = Some u → is_uuid u = true).
Proof.
  unfold AuditLogRoutes.safeParse.
  destruct (AuditLogRoutes.optional (AuditLogRoutes.RawQuery.userId q) is_uuid)
    eqn:Hu; [|done].
  destruct (AuditLogRoutes.optional (AuditLogRoutes.RawQuery.action q) _)
    eqn:Ha; [|done].
  simpl. intros [= <-]. simpl.
  split; [|split; [|split; [|split; [|split]]]].
  - intros p. destruct (Js.truthy _); [|intros [= <-]; lia].
    destruct (Js.parseInt _) as [x|]; simpl; [|done].
    intros [= <-]. lia.
  - intros l. destruct (Js.truthy _); [|intros [= <-]; lia].
    destruct (Js.parseInt _) as [x|]; simpl; [|done].
    intros [= <-]. lia.
  - by intros ->.
  - by intros ->.
  - intros a Hq. rewrite Hq in Ha. simpl in Ha.
    by apply bool_decide_eq_true in Ha.
  - intros u Hq. by rewrite Hq in Hu.
Qed.

Lemma audit_query_bounds_witness :
  AuditLogRoutes.safeParse any_uuid
    (AuditLogRoutes.RawQuery.mk None (Some "VIEW") None (Some "-3")
       (Some "-5"))
  = Some (AuditLogRoutes.Validated.mk None (Some "VIEW") None (Some 1)
            (Some (-5)))
  ∧ ∀ p, Some 1 = Some p → 1 ≤ p.
Proof.
  split; [reflexivity|].
  destruct (audit_query_bounds any_uuid
              (AuditLogRoutes.RawQuery.mk None (Some "VIEW") None (Some "-3")
                 (Some "-5")) _ eq_refl) as (Hpage & _).
  exact Hpage.
Defined.

Section UserAccess.
Context {U : Type}.
Variable getUser : string → M (option U).

(** X21: GET /:id of the users lets a caller read a user only if the id
    is the caller's own or the caller is ADMIN or HR.  A MANAGER or
    EMPLOYEE who asks for another id gets the 403 error "Unauthorized
    access" before the user service is called, so the store is untouched
    whatever the service does; otherwise the answer is the service's: 404
    when it finds no user, and the user with one READ audit entry when it
    does. *)
Theorem user_get_self_or_staff now req id user st :
  (id ≠ Caller.id user →
   Caller.role user = MANAGER ∨ Caller.role user = EMPLOYEE →
   run (UserRoutesAccess.get_handler getUser now req id user) st
   = (st, Next (AppError "Unauthorized access" 403)))
  ∧ (id = Caller.id user
     ∨ Caller.role user = ADMIN ∨ Caller.role user = HR →
     run (UserRoutesAccess.get_handler getUser now req id user) st
     = match getUser id st with
       | (st1, inr (Some u)) =>
           (set_auditLogs (λ l,
              l ++ [AuditLogEntry.mk (Caller.id user) READ "users" (Some id)
                      None None now req]) st1,
            Respond 200
              (UserRoutesAccess.UserBody.mk true "User fetched successfully"
                 u))
       | (st1, inr None) => (st1, Next (AppError "User not found" 404))
       | (st1, inl e) => (st1, Next e)
       end).
Proof.
  unfold UserRoutesAccess.get_handler. split.
  - intros Hother Hrole.
    rewrite (bool_decide_eq_true_2 _ Hother).
    rewrite bool_decide_eq_false_2; [done|].
    destruct Hrole as [-> | ->];
      intros [?|[?|?%elem_of_nil]%elem_of_cons]%elem_of_cons; done.
  - intros Hallowed.
    assert (bool_decide (id ≠ Caller.id user)
            && negb (bool_decide (Caller.role user ∈ [ADMIN; HR])) = false)
      as ->.
    { destruct Hallowed as [->|Hrole].
      - by rewrite bool_decide_eq_false_2 by (intros Hn; by apply Hn).
      - rewrite (bool_decide_eq_true_2 (Caller.role user ∈ [ADMIN; HR])).
        + by rewrite andb_false_r.
        + destruct Hrole as [-> | ->]; [by left|right; by left]. }
    unfold createAuditLog. unfold_M.
    destruct (getUser id st) as [st1 [e|[u|]]]; done.
Qed.

End UserAccess.

Lemma user_get_self_or_staff_witness :
  "u-2" ≠ Caller.id alice
  ∧ Caller.role alice = EMPLOYEE
  ∧ run (UserRoutesAccess.get_handler Prisma.user.findUnique_id 5000
           a_request "u-2" alice) two_users_store
    = (two_users_store, Next (AppError "Unauthorized access" 403)).
Proof.
  split; [discriminate|]. split; [reflexivity|].
  destruct (user_get_self_or_staff Prisma.user.findUnique_id 5000 a_request
              "u-2" alice two_users_store) as [Hdenied _].
  apply Hdenied; [discriminate|by right].
Defined.

Section UserActivity.
Context {A : Type}.
Variable getUserActivity : string → UserRoutesAccess.Paging.t → M A.

(** X22: GET /:id/activity hands the user service a page and a limit that
    are never 0 and never NaN.  For the page as for the limit: an absent
    parameter, one in which [parseInt] reads no number, and one in which it
    reads 0 become the default, 1 for the page and 20 for the limit; any
    other number that [parseInt] reads, a negative one included, is handed
    on as it is.  The answer is the service's, with one READ audit entry
    on "audit_logs". *)
Theorem user_activity_paging now req id page limit user st :
  let paging := UserRoutesAccess.Paging.mk
                  (UserRoutesAccess.parse_or page 1)
                  (UserRoutesAccess.parse_or limit 20) in
  UserRoutesAccess.Paging.page paging ≠ 0
  ∧ UserRoutesAccess.Paging.limit paging ≠ 0
  ∧ (page = None → UserRoutesAccess.Paging.page paging = 1)
  ∧ (limit = None → UserRoutesAccess.Paging.limit paging = 20)
  ∧ (∀ s, page = Some s →
          Js.parseInt s = None ∨ Js.parseInt s = Some 0 →
          UserRoutesAccess.Paging.page paging = 1)
  ∧ (∀ s, limit = Some s →
          Js.parseInt s = None ∨ Js.parseInt s = Some 0 →
          UserRoutesAccess.Paging.limit paging = 20)
  ∧ (∀ s n, page = Some s → Js.parseInt s = Some n → n ≠ 0 →
            UserRoutesAccess.Paging.page paging = n)
  ∧ (∀ s n, limit = Some s → Js.parseInt s = Some n → n ≠ 0 →
            UserRoutesAccess.Paging.limit paging = n)
  ∧ run (UserRoutesAccess.activity_handler getUserActivity now req id page
           limit user) st
    = match getUserActivity id paging st with
      | (st1, inr activities) =>
          (set_auditLogs (λ l,
             l ++ [AuditLogEntry.mk (Caller.id user) READ "audit_logs"
                     (Some id) None None now req]) st1,
           Respond 200
             (UserRoutes.ListBody.mk true "Activity logs fetched successfully"
                activities))
      | (st1, inl e) => (st1, Next e)
      end.
Proof.
  intros paging. subst paging. simpl.
  assert (Hnz : ∀ raw d, d ≠ 0 → UserRoutesAccess.parse_or raw d ≠ 0).
  { intros raw d Hd. unfold UserRoutesAccess.parse_or.
    destruct (Js.parseInt _) as [n|]; [|done]. by case_bool_decide. }
  assert (Hdef : ∀ s d, Js.parseInt s = None ∨ Js.parseInt s = Some 0 →
            UserRoutesAccess.parse_or (Some s) d = d).
  { intros s d [Hs|Hs]; unfold UserRoutesAccess.parse_or; simpl;
      by rewrite Hs. }
  assert (Hnum : ∀ s n d, Js.parseInt s = Some n → n ≠ 0 →
            UserRoutesAccess.parse_or (Some s) d = n).
  { intros s n d Hs Hn. unfold UserRoutesAccess.parse_or. simpl.
    rewrite Hs. by rewrite bool_decide_eq_false_2. }
  split; [by apply Hnz|]. split; [by apply Hnz|].
  split; [by intros ->|]. split; [by intros ->|].
  split; [by intros s ->; apply Hdef|].
  split; [by intros s ->; apply Hdef|].
  split; [by intros s n ->; apply Hnum|].
  split; [by intros s n ->; apply Hnum|].
  unfold UserRoutesAccess.activity_handler, createAuditLog. unfold_M.
  by destruct (getUserActivity id _ st) as [st1 [e|a]].
Qed.

End UserActivity.

Lemma user_activity_paging_witness :
  UserRoutesAccess.parse_or (Some "0") 1 = 1
  ∧ UserRoutesAccess.parse_or (Some "-4") 1 = -4
  ∧ UserRoutesAccess.parse_or (Some "many") 20 = 20
  ∧ UserRoutesAccess.parse_or (Some "3 per page") 20 = 3
  ∧ UserRoutesAccess.parse_or (Some (String "194" (String "160" "5"))) 1
    = 5.
Proof.
  destruct (user_activity_paging (A:=unit) (λ _ _, mret tt) 5000 a_request
              "u-1" (Some "0") (Some "3 per page") dana alice_store)
    as (_ & _ & _ & _ & Hzero & _ & _ & Hlimit & _).
  split; [apply (Hzero "0" eq_refl); by right|].
  destruct (user_activity_paging (A:=unit) (λ _ _, mret tt) 5000 a_request
              "u-1" (Some "-4") (Some "many") dana alice_store)
    as (_ & _ & _ & _ & _ & Hnone & Hnum & _).
  split; [apply (Hnum "-4" (-4) eq_refl eq_refl); discriminate|].
  split; [apply (Hnone "many" eq_refl); by left|].
  split; [apply (Hlimit "3 per page" 3 eq_refl eq_refl); discriminate|].
  destruct (user_activity_paging (A:=unit) (λ _ _, mret tt) 5000 a_request
              "u-1" (Some (String "194" (String "160" "5"))) None dana
              alice_store)
    as (_ & _ & _ & _ & _ & _ & Hspace & _).
  apply (Hspace _ 5 eq_refl eq_refl). discriminate.
Defined.

(** ** The permissions hook *)

(** X23: the permissions of the client form a chain.  Whoever may access
    the settings may manage employees and payroll, whoever may do that may
    view reports and approve leave; managing payroll and managing
    employees are the same permission, as are viewing reports and
    approving leave.  An EMPLOYEE and a visitor who is not signed in have
    none of them, and a check against an empty list of roles fails for
    everybody. *)
Theorem permissions_form_a_chain (user : option Caller.t) :
  (Permissions.canAccessSettings user = true →
   Permissions.canManageEmployees user = true)
  ∧ (Permissions.canManageEmployees user = true →
     Permissions.canViewReports user = true)
  ∧ Permissions.canManagePayroll user = Permissions.canManageEmployees user
  ∧ Permissions.canApproveLeave user = Permissions.canViewReports user
  ∧ Permissions.canAccessSettings user = Permissions.isAdmin user
  ∧ Permissions.canManageEmployees user
    = Permissions.isAdmin user || Permissions.isHR user
  ∧ Permissions.canViewReports user
    = negb (Permissions.isEmployee user) && bool_decide (is_Some user)
  ∧ Permissions.hasRole user [] = false
  ∧ (user = None → ∀ roles, Permissions.hasRole user roles = false).
Proof.
  destruct user as [[id [] employee]|]; vm_compute; repeat split;
    try done; intros; by destruct roles.
Qed.

Lemma permissions_form_a_chain_witness :
  Permissions.canViewReports (Some alice) = false
  ∧ Permissions.canManagePayroll (Some dana) = true
  ∧ Permissions.hasRole (Some dana) [] = false.
Proof.
  destruct (permissions_form_a_chain (Some alice))
    as (_ & _ & _ & _ & _ & _ & Hreports & _).
  destruct (permissions_form_a_chain (Some dana))
    as (Hsettings & _ & Hpayroll & _ & _ & _ & _ & Hempty & _).
  split; [rewrite Hreports; reflexivity|].
  split; [rewrite Hpayroll; apply Hsettings; reflexivity|exact Hempty].
Defined.
